(** * A shallow embedding of the sales REST API (app.py)

    The request-handling core of the Flask application is embedded as
    executable Rocq definitions: the validation utilities, the dual-format
    response encoder, the bearer-token gate, the storage error translator,
    every route handler and the dispatch of exceptions to the registered
    error handlers.

    Conventions.
    - Text is a [string] whose characters are read as code points below 256.
      The Python string methods used by the program ([strip], [lower],
      [startswith], [in], [split]) are defined on that range with the
      character classes CPython uses there.
    - A Python value (JSON body member, query argument, SQL parameter, row
      cell, response payload) is a [value].
    - A call that may raise returns a [result]; a handler is a state-passing
      function over the storage state that returns a [result].
    - What lives outside the repository (the MySQL driver, the PyJWT
      library, the clock, float conversion, the process configuration) is a
      field of the [Runtime] class. *)

From Stdlib Require Import String Ascii ZArith NArith List Bool Lia.
From Stdlib Require Import DecimalString Sorting.Sorted Sorting.Permutation.
Import ListNotations.

Set Warnings "-register-all".

Local Open Scope string_scope.
Local Open Scope Z_scope.

(* ================================================================== *)
(** ** Python text *)

Module Text.

Definition code (c : ascii) : Z := Z.of_N (N_of_ascii c).

Definition chr (n : Z) : ascii := ascii_of_N (Z.to_N n).

(** [str.isspace] on one code point below 256: TAB..CR, FS..US, SPACE,
    NEL (0x85) and NBSP (0xA0). This is also the class [\s] of [re]. *)
Definition isspace (c : ascii) : bool :=
  let n := code c in
  ((9 <=? n) && (n <=? 13)) || ((28 <=? n) && (n <=? 32))
  || (n =? 133) || (n =? 160).

Fixpoint lstrip (s : string) : string :=
  match s with
  | EmptyString => EmptyString
  | String c s' => if isspace c then lstrip s' else s
  end.

Fixpoint rstrip (s : string) : string :=
  match s with
  | EmptyString => EmptyString
  | String c s' =>
      match rstrip s' with
      | EmptyString => if isspace c then EmptyString else String c EmptyString
      | r => String c r
      end
  end.

(** Made of whitespace only. *)
Fixpoint blank (s : string) : bool :=
  match s with
  | EmptyString => true
  | String c s' => isspace c && blank s'
  end.

(** [s.strip()] *)
Definition strip (s : string) : string := rstrip (lstrip s).

(** [str.lower] on one code point below 256: A..Z and the Latin-1 capitals
    0xC0..0xDE (but not the multiplication sign 0xD7) move up by 32. *)
Definition lower_char (c : ascii) : ascii :=
  let n := code c in
  if ((65 <=? n) && (n <=? 90))
     || ((192 <=? n) && (n <=? 222) && negb (n =? 215))
  then chr (n + 32) else c.

Fixpoint lower (s : string) : string :=
  match s with
  | EmptyString => EmptyString
  | String c s' => String (lower_char c) (lower s')
  end.

(** [s.startswith(p)] *)
Definition startswith (s p : string) : bool := String.prefix p s.

(** [sub in s] *)
Fixpoint contains (sub s : string) : bool :=
  String.prefix sub s
  || match s with
     | EmptyString => false
     | String _ s' => contains sub s'
     end.

(** [s.split(" ", 1)]: the text before the first space and, when there is a
    space, the text after it. *)
Fixpoint split_space_once (s : string) : string * option string :=
  match s with
  | EmptyString => (EmptyString, None)
  | String c s' =>
      if Ascii.eqb c " "%char then (EmptyString, Some s')
      else let (a, b) := split_space_once s' in (String c a, b)
  end.

(** [sep.join(l)] *)
Fixpoint join (sep : string) (l : list string) : string :=
  match l with
  | [] => EmptyString
  | [x] => x
  | x :: rest => x ++ sep ++ join sep rest
  end.

(** [str(n)] for an integer *)
Definition str_int (n : Z) : string := NilZero.string_of_int (Z.to_int n).

Definition is_digit (c : ascii) : bool :=
  let n := code c in (48 <=? n) && (n <=? 57).

Definition digit_val (c : ascii) : Z := code c - 48.

(** Two decimal digits, zero padded (the [%02d] of date formatting). *)
Definition pad2 (n : Z) : string :=
  if n <? 10 then "0" ++ str_int n else str_int n.

Definition pad4 (n : Z) : string :=
  if n <? 10 then "000" ++ str_int n
  else if n <? 100 then "00" ++ str_int n
  else if n <? 1000 then "0" ++ str_int n
  else str_int n.

End Text.

(* ================================================================== *)
(** ** Exceptions and results *)

(** The exception classes that can travel through the program. The three
    first are werkzeug HTTP exceptions; [ValueError] is what the header
    store of a response raises for a value with a line break;
    [StorageError] stands for whatever the database driver raises, [text]
    being [str(exc)]. *)
Inductive exn : Type :=
| BadRequest (description : string)
| NotFound
| MethodNotAllowed
| OverflowError (text : string)
| AttributeError (text : string)
| IndexError (text : string)
| ValueError (text : string)
| PyJWTError (text : string)
| StorageError (text : string).

(** [str(exc)] *)
Definition str_exn (e : exn) : string :=
  match e with
  | BadRequest d => "400 Bad Request: " ++ d
  | NotFound =>
      "404 Not Found: The requested URL was not found on the server. If you entered the URL manually please check your spelling and try again."
  | MethodNotAllowed =>
      "405 Method Not Allowed: The method is not allowed for the requested URL."
  | OverflowError t | AttributeError t | IndexError t | ValueError t
  | PyJWTError t | StorageError t => t
  end.

Inductive result (A : Type) : Type :=
| Return (a : A)
| Raise (e : exn).
Arguments Return {A} a.
Arguments Raise {A} e.

Definition rbind {A B} (r : result A) (k : A -> result B) : result B :=
  match r with
  | Return a => k a
  | Raise e => Raise e
  end.

Declare Scope result_scope.
Delimit Scope result_scope with result.
Notation "x <- r ;; k" := (rbind r (fun x => k))
  (at level 61, r at next level, right associativity) : result_scope.

(* ================================================================== *)
(** ** Dates *)

Module Datetime.

Record date : Type := mkdate { year : Z; month : Z; day : Z }.

Definition is_leap (y : Z) : bool :=
  (y mod 4 =? 0) && (negb (y mod 100 =? 0) || (y mod 400 =? 0)).

Definition _days_in_month : list Z :=
  [0; 31; 28; 31; 30; 31; 30; 31; 31; 30; 31; 30; 31].

Definition _days_before_month : list Z :=
  [0; 0; 31; 59; 90; 120; 151; 181; 212; 243; 273; 304; 334].

(** Table lookup; an index outside the table reads 0 here. The only such
    reads come from week dates of year 0, which the range check of the
    date constructor rejects whatever was read. *)
Definition table (t : list Z) (i : Z) : Z :=
  if i <? 0 then 0 else nth (Z.to_nat i) t 0.

Definition days_in_month (y m : Z) : Z :=
  if (m =? 2) && is_leap y then 29 else table _days_in_month m.

Definition days_before_month (y m : Z) : Z :=
  table _days_before_month m + (if (2 <? m) && is_leap y then 1 else 0).

(** The C code divides with truncation toward zero ([Z.quot], [Z.rem]). *)
Definition days_before_year (y0 : Z) : Z :=
  let y := y0 - 1 in
  y * 365 + Z.quot y 4 - Z.quot y 100 + Z.quot y 400.

Definition ymd_to_ord (y m d : Z) : Z :=
  days_before_year y + days_before_month y m + d.

Definition weekday (y m d : Z) : Z := Z.rem (ymd_to_ord y m d + 6) 7.

Definition iso_week1_monday (y : Z) : Z :=
  let first_day := ymd_to_ord y 1 1 in
  let first_weekday := Z.rem (first_day + 6) 7 in
  let week1_monday := first_day - first_weekday in
  if 3 <? first_weekday then week1_monday + 7 else week1_monday.

Definition ord_to_ymd (ordinal0 : Z) : Z * Z * Z :=
  let ordinal := ordinal0 - 1 in
  let n400 := Z.quot ordinal 146097 in
  let n := Z.rem ordinal 146097 in
  let n100 := Z.quot n 36524 in
  let n := Z.rem n 36524 in
  let n4 := Z.quot n 1461 in
  let n := Z.rem n 1461 in
  let n1 := Z.quot n 365 in
  let n := Z.rem n 365 in
  let y := n400 * 400 + 1 + n100 * 100 + n4 * 4 + n1 in
  if (n1 =? 4) || (n100 =? 4) then (y - 1, 12, 31)
  else
    let leapyear := (n1 =? 3) && (negb (n4 =? 24) || (n100 =? 3)) in
    let m := Z.shiftr (n + 50) 5 in
    let preceding :=
      table _days_before_month m + (if (2 <? m) && leapyear then 1 else 0) in
    if n <? preceding
    then (y, m - 1, n - (preceding - days_in_month y (m - 1)) + 1)
    else (y, m, n - preceding + 1).

(** ISO year, week, weekday to year, month, day; [None] when the week or
    the weekday is out of range. *)
Definition iso_to_ymd (iso_year iso_week iso_day : Z) : option (Z * Z * Z) :=
  let week_ok :=
    if (iso_week <=? 0) || (53 <=? iso_week) then
      if iso_week =? 53 then
        let first_weekday := weekday iso_year 1 1 in
        (first_weekday =? 3) || ((first_weekday =? 2) && is_leap iso_year)
      else false
    else true in
  if negb week_ok then None
  else if (iso_day <=? 0) || (8 <=? iso_day) then None
  else
    let day_1 := iso_week1_monday iso_year in
    let day_offset := (iso_week - 1) * 7 + iso_day - 1 in
    Some (ord_to_ymd (day_1 + day_offset)).

(** The UTF-8 encoding of a text of code points below 256. *)
Fixpoint utf8 (s : string) : list Z :=
  match s with
  | EmptyString => []
  | String c s' =>
      let n := Text.code c in
      if n <? 128 then n :: utf8 s'
      else (192 + Z.shiftr n 6) :: (128 + Z.land n 63) :: utf8 s'
  end.

(** Reads exactly [n] ASCII digits. *)
Fixpoint parse_digits (p : list Z) (n : nat) (acc : Z) : option (Z * list Z) :=
  match n with
  | O => Some (acc, p)
  | S n' =>
      match p with
      | c :: p' =>
          if (48 <=? c) && (c <=? 57)
          then parse_digits p' n' (acc * 10 + (c - 48))
          else None
      | [] => None
      end
  end.

(** The byte at [p] is [c] (the end of the text is no byte at all). *)
Definition at_byte (c : Z) (p : list Z) : bool :=
  match p with
  | x :: _ => x =? c
  | [] => false
  end.

(** Consumes the separator when the date is written with separators. *)
Definition expect_sep (uses_separator : bool) (p : list Z) : option (list Z) :=
  if uses_separator then
    if at_byte 45 p then Some (tl p) else None
  else Some p.

(** Year, then either [W]eek and optional weekday, or month and day; 45 is
    the dash and 87 the letter W. Bytes after the day are not looked at. *)
Definition parse_isoformat_date (b : list Z) : option (Z * Z * Z) :=
  match parse_digits b 4 0 with
  | None => None
  | Some (y, p) =>
      let uses_separator := at_byte 45 p in
      let p := if uses_separator then tl p else p in
      if at_byte 87 p then
        match parse_digits (tl p) 2 0 with
        | None => None
        | Some (iso_week, p) =>
            match p with
            | [] => iso_to_ymd y iso_week 1
            | _ :: _ =>
                match expect_sep uses_separator p with
                | None => None
                | Some p =>
                    match parse_digits p 1 0 with
                    | None => None
                    | Some (iso_day, _) => iso_to_ymd y iso_week iso_day
                    end
                end
            end
        end
      else
        match parse_digits p 2 0 with
        | None => None
        | Some (m, p) =>
            match expect_sep uses_separator p with
            | None => None
            | Some p =>
                match parse_digits p 2 0 with
                | None => None
                | Some (d, _) => Some (y, m, d)
                end
            end
        end
  end.

(** The range check of the [date] constructor (MINYEAR = 1, MAXYEAR = 9999). *)
Definition check_date_args (y m d : Z) : bool :=
  (1 <=? y) && (y <=? 9999) && (1 <=? m) && (m <=? 12)
  && (1 <=? d) && (d <=? days_in_month y m).

(** [date.fromisoformat(s)] as CPython 3.11 implements it: the encoded text
    must be 7, 8 or 10 bytes long; [None] is [ValueError]. *)
Definition fromisoformat (s : string) : option date :=
  let b := utf8 s in
  let len := Z.of_nat (List.length b) in
  if (len =? 7) || (len =? 8) || (len =? 10) then
    match parse_isoformat_date b with
    | Some (y, m, d) =>
        if check_date_args y m d then Some (mkdate y m d) else None
    | None => None
    end
  else None.

(** [str(d)], the ISO form YYYY-MM-DD. *)
Definition isoformat (d : date) : string :=
  Text.pad4 (year d) ++ "-" ++ Text.pad2 (month d) ++ "-" ++ Text.pad2 (day d).

End Datetime.

(* ================================================================== *)
(** ** Python values *)

(** A binary float: [Finite m e] is the number m * 2^e (every finite double
    has this form); the two infinities and NaN are separate values. *)
Inductive pyfloat : Type :=
| Finite (m e : Z)
| Infinity (negative : bool)
| NaN.

Inductive value : Type :=
| VNone
| VBool (b : bool)
| VInt (n : Z)
| VFloat (x : pyfloat)
| VStr (s : string)
| VDate (d : Datetime.date)
| VDateTime (text : string)   (* a [datetime]; [text] is its [str()] *)
| VList (l : list value)
| VDict (items : list (string * value)).

(** Truth value testing ([if v], [v or default], [not v]). *)
Definition truthy (v : value) : bool :=
  match v with
  | VNone => false
  | VBool b => b
  | VInt n => negb (n =? 0)
  | VFloat (Finite m _) => negb (m =? 0)
  | VFloat _ => true
  | VStr s => negb (String.eqb s "")
  | VDate _ | VDateTime _ => true
  | VList l => match l with [] => false | _ => true end
  | VDict items => match items with [] => false | _ => true end
  end.

(** [type(v).__name__] *)
Definition type_name (v : value) : string :=
  match v with
  | VNone => "NoneType"
  | VBool _ => "bool"
  | VInt _ => "int"
  | VFloat _ => "float"
  | VStr _ => "str"
  | VDate _ => "datetime.date"
  | VDateTime _ => "datetime.datetime"
  | VList _ => "list"
  | VDict _ => "dict"
  end.

(** [a or b] *)
Definition por (a b : value) : value := if truthy a then a else b.

(** Dictionaries keep their items in insertion order with unique keys. *)
Fixpoint dict_get (items : list (string * value)) (k : string) : option value :=
  match items with
  | [] => None
  | (k', v) :: rest => if String.eqb k' k then Some v else dict_get rest k
  end.

(** [d[k] = v] *)
Fixpoint dict_set (items : list (string * value)) (k : string) (v : value)
  : list (string * value) :=
  match items with
  | [] => [(k, v)]
  | (k', v') :: rest =>
      if String.eqb k' k then (k, v) :: rest
      else (k', v') :: dict_set rest k v
  end.

(** [dict(pairs)] *)
Definition dict_of (pairs : list (string * value)) : list (string * value) :=
  fold_left (fun d kv => dict_set d (fst kv) (snd kv)) pairs [].

(** Outcome of a builtin conversion ([int(v)], [float(v)]). *)
Inductive conv (A : Type) : Type :=
| Converted (a : A)
| TypeErr
| ValueErr
| OverflowErr.
Arguments Converted {A} a.
Arguments TypeErr {A}.
Arguments ValueErr {A}.
Arguments OverflowErr {A}.

Module Builtins.

(** Whitespace that [int(str)] skips: the C [isspace] class, and the
    non-ASCII Unicode spaces (which it first rewrites to a blank). Unlike
    [str.strip] it does not skip FS..US. *)
Definition int_space (c : ascii) : bool :=
  let n := Text.code c in
  ((9 <=? n) && (n <=? 13)) || (n =? 32) || (n =? 133) || (n =? 160).

Fixpoint int_lstrip (s : string) : string :=
  match s with
  | EmptyString => EmptyString
  | String c s' => if int_space c then int_lstrip s' else s
  end.

Fixpoint int_rstrip (s : string) : string :=
  match s with
  | EmptyString => EmptyString
  | String c s' =>
      match int_rstrip s' with
      | EmptyString => if int_space c then EmptyString else String c EmptyString
      | r => String c r
      end
  end.

(** Digits with single underscores between them. [prev_us] tells that the
    previous character was an underscore (or that no digit was read yet);
    the result is the value and the number of digits. *)
Fixpoint int_digits (s : string) (prev_us : bool) (acc : Z) (digits : Z)
  : option (Z * Z) :=
  match s with
  | EmptyString => if prev_us then None else Some (acc, digits)
  | String c s' =>
      if Text.is_digit c
      then int_digits s' false (acc * 10 + Text.digit_val c) (digits + 1)
      else if Ascii.eqb c "_"%char
      then if prev_us then None else int_digits s' true acc digits
      else None
  end.

(** [sys.get_int_max_str_digits()] *)
Definition int_max_str_digits : Z := 4300.

(** [int(s)] for a text, base 10. *)
Definition int_str (s : string) : conv Z :=
  let body := int_rstrip (int_lstrip s) in
  let (negative, body) :=
    match body with
    | String "+" r => (false, r)
    | String "-" r => (true, r)
    | _ => (false, body)
    end in
  match int_digits body true 0 0 with
  | None => ValueErr
  | Some (n, digits) =>
      if int_max_str_digits <? digits then ValueErr
      else Converted (if negative then - n else n)
  end.

(** [int(x)] for a float: truncation toward zero. *)
Definition int_float (x : pyfloat) : conv Z :=
  match x with
  | Finite m e =>
      Converted (if 0 <=? e then m * 2 ^ e else Z.quot m (2 ^ (- e)))
  | Infinity _ => OverflowErr
  | NaN => ValueErr
  end.

(** [int(v)] *)
Definition int (v : value) : conv Z :=
  match v with
  | VBool b => Converted (if b then 1 else 0)
  | VInt n => Converted n
  | VFloat x => int_float x
  | VStr s => int_str s
  | VNone | VDate _ | VDateTime _ | VList _ | VDict _ => TypeErr
  end.

End Builtins.

(** ** What the program takes from outside the repository *)

(** The cursor after a statement: [fetched] is what [fetchone]/[fetchall]
    will hand out, either dictionaries (DictCursor) or tuples to be zipped
    with [description]. *)
Inductive rowset : Type :=
| DictRows (rows : list (list (string * value)))
| TupleRows (rows : list (list value)).

Record cursor : Type := mkcursor {
  rowcount : Z;
  lastrowid : Z;
  description : list string;
  fetched : rowset
}.

(** Outcome of a driver call: done, or an exception whose [str()] is given. *)
Inductive driver (A : Type) : Type :=
| Done (a : A)
| Failed (text : string).
Arguments Done {A} a.
Arguments Failed {A} text.

(** Outcome of [jwt.decode]. [DecodeOtherError] is an exception that is not
    an [InvalidTokenError] (a key the library refuses, say). *)
Inductive jwt_outcome : Type :=
| Decoded (claims : value)
| ExpiredSignatureError
| InvalidTokenError
| DecodeOtherError (text : string).

Class Runtime : Type := {
  (** the state of the database server *)
  DB : Type;
  (** [_db()]: [mysql.connection] and [conn.cursor()] *)
  db_connect : DB -> driver unit * DB;
  (** [cur.execute(sql, params)] *)
  db_execute : string -> list value -> DB -> driver cursor * DB;
  (** [conn.commit()] *)
  db_commit : DB -> driver unit * DB;
  (** [jwt.decode(token, key, algorithms=["HS256"])] at the time of the request *)
  jwt_decode : string -> string -> jwt_outcome;
  (** [jwt.encode(payload, key, algorithm="HS256")] *)
  jwt_encode : value -> string -> string;
  (** [dt.datetime.now(dt.timezone.utc).timestamp()], truncated *)
  now_timestamp : Z;
  (** [float(s)] for a text and [float(n)] for an integer *)
  float_of_str : string -> conv pyfloat;
  float_of_int : Z -> conv pyfloat;
  (** [os.getenv(name)] when the application was created *)
  getenv : string -> option string;
  (** Flask's PROPAGATE_EXCEPTIONS (set when testing or debugging) *)
  propagate_exceptions : bool
}.

(* ================================================================== *)
(** ** Validation utilities *)

Section Validation.

Context {R : Runtime}.

(** [float(v)] *)
Definition float (v : value) : conv pyfloat :=
  match v with
  | VBool b => Converted (Finite (if b then 1 else 0) 0)
  | VInt n => float_of_int n
  | VFloat x => Converted x
  | VStr s => float_of_str s
  | VNone | VDate _ | VDateTime _ | VList _ | VDict _ => TypeErr
  end.

Definition _parse_int (v : value) (field : string) (minimum : option Z)
  : result Z :=
  match Builtins.int v with
  | Converted parsed =>
      match minimum with
      | Some m =>
          if parsed <? m
          then Raise (BadRequest (field ++ " must be >= " ++ Text.str_int m))
          else Return parsed
      | None => Return parsed
      end
  | TypeErr | ValueErr => Raise (BadRequest (field ++ " must be an integer"))
  | OverflowErr => Raise (OverflowError "cannot convert float infinity to integer")
  end.

Definition _parse_decimal (v : value) (field : string) : result pyfloat :=
  match float v with
  | Converted parsed => Return parsed
  | TypeErr | ValueErr => Raise (BadRequest (field ++ " must be a number"))
  | OverflowErr => Raise (OverflowError "int too large to convert to float")
  end.

(** [isinstance(v, str)] *)
Definition is_str (v : value) : bool :=
  match v with VStr _ => true | _ => false end.

Definition _parse_date (v : value) (field : string) : result Datetime.date :=
  if negb (truthy v) || negb (is_str v)
  then Raise (BadRequest (field ++ " must be a date string (YYYY-MM-DD)"))
  else
    match v with
    | VStr s =>
        match Datetime.fromisoformat s with
        | Some d => Return d
        | None => Raise (BadRequest (field ++ " must be a date string (YYYY-MM-DD)"))
        end
    | _ => Raise (BadRequest (field ++ " must be a date string (YYYY-MM-DD)"))
    end.

(** The character class [[^@\s]] *)
Definition email_char (c : ascii) : bool :=
  negb (Ascii.eqb c "@"%char) && negb (Text.isspace c).

Fixpoint all_email_chars (s : string) : bool :=
  match s with
  | EmptyString => true
  | String c s' => email_char c && all_email_chars s'
  end.

(** A dot that has at least one character before it and one after it. *)
Fixpoint has_inner_dot (s : string) (seen_before : bool) : bool :=
  match s with
  | EmptyString => false
  | String c s' =>
      (seen_before && Ascii.eqb c "."%char
       && negb (String.eqb s' EmptyString))
      || has_inner_dot s' true
  end.

(** The text before the first [@] and the text after it. *)
Fixpoint split_at (s : string) : option (string * string) :=
  match s with
  | EmptyString => None
  | String c s' =>
      if Ascii.eqb c "@"%char then Some (EmptyString, s')
      else match split_at s' with
           | Some (a, b) => Some (String c a, b)
           | None => None
           end
  end.

(** A match of [[^@\s]+@[^@\s]+\.[^@\s]+] over the whole of [s]. *)
Definition email_shape (s : string) : bool :=
  match split_at s with
  | Some (local_part, rest) =>
      negb (String.eqb local_part EmptyString)
      && all_email_chars local_part
      && all_email_chars rest
      && has_inner_dot rest false
  | None => false
  end.

(** [s] without its last character when that one is a newline. *)
Fixpoint chop_newline (s : string) : option string :=
  match s with
  | EmptyString => None
  | String c EmptyString =>
      if Ascii.eqb c (Text.chr 10) then Some EmptyString else None
  | String c s' =>
      match chop_newline s' with
      | Some r => Some (String c r)
      | None => None
      end
  end.

(** [_EMAIL_RE.match(s)]: the final [$] also matches just before a newline
    that ends the text. *)
Definition _EMAIL_RE_match (s : string) : bool :=
  email_shape s
  || match chop_newline s with
     | Some s' => email_shape s'
     | None => false
     end.

Definition _validate_email (email : value) : result string :=
  match email with
  | VStr s =>
      if _EMAIL_RE_match s then Return s
      else Raise (BadRequest "email must be a valid email address")
  | _ => Raise (BadRequest "email must be a valid email address")
  end.

End Validation.

(* ================================================================== *)
(** ** Requests and responses *)

Inductive resource : Type := Categories | Regions | Customers | Products | Sales.

(** What URL routing found for the request: one of the registered rules
    (an [<int:...>] segment already converted), no rule at all, or a rule
    that does not allow the method. *)
Inductive route : Type :=
| Health                                 (* GET /health *)
| Login                                  (* POST /auth/login *)
| ListOf (r : resource)                  (* GET /api/<r> *)
| CreateOf (r : resource)                (* POST /api/<r> *)
| GetOf (r : resource) (id : Z)          (* GET /api/<r>/<int:id> *)
| UpdateOf (r : resource) (id : Z)       (* PUT /api/<r>/<int:id> *)
| DeleteOf (r : resource) (id : Z)       (* DELETE /api/<r>/<int:id> *)
| SearchSales                            (* GET /api/sales/search *)
| NoRoute
| WrongMethod.

Record request : Type := mkrequest {
  url_rule : route;
  (** [request.args], the query parameters in the order they were sent *)
  args : list (string * string);
  (** the Authorization header, when the request has one *)
  authorization : option string;
  (** [request.get_json(silent=True)]: [None] when the body is not JSON *)
  json : option value
}.

(** [request.args.get(k)]: the first value sent for [k]. *)
Fixpoint args_get (a : list (string * string)) (k : string) : option string :=
  match a with
  | [] => None
  | (k', v) :: rest => if String.eqb k' k then Some v else args_get rest k
  end.

(** The body of a response is kept as the encoder call that produced it:
    [jsonify(payload)] or [dicttoxml(payload, custom_root=root, attr_type=False)]. *)
Inductive body : Type :=
| Jsonify (payload : value)
| Dicttoxml (payload : value) (custom_root : string).

Record Response : Type := mkResponse {
  status : Z;
  headers : list (string * string);
  data : body
}.

(** [resp.headers[k] = v] *)
Fixpoint set_header (h : list (string * string)) (k v : string)
  : list (string * string) :=
  match h with
  | [] => [(k, v)]
  | (k', v') :: rest =>
      if String.eqb k' k then (k, v) :: rest else (k', v') :: set_header rest k v
  end.

Definition with_header (resp : Response) (k v : string) : Response :=
  mkResponse (status resp) (set_header (headers resp) k v) (data resp).

(** The check of werkzeug's header store on a value: a carriage return or
    a line feed in it is refused. *)
Definition has_line_break (v : string) : bool :=
  existsb (fun c => Ascii.eqb c "010"%char || Ascii.eqb c "013"%char)
    (list_ascii_of_string v).

(** [resp.headers[k] = v] as a statement of a handler: werkzeug raises
    [ValueError] for a value with a line break and stores the value
    otherwise (the framework percent-encodes a Location when it sends the
    response; the response here holds the value as assigned). *)
Definition headers_setitem (resp : Response) (k v : string) : result Response :=
  if has_line_break v
  then Raise (ValueError "Header values must not contain newline characters.")
  else Return (with_header resp k v).

Definition header (resp : Response) (k : string) : option string :=
  args_get (headers resp) k.

(* ================================================================== *)
(** ** Format selection and the response encoder *)

Definition _get_format (req : request) : result string :=
  let raw :=
    match args_get (args req) "format" with
    | Some v => if String.eqb v "" then "json" else v
    | None => "json"
    end in
  let fmt := Text.lower (Text.strip raw) in
  if String.eqb fmt "json" || String.eqb fmt "xml" then Return fmt
  else Raise (BadRequest "format must be 'json' or 'xml'").

Definition _to_xml (payload : value) (root : string) : body :=
  Dicttoxml payload root.

Definition api_response (req : request) (payload : value) (st : Z) (root : string)
  : result Response :=
  (fmt <- _get_format req ;;
   if String.eqb fmt "xml" then
     Return (mkResponse st
               [("Content-Type", "application/xml; charset=utf-8")]
               (_to_xml payload root))
   else
     Return (mkResponse st [("Content-Type", "application/json")]
               (Jsonify payload)))%result.

Definition error_response (req : request) (message : string) (st : Z)
  (details : option (list (string * value))) : result Response :=
  let payload := [("error", VStr message); ("status", VInt st)] in
  let payload :=
    match details with
    | Some ((_ :: _) as d) => dict_set payload "details" (VDict d)
    | _ => payload
    end in
  api_response req (VDict payload) st "error".

Definition _format_suffix (req : request) : string :=
  match args_get (args req) "format" with
  | Some fmt => if String.eqb fmt "" then "" else "?format=" ++ fmt
  | None => ""
  end.

(* ================================================================== *)
(** ** Handlers: state passing over the storage, with exceptions *)

Definition M (S A : Type) : Type := S -> result A * S.

Definition ret {S A} (a : A) : M S A := fun s => (Return a, s).

Definition raise {S A} (e : exn) : M S A := fun s => (Raise e, s).

(** A call that does not touch the storage. *)
Definition lift {S A} (r : result A) : M S A := fun s => (r, s).

Definition bind {S A B} (m : M S A) (k : A -> M S B) : M S B :=
  fun s =>
    match m s with
    | (Return a, s') => k a s'
    | (Raise e, s') => (Raise e, s')
    end.

(** [try: body / except Exception as e: handler(e)] *)
Definition try_except {S A} (body : M S A) (handler : exn -> M S A) : M S A :=
  fun s =>
    match body s with
    | (Return a, s') => (Return a, s')
    | (Raise e, s') => handler e s'
    end.

(** A driver call; its failure is raised as a [StorageError]. *)
Definition driver_call {S A} (f : S -> driver A * S) : M S A :=
  fun s =>
    match f s with
    | (Done a, s') => (Return a, s')
    | (Failed text, s') => (Raise (StorageError text), s')
    end.

Declare Scope handler_scope.
Delimit Scope handler_scope with H.
Notation "x <- m ;; k" := (bind m (fun x => k))
  (at level 61, m at next level, right associativity) : handler_scope.

(** A triple-quoted SQL text as the source indents it: every line starts
    with a newline and four tabs, and so does the closing quote. *)
Definition LF : string := String (Text.chr 10) EmptyString.
Definition TAB : string := String (Text.chr 9) EmptyString.
Definition sql_indent : string := LF ++ TAB ++ TAB ++ TAB ++ TAB.
Definition sql_block (lines : list string) : string :=
  fold_right (fun l s => sql_indent ++ l ++ s) sql_indent lines.

Section App.

Context {R : Runtime}.

Definition view : Type := request -> M DB Response.

(** *** Configuration (config.py and the overrides of [create_app]) *)

Definition os_getenv (name default : string) : string :=
  match getenv name with Some v => v | None => default end.

Definition Config_JWT_SECRET_KEY : string :=
  os_getenv "JWT_SECRET_KEY" "your_jwt_secret_key".
Definition Config_API_USERNAME : string := os_getenv "API_USERNAME" "admin".
Definition Config_API_PASSWORD : string := os_getenv "API_PASSWORD" "password".

Definition _env (name default : string) : string :=
  match getenv name with
  | None => default
  | Some v => v
  end.

Definition JWT_SECRET_KEY : string := _env "JWT_SECRET_KEY" Config_JWT_SECRET_KEY.
Definition API_USERNAME : string := _env "API_USERNAME" Config_API_USERNAME.
Definition API_PASSWORD : string := _env "API_PASSWORD" Config_API_PASSWORD.

(** *** Token issue and the auth gate *)

Definition _generate_token (username secret : string) (expires_minutes : Z)
  : string :=
  let payload :=
    VDict [("sub", VStr username);
           ("iat", VInt now_timestamp);
           ("exp", VInt (now_timestamp + 60 * expires_minutes))] in
  jwt_encode payload secret.

Definition require_jwt (fn : view) : view :=
  fun req =>
    let header := match authorization req with Some h => h | None => "" end in
    if negb (Text.startswith header "Bearer ")
    then lift (error_response req "Missing or invalid Authorization header" 401 None)
    else
      match snd (Text.split_space_once header) with
      | None => raise (IndexError "list index out of range")
      | Some rest =>
          let token := Text.strip rest in
          match jwt_decode token JWT_SECRET_KEY with
          | Decoded _ => fn req
          | ExpiredSignatureError => lift (error_response req "Token expired" 401 None)
          | InvalidTokenError => lift (error_response req "Invalid token" 401 None)
          | DecodeOtherError text => raise (PyJWTError text)
          end
      end.

(** *** Storage helpers *)

Definition _fetchone_dict (cur : cursor) : option (list (string * value)) :=
  match fetched cur with
  | DictRows (row :: _) => Some row
  | TupleRows (row :: _) => Some (dict_of (combine (description cur) row))
  | _ => None
  end.

Definition _fetchall_dict (cur : cursor) : list (list (string * value)) :=
  match fetched cur with
  | DictRows rows => rows
  | TupleRows rows => map (fun r => dict_of (combine (description cur) r)) rows
  end.

Definition _db : M DB unit := driver_call db_connect.

Definition execute (sql : string) (params : list value) : M DB cursor :=
  driver_call (db_execute sql params).

Definition commit : M DB unit := driver_call db_commit.

Definition _handle_db_error (req : request) (exc : exn) : result Response :=
  let msg := str_exn exc in
  if Text.contains "Duplicate entry" msg
  then error_response req "Conflict (duplicate key)" 409 None
  else error_response req "Database error" 500 None.

(** *** Reading the JSON body *)

(** [request.get_json(silent=True) or {}] *)
Definition get_json_or_empty (req : request) : value :=
  por (match json req with Some v => v | None => VNone end) (VDict []).

(** [body.get(k)] *)
Definition body_get (b : value) (k : string) : result value :=
  match b with
  | VDict items =>
      Return (match dict_get items k with Some v => v | None => VNone end)
  | _ => Raise (AttributeError
                  ("'" ++ type_name b ++ "' object has no attribute 'get'"))
  end.

(** [(v or "").strip()] *)
Definition or_empty_strip (v : value) : result string :=
  match por v (VStr "") with
  | VStr s => Return (Text.strip s)
  | w => Raise (AttributeError
                  ("'" ++ type_name w ++ "' object has no attribute 'strip'"))
  end.

(** [if isinstance(r.get(k), (dt.date, dt.datetime)): r[k] = str(r[k])] *)
Definition stringify_date (k : string) (r : list (string * value))
  : list (string * value) :=
  match dict_get r k with
  | Some (VDate d) => dict_set r k (VStr (Datetime.isoformat d))
  | Some (VDateTime t) => dict_set r k (VStr t)
  | _ => r
  end.

Definition items_payload (rows : list (list (string * value))) : value :=
  VDict [("items", VList (map VDict rows))].

(** The [except Exception as e: return _handle_db_error(e)] of every
    handler. *)
Definition db_guard (req : request) (block : M DB Response) : M DB Response :=
  try_except block (fun e => lift (_handle_db_error req e)).

End App.

(* ================================================================== *)
(** ** The views *)

Section Views.

Context {R : Runtime}.

Local Open Scope handler_scope.

Definition health : view :=
  fun req => lift (api_response req (VDict [("status", VStr "ok")]) 200 "response").

(** [username != API_USERNAME]: a body member equals a configured text only
    when it is that text. *)
Definition differs (v : value) (s : string) : bool :=
  match v with
  | VStr t => negb (String.eqb t s)
  | _ => true
  end.

Definition login : view :=
  fun req =>
    let body := get_json_or_empty req in
    username <- lift (body_get body "username") ;;
    password <- lift (body_get body "password") ;;
    if differs username API_USERNAME || differs password API_PASSWORD
    then lift (error_response req "Invalid credentials" 401 None)
    else
      (* [str(username)]: here [username] is the configured text *)
      let token := _generate_token (match username with VStr s => s | _ => "" end)
                     JWT_SECRET_KEY 60 in
      lift (api_response req
              (VDict [("access_token", VStr token);
                      ("token_type", VStr "Bearer");
                      ("expires_in", VInt 3600)]) 200 "response").

(** *** Categories *)

Definition list_categories : view :=
  fun req =>
    db_guard req (
      _ <- _db ;;
      cur <- execute "SELECT category_id, category_name FROM categories ORDER BY category_id" [] ;;
      lift (api_response req (items_payload (_fetchall_dict cur)) 200 "response")).

Definition create_category : view :=
  fun req =>
    let body := get_json_or_empty req in
    v <- lift (body_get body "category_name") ;;
    name <- lift (or_empty_strip v) ;;
    if String.eqb name ""
    then lift (error_response req "category_name is required" 400 None)
    else
      db_guard req (
        _ <- _db ;;
        cur <- execute "INSERT INTO categories (category_name) VALUES (%s)" [VStr name] ;;
        _ <- commit ;;
        let new_id := lastrowid cur in
        resp <- lift (api_response req
                        (VDict [("category_id", VInt new_id);
                                ("category_name", VStr name)]) 201 "response") ;;
        lift (headers_setitem resp "Location"
               ("/api/categories/" ++ Text.str_int new_id ++ _format_suffix req))).

Definition get_category (category_id : Z) : view :=
  fun req =>
    db_guard req (
      _ <- _db ;;
      cur <- execute "SELECT category_id, category_name FROM categories WHERE category_id=%s"
               [VInt category_id] ;;
      match _fetchone_dict cur with
      | None | Some [] => lift (error_response req "Category not found" 404 None)
      | Some row => lift (api_response req (VDict row) 200 "response")
      end).

Definition update_category (category_id : Z) : view :=
  fun req =>
    let body := get_json_or_empty req in
    v <- lift (body_get body "category_name") ;;
    name <- lift (or_empty_strip v) ;;
    if String.eqb name ""
    then lift (error_response req "category_name is required" 400 None)
    else
      db_guard req (
        _ <- _db ;;
        cur <- execute "UPDATE categories SET category_name=%s WHERE category_id=%s"
                 [VStr name; VInt category_id] ;;
        _ <- commit ;;
        if rowcount cur =? 0
        then lift (error_response req "Category not found" 404 None)
        else lift (api_response req
                     (VDict [("category_id", VInt category_id);
                             ("category_name", VStr name)]) 200 "response")).

Definition delete_category (category_id : Z) : view :=
  fun req =>
    db_guard req (
      _ <- _db ;;
      cur <- execute "DELETE FROM categories WHERE category_id=%s" [VInt category_id] ;;
      _ <- commit ;;
      if rowcount cur =? 0
      then lift (error_response req "Category not found" 404 None)
      else lift (api_response req
                   (VDict [("deleted", VBool true);
                           ("category_id", VInt category_id)]) 200 "response")).

(** *** Regions *)

Definition list_regions : view :=
  fun req =>
    db_guard req (
      _ <- _db ;;
      cur <- execute "SELECT region_id, region_name FROM regions ORDER BY region_id" [] ;;
      lift (api_response req (items_payload (_fetchall_dict cur)) 200 "response")).

Definition create_region : view :=
  fun req =>
    let body := get_json_or_empty req in
    v <- lift (body_get body "region_name") ;;
    name <- lift (or_empty_strip v) ;;
    if String.eqb name ""
    then lift (error_response req "region_name is required" 400 None)
    else
      db_guard req (
        _ <- _db ;;
        cur <- execute "INSERT INTO regions (region_name) VALUES (%s)" [VStr name] ;;
        _ <- commit ;;
        let new_id := lastrowid cur in
        resp <- lift (api_response req
                        (VDict [("region_id", VInt new_id);
                                ("region_name", VStr name)]) 201 "response") ;;
        lift (headers_setitem resp "Location"
               ("/api/regions/" ++ Text.str_int new_id ++ _format_suffix req))).

Definition get_region (region_id : Z) : view :=
  fun req =>
    db_guard req (
      _ <- _db ;;
      cur <- execute "SELECT region_id, region_name FROM regions WHERE region_id=%s"
               [VInt region_id] ;;
      match _fetchone_dict cur with
      | None | Some [] => lift (error_response req "Region not found" 404 None)
      | Some row => lift (api_response req (VDict row) 200 "response")
      end).

Definition update_region (region_id : Z) : view :=
  fun req =>
    let body := get_json_or_empty req in
    v <- lift (body_get body "region_name") ;;
    name <- lift (or_empty_strip v) ;;
    if String.eqb name ""
    then lift (error_response req "region_name is required" 400 None)
    else
      db_guard req (
        _ <- _db ;;
        cur <- execute "UPDATE regions SET region_name=%s WHERE region_id=%s"
                 [VStr name; VInt region_id] ;;
        _ <- commit ;;
        if rowcount cur =? 0
        then lift (error_response req "Region not found" 404 None)
        else lift (api_response req
                     (VDict [("region_id", VInt region_id);
                             ("region_name", VStr name)]) 200 "response")).

Definition delete_region (region_id : Z) : view :=
  fun req =>
    db_guard req (
      _ <- _db ;;
      cur <- execute "DELETE FROM regions WHERE region_id=%s" [VInt region_id] ;;
      _ <- commit ;;
      if rowcount cur =? 0
      then lift (error_response req "Region not found" 404 None)
      else lift (api_response req
                   (VDict [("deleted", VBool true);
                           ("region_id", VInt region_id)]) 200 "response")).

(** *** Customers *)

Definition list_customers : view :=
  fun req =>
    db_guard req (
      _ <- _db ;;
      cur <- execute "SELECT customer_id, first_name, last_name, email, signup_date FROM customers ORDER BY customer_id" [] ;;
      let rows := map (stringify_date "signup_date") (_fetchall_dict cur) in
      lift (api_response req (items_payload rows) 200 "response")).

Definition create_customer : view :=
  fun req =>
    let body := get_json_or_empty req in
    v <- lift (body_get body "customer_id") ;;
    customer_id <- lift (_parse_int v "customer_id" (Some 1)) ;;
    v <- lift (body_get body "first_name") ;;
    first_name <- lift (or_empty_strip v) ;;
    v <- lift (body_get body "last_name") ;;
    last_name <- lift (or_empty_strip v) ;;
    v <- lift (body_get body "email") ;;
    email <- lift (_validate_email v) ;;
    v <- lift (body_get body "signup_date") ;;
    signup_date <- lift (_parse_date v "signup_date") ;;
    if String.eqb first_name "" || String.eqb last_name ""
    then lift (error_response req "first_name and last_name are required" 400 None)
    else
      db_guard req (
        _ <- _db ;;
        cur <- execute "INSERT INTO customers (customer_id, first_name, last_name, email, signup_date) VALUES (%s,%s,%s,%s,%s)"
                 [VInt customer_id; VStr first_name; VStr last_name;
                  VStr email; VDate signup_date] ;;
        _ <- commit ;;
        let payload :=
          VDict [("customer_id", VInt customer_id);
                 ("first_name", VStr first_name);
                 ("last_name", VStr last_name);
                 ("email", VStr email);
                 ("signup_date", VStr (Datetime.isoformat signup_date))] in
        resp <- lift (api_response req payload 201 "response") ;;
        lift (headers_setitem resp "Location"
               ("/api/customers/" ++ Text.str_int customer_id ++ _format_suffix req))).

Definition get_customer (customer_id : Z) : view :=
  fun req =>
    db_guard req (
      _ <- _db ;;
      cur <- execute "SELECT customer_id, first_name, last_name, email, signup_date FROM customers WHERE customer_id=%s"
               [VInt customer_id] ;;
      match _fetchone_dict cur with
      | None | Some [] => lift (error_response req "Customer not found" 404 None)
      | Some row =>
          lift (api_response req (VDict (stringify_date "signup_date" row)) 200 "response")
      end).

(** [v is None] *)
Definition is_None (v : value) : bool :=
  match v with VNone => true | _ => false end.

Definition update_customer (customer_id : Z) : view :=
  fun req =>
    let body := get_json_or_empty req in
    v <- lift (body_get body "first_name") ;;
    first_name <- lift (or_empty_strip v) ;;
    v <- lift (body_get body "last_name") ;;
    last_name <- lift (or_empty_strip v) ;;
    email <- lift (body_get body "email") ;;
    signup_date <- lift (body_get body "signup_date") ;;
    if String.eqb first_name "" || String.eqb last_name ""
    then lift (error_response req "first_name and last_name are required" 400 None)
    else if is_None email || is_None signup_date
    then lift (error_response req "email and signup_date are required" 400 None)
    else
      email <- lift (_validate_email email) ;;
      signup_date <- lift (_parse_date signup_date "signup_date") ;;
      db_guard req (
        _ <- _db ;;
        cur <- execute "UPDATE customers SET first_name=%s, last_name=%s, email=%s, signup_date=%s WHERE customer_id=%s"
                 [VStr first_name; VStr last_name; VStr email;
                  VDate signup_date; VInt customer_id] ;;
        _ <- commit ;;
        if rowcount cur =? 0
        then lift (error_response req "Customer not found" 404 None)
        else lift (api_response req
                     (VDict [("customer_id", VInt customer_id);
                             ("first_name", VStr first_name);
                             ("last_name", VStr last_name);
                             ("email", VStr email);
                             ("signup_date", VStr (Datetime.isoformat signup_date))])
                     200 "response")).

Definition delete_customer (customer_id : Z) : view :=
  fun req =>
    db_guard req (
      _ <- _db ;;
      cur <- execute "DELETE FROM customers WHERE customer_id=%s" [VInt customer_id] ;;
      _ <- commit ;;
      if rowcount cur =? 0
      then lift (error_response req "Customer not found" 404 None)
      else lift (api_response req
                   (VDict [("deleted", VBool true);
                           ("customer_id", VInt customer_id)]) 200 "response")).

(** *** Products *)

Definition list_products : view :=
  fun req =>
    db_guard req (
      _ <- _db ;;
      cur <- execute
               (sql_block
                  ["SELECT p.product_id, p.product_name, p.category_id, c.category_name";
                   "FROM products p";
                   "JOIN categories c ON c.category_id = p.category_id";
                   "ORDER BY p.product_id"]) [] ;;
      lift (api_response req (items_payload (_fetchall_dict cur)) 200 "response")).

Definition create_product : view :=
  fun req =>
    let body := get_json_or_empty req in
    v <- lift (body_get body "product_name") ;;
    name <- lift (or_empty_strip v) ;;
    v <- lift (body_get body "category_id") ;;
    category_id <- lift (_parse_int v "category_id" (Some 1)) ;;
    if String.eqb name ""
    then lift (error_response req "product_name is required" 400 None)
    else
      db_guard req (
        _ <- _db ;;
        cur <- execute "INSERT INTO products (product_name, category_id) VALUES (%s,%s)"
                 [VStr name; VInt category_id] ;;
        _ <- commit ;;
        let new_id := lastrowid cur in
        resp <- lift (api_response req
                        (VDict [("product_id", VInt new_id);
                                ("product_name", VStr name);
                                ("category_id", VInt category_id)]) 201 "response") ;;
        lift (headers_setitem resp "Location"
               ("/api/products/" ++ Text.str_int new_id ++ _format_suffix req))).

Definition get_product (product_id : Z) : view :=
  fun req =>
    db_guard req (
      _ <- _db ;;
      cur <- execute
               (sql_block
                  ["SELECT p.product_id, p.product_name, p.category_id, c.category_name";
                   "FROM products p";
                   "JOIN categories c ON c.category_id = p.category_id";
                   "WHERE p.product_id=%s"]) [VInt product_id] ;;
      match _fetchone_dict cur with
      | None | Some [] => lift (error_response req "Product not found" 404 None)
      | Some row => lift (api_response req (VDict row) 200 "response")
      end).

Definition update_product (product_id : Z) : view :=
  fun req =>
    let body := get_json_or_empty req in
    v <- lift (body_get body "product_name") ;;
    name <- lift (or_empty_strip v) ;;
    v <- lift (body_get body "category_id") ;;
    category_id <- lift (_parse_int v "category_id" (Some 1)) ;;
    if String.eqb name ""
    then lift (error_response req "product_name is required" 400 None)
    else
      db_guard req (
        _ <- _db ;;
        cur <- execute "UPDATE products SET product_name=%s, category_id=%s WHERE product_id=%s"
                 [VStr name; VInt category_id; VInt product_id] ;;
        _ <- commit ;;
        if rowcount cur =? 0
        then lift (error_response req "Product not found" 404 None)
        else lift (api_response req
                     (VDict [("product_id", VInt product_id);
                             ("product_name", VStr name);
                             ("category_id", VInt category_id)]) 200 "response")).

Definition delete_product (product_id : Z) : view :=
  fun req =>
    db_guard req (
      _ <- _db ;;
      cur <- execute "DELETE FROM products WHERE product_id=%s" [VInt product_id] ;;
      _ <- commit ;;
      if rowcount cur =? 0
      then lift (error_response req "Product not found" 404 None)
      else lift (api_response req
                   (VDict [("deleted", VBool true);
                           ("product_id", VInt product_id)]) 200 "response")).

(** *** Sales (sales_fact) *)

Definition list_sales : view :=
  fun req =>
    db_guard req (
      _ <- _db ;;
      cur <- execute
               (sql_block
                  ["SELECT sale_id, product_id, sale_date, quantity, price, customer_id, region_id";
                   "FROM sales_fact";
                   "ORDER BY sale_id"]) [] ;;
      let rows := map (stringify_date "sale_date") (_fetchall_dict cur) in
      lift (api_response req (items_payload rows) 200 "response")).

Definition create_sale : view :=
  fun req =>
    let body := get_json_or_empty req in
    v <- lift (body_get body "sale_id") ;;
    sale_id <- lift (_parse_int v "sale_id" (Some 1)) ;;
    v <- lift (body_get body "product_id") ;;
    product_id <- lift (_parse_int v "product_id" (Some 1)) ;;
    v <- lift (body_get body "sale_date") ;;
    sale_date <- lift (_parse_date v "sale_date") ;;
    v <- lift (body_get body "quantity") ;;
    quantity <- lift (_parse_int v "quantity" (Some 1)) ;;
    v <- lift (body_get body "price") ;;
    price <- lift (_parse_decimal v "price") ;;
    v <- lift (body_get body "customer_id") ;;
    customer_id <- lift (_parse_int v "customer_id" (Some 1)) ;;
    v <- lift (body_get body "region_id") ;;
    region_id <- lift (_parse_int v "region_id" (Some 1)) ;;
    db_guard req (
      _ <- _db ;;
      cur <- execute
               (sql_block
                  ["INSERT INTO sales_fact (sale_id, product_id, sale_date, quantity, price, customer_id, region_id)";
                   "VALUES (%s,%s,%s,%s,%s,%s,%s)"])
               [VInt sale_id; VInt product_id; VDate sale_date; VInt quantity;
                VFloat price; VInt customer_id; VInt region_id] ;;
      _ <- commit ;;
      let payload :=
        VDict [("sale_id", VInt sale_id);
               ("product_id", VInt product_id);
               ("sale_date", VStr (Datetime.isoformat sale_date));
               ("quantity", VInt quantity);
               ("price", VFloat price);
               ("customer_id", VInt customer_id);
               ("region_id", VInt region_id)] in
      resp <- lift (api_response req payload 201 "response") ;;
      lift (headers_setitem resp "Location"
             ("/api/sales/" ++ Text.str_int sale_id ++ _format_suffix req))).

Definition get_sale (sale_id : Z) : view :=
  fun req =>
    db_guard req (
      _ <- _db ;;
      cur <- execute "SELECT sale_id, product_id, sale_date, quantity, price, customer_id, region_id FROM sales_fact WHERE sale_id=%s"
               [VInt sale_id] ;;
      match _fetchone_dict cur with
      | None | Some [] => lift (error_response req "Sale not found" 404 None)
      | Some row =>
          lift (api_response req (VDict (stringify_date "sale_date" row)) 200 "response")
      end).

Definition update_sale (sale_id : Z) : view :=
  fun req =>
    let body := get_json_or_empty req in
    v <- lift (body_get body "product_id") ;;
    product_id <- lift (_parse_int v "product_id" (Some 1)) ;;
    v <- lift (body_get body "sale_date") ;;
    sale_date <- lift (_parse_date v "sale_date") ;;
    v <- lift (body_get body "quantity") ;;
    quantity <- lift (_parse_int v "quantity" (Some 1)) ;;
    v <- lift (body_get body "price") ;;
    price <- lift (_parse_decimal v "price") ;;
    v <- lift (body_get body "customer_id") ;;
    customer_id <- lift (_parse_int v "customer_id" (Some 1)) ;;
    v <- lift (body_get body "region_id") ;;
    region_id <- lift (_parse_int v "region_id" (Some 1)) ;;
    db_guard req (
      _ <- _db ;;
      cur <- execute
               (sql_block
                  ["UPDATE sales_fact";
                   "SET product_id=%s, sale_date=%s, quantity=%s, price=%s, customer_id=%s, region_id=%s";
                   "WHERE sale_id=%s"])
               [VInt product_id; VDate sale_date; VInt quantity; VFloat price;
                VInt customer_id; VInt region_id; VInt sale_id] ;;
      _ <- commit ;;
      if rowcount cur =? 0
      then lift (error_response req "Sale not found" 404 None)
      else lift (api_response req
                   (VDict [("sale_id", VInt sale_id);
                           ("product_id", VInt product_id);
                           ("sale_date", VStr (Datetime.isoformat sale_date));
                           ("quantity", VInt quantity);
                           ("price", VFloat price);
                           ("customer_id", VInt customer_id);
                           ("region_id", VInt region_id)]) 200 "response")).

Definition delete_sale (sale_id : Z) : view :=
  fun req =>
    db_guard req (
      _ <- _db ;;
      cur <- execute "DELETE FROM sales_fact WHERE sale_id=%s" [VInt sale_id] ;;
      _ <- commit ;;
      if rowcount cur =? 0
      then lift (error_response req "Sale not found" 404 None)
      else lift (api_response req
                   (VDict [("deleted", VBool true);
                           ("sale_id", VInt sale_id)]) 200 "response")).

(** *** Search (over the view sales_denorm) *)

(** [if v:] for a query argument: sent, and not the empty text. *)
Definition supplied (v : option string) : option string :=
  match v with
  | Some s => if String.eqb s "" then None else Some s
  | None => None
  end.

(** One text filter: [where.append(cond); params.append(f"%{v}%")]. *)
Definition add_like (cond : string) (v : option string)
  (acc : list string * list value) : list string * list value :=
  match supplied v with
  | Some s => ((fst acc ++ [cond])%list, (snd acc ++ [VStr ("%" ++ s ++ "%")])%list)
  | None => acc
  end.

(** One checked filter: [where.append(cond); params.append(parse(v))],
    where the parser may raise. *)
Definition add_checked (cond : string) (v : option string)
  (parse : string -> result value) (acc : list string * list value)
  : result (list string * list value) :=
  match supplied v with
  | Some s =>
      (p <- parse s ;;
       Return ((fst acc ++ [cond])%list, (snd acc ++ [p])%list))%result
  | None => Return acc
  end.

(** The [where] and [params] lists built by [search_sales]. *)
Definition search_conditions (req : request)
  : result (list string * list value) :=
  let product_name := args_get (args req) "product_name" in
  let category_name := args_get (args req) "category_name" in
  let region_name := args_get (args req) "region_name" in
  let customer_id := args_get (args req) "customer_id" in
  let date_from := args_get (args req) "date_from" in
  let date_to := args_get (args req) "date_to" in
  let acc := ([], []) in
  let acc := add_like "product_name LIKE %s" product_name acc in
  let acc := add_like "product_category LIKE %s" category_name acc in
  let acc := add_like "region LIKE %s" region_name acc in
  (acc <- add_checked "customer_id = %s" customer_id
            (fun s => n <- _parse_int (VStr s) "customer_id" (Some 1) ;;
                      Return (VInt n)) acc ;;
   acc <- add_checked "sale_date >= %s" date_from
            (fun s => d <- _parse_date (VStr s) "date_from" ;;
                      Return (VDate d)) acc ;;
   acc <- add_checked "sale_date <= %s" date_to
            (fun s => d <- _parse_date (VStr s) "date_to" ;;
                      Return (VDate d)) acc ;;
   Return acc)%result.

(** The statement text built from the [where] list. *)
Definition search_sql (where_ : list string) : string :=
  let sql := "SELECT * FROM sales_denorm" in
  let sql :=
    match where_ with
    | [] => sql
    | _ => sql ++ " WHERE " ++ Text.join " AND " where_
    end in
  sql ++ " ORDER BY sale_id".

Definition search_sales : view :=
  fun req =>
    wp <- lift (search_conditions req) ;;
    let sql := search_sql (fst wp) in
    db_guard req (
      _ <- _db ;;
      cur <- execute sql (snd wp) ;;
      let rows :=
        map (fun r => stringify_date "signup_date" (stringify_date "sale_date" r))
          (_fetchall_dict cur) in
      lift (api_response req
              (VDict [("items", VList (map VDict rows));
                      ("count", VInt (Z.of_nat (List.length rows)))])
              200 "response")).

(** *** The registered error handlers *)

Definition _bad_request (req : request) (description : string) : result Response :=
  error_response req (if String.eqb description "" then "Bad request" else description)
    400 None.

Definition _not_found (req : request) : result Response :=
  error_response req "Not found" 404 None.

Definition _unhandled (req : request) : result Response :=
  error_response req "Internal server error" 500 None.

(** *** Routing and dispatch (Flask) *)

(** The routes declared with [@require_jwt]. *)
Definition login_required (rt : route) : bool :=
  match rt with
  | Health | Login | NoRoute | WrongMethod => false
  | _ => true
  end.

(** The function registered for a rule, before decoration. *)
Definition endpoint (rt : route) : view :=
  match rt with
  | Health => health
  | Login => login
  | ListOf Categories => list_categories
  | CreateOf Categories => create_category
  | GetOf Categories id => get_category id
  | UpdateOf Categories id => update_category id
  | DeleteOf Categories id => delete_category id
  | ListOf Regions => list_regions
  | CreateOf Regions => create_region
  | GetOf Regions id => get_region id
  | UpdateOf Regions id => update_region id
  | DeleteOf Regions id => delete_region id
  | ListOf Customers => list_customers
  | CreateOf Customers => create_customer
  | GetOf Customers id => get_customer id
  | UpdateOf Customers id => update_customer id
  | DeleteOf Customers id => delete_customer id
  | ListOf Products => list_products
  | CreateOf Products => create_product
  | GetOf Products id => get_product id
  | UpdateOf Products id => update_product id
  | DeleteOf Products id => delete_product id
  | ListOf Sales => list_sales
  | CreateOf Sales => create_sale
  | GetOf Sales id => get_sale id
  | UpdateOf Sales id => update_sale id
  | DeleteOf Sales id => delete_sale id
  | SearchSales => search_sales
  | NoRoute => fun _ => raise NotFound
  | WrongMethod => fun _ => raise MethodNotAllowed
  end.

(** [app.view_functions]: the view with its decorator. *)
Definition view_function (rt : route) : view :=
  if login_required rt then require_jwt (endpoint rt) else endpoint rt.

(** [Flask.dispatch_request]: routing errors are raised, otherwise the view
    runs. *)
Definition dispatch_request (req : request) : M DB Response :=
  view_function (url_rule req) req.

(** [Flask.handle_user_exception]: the handler registered for the class of
    the exception: [BadRequest], [NotFound], and [Exception] for the rest. *)
Definition handle_user_exception (req : request) (e : exn) : M DB Response :=
  match e with
  | BadRequest description => lift (_bad_request req description)
  | NotFound => lift (_not_found req)
  | _ => lift (_unhandled req)
  end.

(** [Flask.full_dispatch_request] *)
Definition full_dispatch_request (req : request) : M DB Response :=
  try_except (dispatch_request req) (handle_user_exception req).

(** [Flask.handle_exception], reached when an error handler itself raised:
    the exception is re-raised when exceptions propagate, otherwise it is
    wrapped in an [InternalServerError], whose handler is [_unhandled]. *)
Definition handle_exception (req : request) (e : exn) : M DB Response :=
  if propagate_exceptions then raise e else lift (_unhandled req).

(** [Flask.wsgi_app]: the outcome of one request. [Raise] means that the
    exception leaves the application without any response of its own. *)
Definition wsgi_app (req : request) : M DB Response :=
  try_except (full_dispatch_request req) (handle_exception req).

End Views.

(* ================================================================== *)
(** ** Vocabulary of the specification *)

Section Vocabulary.

Context {R : Runtime}.

(** The response the encoder builds for a payload once the format is
    known. *)
Definition encoded (fmt : string) (payload : value) (st : Z) (root : string)
  : Response :=
  if String.eqb fmt "xml"
  then mkResponse st [("Content-Type", "application/xml; charset=utf-8")]
         (Dicttoxml payload root)
  else mkResponse st [("Content-Type", "application/json")] (Jsonify payload).

(** The error envelope [{error, status}] in a given format. *)
Definition error_envelope (fmt message : string) (st : Z) : Response :=
  encoded fmt (VDict [("error", VStr message); ("status", VInt st)]) st "error".

(** The payload a response carries, whatever its format. *)
Definition payload_of (resp : Response) : value :=
  match data resp with
  | Jsonify p => p
  | Dicttoxml p _ => p
  end.

(** The outcome of a request is a response with the given status code. *)
Definition answered_with (out : result Response * DB) (st : Z) : Prop :=
  exists resp, fst out = Return resp /\ status resp = st.

(** The token a request presents: the Authorization header must start with
    the seven characters of "Bearer "; what follows, trimmed, is the token. *)
Definition presented_token (req : request) : option string :=
  match authorization req with
  | Some h =>
      if String.prefix "Bearer " h
      then Some (Text.strip (String.substring 7 (String.length h - 7) h))
      else None
  | None => None
  end.

(** The request carries no valid bearer token: no well-formed header, or a
    token the verifier finds expired or invalid. *)
Definition no_valid_bearer (req : request) : Prop :=
  match presented_token req with
  | None => True
  | Some token =>
      jwt_decode token JWT_SECRET_KEY = ExpiredSignatureError
      \/ jwt_decode token JWT_SECRET_KEY = InvalidTokenError
  end.

(** The request carries a token the verifier accepts. *)
Definition authorised (req : request) : Prop :=
  exists token claims,
    presented_token req = Some token
    /\ jwt_decode token JWT_SECRET_KEY = Decoded claims.

(** The 401 message the gate gives for a request without a valid token. *)
Definition gate_message (req : request) : string :=
  match presented_token req with
  | None => "Missing or invalid Authorization header"
  | Some token =>
      match jwt_decode token JWT_SECRET_KEY with
      | ExpiredSignatureError => "Token expired"
      | _ => "Invalid token"
      end
  end.

(** The storage work of a write: connect, run one statement, commit. *)
Definition storage_txn (sql : string) (params : list value) : M DB cursor :=
  (_ <- _db ;; cur <- execute sql params ;; _ <- commit ;; ret cur)%H.

(** A text member of the body, trimmed, when it is there and not blank. *)
Definition text_field (b : value) (k : string) : option string :=
  match body_get b k with
  | Return v =>
      match or_empty_strip v with
      | Return s => if String.eqb s "" then None else Some s
      | Raise _ => None
      end
  | Raise _ => None
  end.

(** An integer member of the body that is at least 1. *)
Definition id_field (b : value) (k : string) : option Z :=
  match body_get b k with
  | Return v =>
      match _parse_int v k (Some 1) with
      | Return n => Some n
      | Raise _ => None
      end
  | Raise _ => None
  end.

Definition date_field (b : value) (k : string) : option Datetime.date :=
  match body_get b k with
  | Return v =>
      match _parse_date v k with
      | Return d => Some d
      | Raise _ => None
      end
  | Raise _ => None
  end.

Definition email_field (b : value) (k : string) : option string :=
  match body_get b k with
  | Return v =>
      match _validate_email v with
      | Return s => Some s
      | Raise _ => None
      end
  | Raise _ => None
  end.

Definition number_field (b : value) (k : string) : option pyfloat :=
  match body_get b k with
  | Return v =>
      match _parse_decimal v k with
      | Return x => Some x
      | Raise _ => None
      end
  | Raise _ => None
  end.

Definition obind {A B} (o : option A) (k : A -> option B) : option B :=
  match o with
  | Some a => k a
  | None => None
  end.

Declare Scope option_scope.
Delimit Scope option_scope with O.
Notation "x <- o ;; k" := (obind o (fun x => k))
  (at level 61, o at next level, right associativity) : option_scope.

Definition pk_column (r : resource) : string :=
  match r with
  | Categories => "category_id"
  | Regions => "region_id"
  | Customers => "customer_id"
  | Products => "product_id"
  | Sales => "sale_id"
  end.

Definition table_name (r : resource) : string :=
  match r with
  | Categories => "categories"
  | Regions => "regions"
  | Customers => "customers"
  | Products => "products"
  | Sales => "sales_fact"
  end.

Definition not_found_message (r : resource) : string :=
  match r with
  | Categories => "Category not found"
  | Regions => "Region not found"
  | Customers => "Customer not found"
  | Products => "Product not found"
  | Sales => "Sale not found"
  end.

(** The statement of a delete: [DELETE FROM <table> WHERE <key>=%s]. *)
Definition delete_sql (r : resource) : string :=
  "DELETE FROM " ++ table_name r ++ " WHERE " ++ pk_column r ++ "=%s".

(** The statement and the parameters a write route sends to the storage
    once the body of the request passes validation; [None] for a route
    that does not write or a body that does not validate. *)
Definition write_statement (req : request) : option (string * list value) :=
  let b := get_json_or_empty req in
  (match url_rule req with
   | CreateOf Categories =>
       name <- text_field b "category_name" ;;
       Some ("INSERT INTO categories (category_name) VALUES (%s)", [VStr name])
   | UpdateOf Categories id =>
       name <- text_field b "category_name" ;;
       Some ("UPDATE categories SET category_name=%s WHERE category_id=%s",
             [VStr name; VInt id])
   | CreateOf Regions =>
       name <- text_field b "region_name" ;;
       Some ("INSERT INTO regions (region_name) VALUES (%s)", [VStr name])
   | UpdateOf Regions id =>
       name <- text_field b "region_name" ;;
       Some ("UPDATE regions SET region_name=%s WHERE region_id=%s",
             [VStr name; VInt id])
   | CreateOf Customers =>
       customer_id <- id_field b "customer_id" ;;
       first_name <- text_field b "first_name" ;;
       last_name <- text_field b "last_name" ;;
       email <- email_field b "email" ;;
       signup_date <- date_field b "signup_date" ;;
       Some ("INSERT INTO customers (customer_id, first_name, last_name, email, signup_date) VALUES (%s,%s,%s,%s,%s)",
             [VInt customer_id; VStr first_name; VStr last_name; VStr email;
              VDate signup_date])
   | UpdateOf Customers id =>
       first_name <- text_field b "first_name" ;;
       last_name <- text_field b "last_name" ;;
       email <- email_field b "email" ;;
       signup_date <- date_field b "signup_date" ;;
       Some ("UPDATE customers SET first_name=%s, last_name=%s, email=%s, signup_date=%s WHERE customer_id=%s",
             [VStr first_name; VStr last_name; VStr email; VDate signup_date;
              VInt id])
   | CreateOf Products =>
       name <- text_field b "product_name" ;;
       category_id <- id_field b "category_id" ;;
       Some ("INSERT INTO products (product_name, category_id) VALUES (%s,%s)",
             [VStr name; VInt category_id])
   | UpdateOf Products id =>
       name <- text_field b "product_name" ;;
       category_id <- id_field b "category_id" ;;
       Some ("UPDATE products SET product_name=%s, category_id=%s WHERE product_id=%s",
             [VStr name; VInt category_id; VInt id])
   | CreateOf Sales =>
       sale_id <- id_field b "sale_id" ;;
       product_id <- id_field b "product_id" ;;
       sale_date <- date_field b "sale_date" ;;
       quantity <- id_field b "quantity" ;;
       price <- number_field b "price" ;;
       customer_id <- id_field b "customer_id" ;;
       region_id <- id_field b "region_id" ;;
       Some (sql_block
               ["INSERT INTO sales_fact (sale_id, product_id, sale_date, quantity, price, customer_id, region_id)";
                "VALUES (%s,%s,%s,%s,%s,%s,%s)"],
             [VInt sale_id; VInt product_id; VDate sale_date; VInt quantity;
              VFloat price; VInt customer_id; VInt region_id])
   | UpdateOf Sales id =>
       product_id <- id_field b "product_id" ;;
       sale_date <- date_field b "sale_date" ;;
       quantity <- id_field b "quantity" ;;
       price <- number_field b "price" ;;
       customer_id <- id_field b "customer_id" ;;
       region_id <- id_field b "region_id" ;;
       Some (sql_block
               ["UPDATE sales_fact";
                "SET product_id=%s, sale_date=%s, quantity=%s, price=%s, customer_id=%s, region_id=%s";
                "WHERE sale_id=%s"],
             [VInt product_id; VDate sale_date; VInt quantity; VFloat price;
              VInt customer_id; VInt region_id; VInt id])
   | DeleteOf r id => Some (delete_sql r, [VInt id])
   | _ => None
   end)%O.

(** The answer of the error translator to a storage failure with the given
    exception text. *)
Definition storage_failure_answer (fmt msg : string) : Response :=
  if Text.contains "Duplicate entry" msg
  then error_envelope fmt "Conflict (duplicate key)" 409
  else error_envelope fmt "Database error" 500.

(** *** Dates, as the specification words them *)

(** The text has the form YYYY-MM-DD: four digits, a dash, two digits, a
    dash, two digits, and nothing else. *)
Definition yyyy_mm_dd_form (s : string) : bool :=
  match s with
  | String y1 (String y2 (String y3 (String y4 (String sep1
      (String m1 (String m2 (String sep2 (String d1 (String d2
         EmptyString))))))))) =>
      Text.is_digit y1 && Text.is_digit y2 && Text.is_digit y3
      && Text.is_digit y4 && Ascii.eqb sep1 "-"%char
      && Text.is_digit m1 && Text.is_digit m2 && Ascii.eqb sep2 "-"%char
      && Text.is_digit d1 && Text.is_digit d2
  | _ => false
  end.

(** The number written by a text of digits. *)
Definition number_of (s : string) : Z :=
  fold_left (fun acc c => acc * 10 + Text.digit_val c) (list_ascii_of_string s) 0.

(** The year, month and day fields of a text in YYYY-MM-DD form. *)
Definition ymd_fields (s : string) : Z * Z * Z :=
  (number_of (String.substring 0 4 s),
   number_of (String.substring 5 2 s),
   number_of (String.substring 8 2 s)).

Definition leap_year (y : Z) : bool :=
  ((y mod 4 =? 0) && negb (y mod 100 =? 0)) || (y mod 400 =? 0).

(** The length of a month of the Gregorian calendar. *)
Definition month_length (y m : Z) : Z :=
  match m with
  | 1 | 3 | 5 | 7 | 8 | 10 | 12 => 31
  | 4 | 6 | 9 | 11 => 30
  | 2 => if leap_year y then 29 else 28
  | _ => 0
  end.

(** A date of the calendar, in the years 1 to 9999. *)
Definition calendar_date (y m d : Z) : bool :=
  (1 <=? y) && (y <=? 9999) && (1 <=? m) && (m <=? 12)
  && (1 <=? d) && (d <=? month_length y m).






(** *** Numbers *)

(** [t] is the quotient m / d (with d > 0) rounded toward zero. *)
Definition truncation (t m d : Z) : Prop :=
  (0 <= m -> t * d <= m < (t + 1) * d)
  /\ (m <= 0 -> (t - 1) * d < m <= t * d).

(** The float m * 2^e is not a whole number. *)
Definition fractional (m e : Z) : Prop :=
  e < 0 /\ m mod 2 ^ (- e) <> 0.

(** The optional minimum allows [n]. *)
Definition meets (minimum : option Z) (n : Z) : Prop :=
  match minimum with
  | Some k => k <= n
  | None => True
  end.

(** *** Search filters *)

Inductive search_filter : Type :=
| ByProductName | ByCategoryName | ByRegionName
| ByCustomerId | ByDateFrom | ByDateTo.

(** The filters, in the order the handler looks at them. *)
Definition all_filters : list search_filter :=
  [ByProductName; ByCategoryName; ByRegionName; ByCustomerId; ByDateFrom; ByDateTo].

(** The query parameter that carries a filter. *)
Definition filter_arg (f : search_filter) : string :=
  match f with
  | ByProductName => "product_name"
  | ByCategoryName => "category_name"
  | ByRegionName => "region_name"
  | ByCustomerId => "customer_id"
  | ByDateFrom => "date_from"
  | ByDateTo => "date_to"
  end.

(** The conjunct a filter stands for: a LIKE on a name column of the view,
    equality on the customer id, an inclusive bound on the sale date. *)
Definition filter_condition (f : search_filter) : string :=
  match f with
  | ByProductName => "product_name LIKE %s"
  | ByCategoryName => "product_category LIKE %s"
  | ByRegionName => "region LIKE %s"
  | ByCustomerId => "customer_id = %s"
  | ByDateFrom => "sale_date >= %s"
  | ByDateTo => "sale_date <= %s"
  end.

(** The parameter bound to the conjunct for the value [s] of the filter:
    the value between two percent signs for a name, the integer (at least
    1) for the customer id, the date for a bound; [None] when the value
    does not validate. *)
Definition filter_parameter (f : search_filter) (s : string) : option value :=
  match f with
  | ByProductName | ByCategoryName | ByRegionName =>
      Some (VStr ("%" ++ s ++ "%"))
  | ByCustomerId =>
      match Builtins.int_str s with
      | Converted n => if n <? 1 then None else Some (VInt n)
      | _ => None
      end
  | ByDateFrom | ByDateTo =>
      match Datetime.fromisoformat s with
      | Some d => Some (VDate d)
      | None => None
      end
  end.

(** The value sent for a filter; a filter sent empty counts as not sent. *)
Definition sent (req : request) (f : search_filter) : option string :=
  match args_get (args req) (filter_arg f) with
  | Some s => if String.eqb s "" then None else Some s
  | None => None
  end.

(** One conjunct with its parameter per filter that was sent, in order;
    [None] when a value does not validate. *)
Fixpoint plan (req : request) (fs : list search_filter)
  : option (list (string * value)) :=
  match fs with
  | [] => Some []
  | f :: rest =>
      match sent req f with
      | None => plan req rest
      | Some s =>
          match filter_parameter f s, plan req rest with
          | Some p, Some tail => Some ((filter_condition f, p) :: tail)
          | _, _ => None
          end
      end
  end.

Definition search_plan (req : request) : option (list (string * value)) :=
  plan req all_filters.


(** What the answer says about the value [s] of a filter that does not
    validate, the filter being named by its query parameter; [None] when
    the value validates (a name always does). *)
Definition filter_complaint (f : search_filter) (s : string) : option string :=
  match f with
  | ByProductName | ByCategoryName | ByRegionName => None
  | ByCustomerId =>
      match Builtins.int_str s with
      | Converted n =>
          if n <? 1 then Some (filter_arg f ++ " must be >= 1") else None
      | _ => Some (filter_arg f ++ " must be an integer")
      end
  | ByDateFrom | ByDateTo =>
      match Datetime.fromisoformat s with
      | Some _ => None
      | None => Some (filter_arg f ++ " must be a date string (YYYY-MM-DD)")
      end
  end.

(** The complaint about the first of the filters [fs] that was sent with
    a value that does not validate. *)
Fixpoint first_complaint (req : request) (fs : list search_filter)
  : option string :=
  match fs with
  | [] => None
  | f :: rest =>
      match sent req f with
      | Some s =>
          match filter_complaint f s with
          | Some message => Some message
          | None => first_complaint req rest
          end
      | None => first_complaint req rest
      end
  end.

(** What the search does to a row before it is encoded. *)
Definition search_row (r : list (string * value)) : list (string * value) :=
  stringify_date "signup_date" (stringify_date "sale_date" r).


(** *** The search, as the storage evaluates it *)

(** The LIKE of SQL, as MySQL evaluates it character by character: in the
    pattern a percent sign stands for any run of characters, an underscore
    for any one character, and a backslash makes the character after it
    literal (a backslash that ends the pattern stands for itself); any
    other character of the pattern stands for the characters that the
    collation of the column takes for the same, which [same] tells. *)
Fixpoint sql_like (same : ascii -> ascii -> bool) (pattern text : string)
  : bool :=
  match pattern with
  | EmptyString =>
      match text with EmptyString => true | String _ _ => false end
  | String p pattern' =>
      if Ascii.eqb p "%" then
        (fix any_run (t : string) : bool :=
           sql_like same pattern' t
           || match t with
              | EmptyString => false
              | String _ t' => any_run t'
              end) text
      else if Ascii.eqb p "_" then
        match text with
        | EmptyString => false
        | String _ text' => sql_like same pattern' text'
        end
      else if Ascii.eqb p "\" then
        match pattern' with
        | String q pattern'' =>
            match text with
            | EmptyString => false
            | String c text' => same q c && sql_like same pattern'' text'
            end
        | EmptyString =>
            match text with
            | String c EmptyString => same p c
            | _ => false
            end
        end
      else
        match text with
        | EmptyString => false
        | String c text' => same p c && sql_like same pattern' text'
        end
  end.

(** The first date is not after the second. *)
Definition date_le (a b : Datetime.date) : bool :=
  (Datetime.year a <? Datetime.year b)
  || ((Datetime.year a =? Datetime.year b)
      && ((Datetime.month a <? Datetime.month b)
          || ((Datetime.month a =? Datetime.month b)
              && (Datetime.day a <=? Datetime.day b)))).

(** The value of a column in a row of the view; a column that the row
    lacks reads NULL. *)
Definition cell (row : list (string * value)) (column : string) : value :=
  match dict_get row column with
  | Some v => v
  | None => VNone
  end.

(** [column LIKE pattern] on a row: a NULL cell matches nothing. *)
Definition like_cell (same : ascii -> ascii -> bool) (pattern v : value) : bool :=
  match pattern, v with
  | VStr p, VStr text => sql_like same p text
  | _, _ => false
  end.

(** What the conjunct of a filter, with its parameter bound, says of a
    row of the view: product_name, product_category or region LIKE the
    parameter; customer_id equal to it; sale_date not before it, or not
    after it. A comparison with NULL holds for no row. *)
Definition conjunct_holds (same : ascii -> ascii -> bool) (f : search_filter)
  (p : value) (row : list (string * value)) : bool :=
  match f with
  | ByProductName => like_cell same p (cell row "product_name")
  | ByCategoryName => like_cell same p (cell row "product_category")
  | ByRegionName => like_cell same p (cell row "region")
  | ByCustomerId =>
      match p, cell row "customer_id" with
      | VInt n, VInt c => c =? n
      | _, _ => false
      end
  | ByDateFrom =>
      match p, cell row "sale_date" with
      | VDate d, VDate c => date_le d c
      | _, _ => false
      end
  | ByDateTo =>
      match p, cell row "sale_date" with
      | VDate d, VDate c => date_le c d
      | _, _ => false
      end
  end.


(** The statement of a search with the given conjuncts: all columns of the
    view, the conjuncts joined by AND under a WHERE when there is one, and
    the order by sale id. *)
Definition select_search (conjuncts : list string) : string :=
  "SELECT * FROM sales_denorm"
  ++ match conjuncts with
     | [] => ""
     | c :: rest =>
         " WHERE " ++ c ++ fold_right (fun c' acc => " AND " ++ c' ++ acc) "" rest
     end
  ++ " ORDER BY sale_id".

(** The lists that keep some members of [l], in the order of [l]. *)
Fixpoint sublists {A : Type} (l : list A) : list (list A) :=
  match l with
  | [] => [[]]
  | x :: rest => (map (cons x) (sublists rest) ++ sublists rest)%list
  end.






(** [text] starts with [s], characters being compared by [same]. *)
Fixpoint prefix_under (same : ascii -> ascii -> bool) (s text : string) : bool :=
  match s with
  | EmptyString => true
  | String a s' =>
      match text with
      | EmptyString => false
      | String c text' => same a c && prefix_under same s' text'
      end
  end.

(** [s] is a part of [text], characters being compared by [same]. *)
Fixpoint contains_under (same : ascii -> ascii -> bool) (s text : string) : bool :=
  prefix_under same s text
  || match text with
     | EmptyString => false
     | String _ text' => contains_under same s text'
     end.


(** Two letters that differ by their case only are the same. *)
Definition same_letter (a b : ascii) : bool :=
  Ascii.eqb (Text.lower_char a) (Text.lower_char b).

(** *** Deletes *)

(** The storage engine runs the delete of the row with key [id]: the
    statement and the commit succeed, the row count is zero exactly when no
    row had the key, and afterwards no row has it. [present] tells whether a
    row with the key is stored. *)
Definition deletes_by_key (present : DB -> bool) (sql : string) (id : Z) : Prop :=
  forall db, exists db1 cur db2 db3,
    db_connect db = (Done tt, db1)
    /\ db_execute sql [VInt id] db1 = (Done cur, db2)
    /\ db_commit db2 = (Done tt, db3)
    /\ (rowcount cur = 0 <-> present db = false)
    /\ present db3 = false.

(** The answers to the same request sent [n] times in a row. *)
Fixpoint replay (n : nat) (req : request) (db : DB) : list (result Response) :=
  match n with
  | O => []
  | S n' =>
      let (out, db') := wsgi_app req db in
      out :: replay n' req db'
  end.

(** The same runtime with another token verifier. *)
Definition with_verifier (decode : string -> string -> jwt_outcome) : Runtime := {|
  DB := DB;
  db_connect := db_connect;
  db_execute := db_execute;
  db_commit := db_commit;
  jwt_decode := decode;
  jwt_encode := jwt_encode;
  now_timestamp := now_timestamp;
  float_of_str := float_of_str;
  float_of_int := float_of_int;
  getenv := getenv;
  propagate_exceptions := propagate_exceptions
|}.

(** *** Handlers that cannot answer *)

(** Whatever the storage state, the computation ends with an exception. *)
Definition fails {A : Type} (m : M DB A) : Prop :=
  forall db, exists e db', m db = (Raise e, db').

(** The format parameter is not one the encoder accepts. *)
Definition unsupported_format (req : request) : Prop :=
  forall fmt, _get_format req <> Return fmt.

End Vocabulary.

(* ================================================================== *)
(** ** A small runtime to run the handlers on concrete requests *)

Module Demo.

(** The storage holds the categories table as (id, name) rows; the search
    view has two fixed rows. Names are unique, as under a UNIQUE key. *)
Definition store : Type := list (Z * string).

Definition sales_denorm : list (list (string * value)) :=
  [ [("sale_id", VInt 1); ("product_name", VStr "Kettle");
     ("product_category", VStr "Kitchen"); ("region", VStr "North");
     ("customer_id", VInt 42);
     ("sale_date", VDate (Datetime.mkdate 2023 2 1))];
    [("sale_id", VInt 2); ("product_name", VStr "Teapot");
     ("product_category", VStr "Kitchen"); ("region", VStr "South");
     ("customer_id", VInt 42);
     ("sale_date", VDate (Datetime.mkdate 2023 2 2))] ].

Definition has_id (id : Z) (db : store) : bool :=
  existsb (fun row => fst row =? id) db.

Definition has_name (name : string) (db : store) : bool :=
  existsb (fun row => String.eqb (snd row) name) db.

Definition next_id (db : store) : Z :=
  1 + fold_right (fun row m => Z.max (fst row) m) 0 db.

Definition empty_cursor : cursor := mkcursor 0 0 [] (DictRows []).

Definition execute (sql : string) (params : list value) (db : store)
  : driver cursor * store :=
  if String.eqb sql "DELETE FROM categories WHERE category_id=%s" then
    match params with
    | [VInt id] =>
        let kept := filter (fun row => negb (fst row =? id)) db in
        (Done (mkcursor (Z.of_nat (List.length db - List.length kept))
                 0 [] (DictRows [])), kept)
    | _ => (Failed "not all arguments converted during bytes formatting", db)
    end
  else if String.eqb sql "INSERT INTO categories (category_name) VALUES (%s)" then
    match params with
    | [VStr name] =>
        if has_name name db
        then (Failed ("1062 Duplicate entry '" ++ name ++ "' for key 'categories.category_name'"), db)
        else (Done (mkcursor 1 (next_id db) [] (DictRows [])),
              (db ++ [(next_id db, name)])%list)
    | _ => (Failed "not all arguments converted during bytes formatting", db)
    end
  else if String.prefix "SELECT * FROM sales_denorm" sql then
    (Done (mkcursor 2 0 [] (DictRows sales_denorm)), db)
  else (Done empty_cursor, db).

(** Tokens: "good" verifies, "old" has expired, anything else is invalid. *)
Definition decode (token key : string) : jwt_outcome :=
  if String.eqb token "good" then Decoded (VDict [("sub", VStr "admin")])
  else if String.eqb token "old" then ExpiredSignatureError
  else InvalidTokenError.

#[export] Instance runtime : Runtime := {|
  DB := store;
  db_connect := fun db => (Done tt, db);
  db_execute := execute;
  db_commit := fun db => (Done tt, db);
  jwt_decode := decode;
  jwt_encode := fun _ _ => "good";
  now_timestamp := 1700000000;
  float_of_str := fun _ => ValueErr;
  float_of_int := fun n => Converted (Finite n 0);
  getenv := fun _ => None;
  propagate_exceptions := false
|}.

(** The same runtime when the database server cannot be reached. *)
Definition offline : Runtime := {|
  DB := store;
  db_connect := fun db => (Failed "2006 MySQL server has gone away", db);
  db_execute := execute;
  db_commit := fun db => (Done tt, db);
  jwt_decode := decode;
  jwt_encode := fun _ _ => "good";
  now_timestamp := 1700000000;
  float_of_str := fun _ => ValueErr;
  float_of_int := fun n => Converted (Finite n 0);
  getenv := fun _ => None;
  propagate_exceptions := false
|}.

Definition db0 : store := [(1, "Kitchen"); (2, "Garden")].

Definition bearer_good : option string := Some "Bearer good".

(** GET /api/categories?format=yaml without an Authorization header *)
Definition unauthenticated_yaml : request :=
  mkrequest (ListOf Categories) [("format", "yaml")] None None.

(** GET /health?format=yaml *)
Definition health_yaml : request :=
  mkrequest Health [("format", "yaml")] None None.

(** POST /api/categories?format=yaml with a valid token and a fresh name *)
Definition create_yaml : request :=
  mkrequest (CreateOf Categories) [("format", "yaml")] bearer_good
    (Some (VDict [("category_name", VStr "Tools")])).

(** GET /api/categories without an Authorization header *)
Definition unauthenticated : request :=
  mkrequest (ListOf Categories) [] None None.

(** POST /api/categories with a name that exists already *)
Definition create_duplicate : request :=
  mkrequest (CreateOf Categories) [] bearer_good
    (Some (VDict [("category_name", VStr "Kitchen")])).

(** DELETE /api/categories/2?format=xml *)
Definition delete_two : request :=
  mkrequest (DeleteOf Categories 2) [("format", "xml")] bearer_good None.


(** POST /api/sales whose quantity is the JSON number 1e999 *)
Definition sale_infinite_quantity : request :=
  mkrequest (CreateOf Sales) [] bearer_good
    (Some (VDict [("sale_id", VInt 7); ("product_id", VInt 1);
                  ("sale_date", VStr "2023-02-01");
                  ("quantity", VFloat (Infinity false));
                  ("price", VInt 20); ("customer_id", VInt 42);
                  ("region_id", VInt 1)])).

(** The double nearest to 1.9 *)
Definition one_point_nine : pyfloat := Finite 4278419646001971 (-51).

End Demo.

(** An engine for the search: the view has the two rows of the demo, names
    are compared without regard to case, and a statement is answered when
    it is the search statement of some filters, with as many parameters. *)
Module SearchDemo.

Definition recognise (sql : string) : option (list search_filter) :=
  find (fun chosen => String.eqb sql (select_search (map filter_condition chosen)))
    (sublists all_filters).

Fixpoint holds_all (chosen : list search_filter) (params : list value)
  (row : list (string * value)) : bool :=
  match chosen, params with
  | [], [] => true
  | f :: chosen', p :: params' =>
      conjunct_holds same_letter f p row && holds_all chosen' params' row
  | _, _ => false
  end.

Definition execute (sql : string) (params : list value) (db : unit)
  : driver cursor * unit :=
  match recognise sql with
  | Some chosen =>
      if Nat.eqb (List.length chosen) (List.length params) then
        let rows := filter (holds_all chosen params) Demo.sales_denorm in
        (Done (mkcursor (Z.of_nat (List.length rows)) 0 [] (DictRows rows)), db)
      else (Failed "not all arguments converted during bytes formatting", db)
  | None => (Failed "1064 You have an error in your SQL syntax", db)
  end.

Definition runtime : Runtime := {|
  DB := unit;
  db_connect := fun db => (Done tt, db);
  db_execute := execute;
  db_commit := fun db => (Done tt, db);
  jwt_decode := Demo.decode;
  jwt_encode := fun _ _ => "good";
  now_timestamp := 1700000000;
  float_of_str := fun _ => ValueErr;
  float_of_int := fun n => Converted (Finite n 0);
  getenv := fun _ => None;
  propagate_exceptions := false
|}.


(** GET /api/sales/search?product_name=_ *)
Definition search_underscore : request :=
  mkrequest SearchSales [("product_name", "_")] Demo.bearer_good None.

End SearchDemo.

(* ================================================================== *)
(** ** Vocabulary for the contracts of the routes *)

Section RouteVocabulary.

Context {R : Runtime}.


(** The column whose dates a read of the resource turns into text. *)
Definition date_column (r : resource) : option string :=
  match r with
  | Customers => Some "signup_date"
  | Sales => Some "sale_date"
  | _ => None
  end.

(** A row as a read of the resource returns it. *)
Definition read_row (r : resource) (row : list (string * value))
  : list (string * value) :=
  match date_column r with
  | Some k => stringify_date k row
  | None => row
  end.

(** The statement of a list. *)
Definition list_sql (r : resource) : string :=
  match r with
  | Categories =>
      "SELECT category_id, category_name FROM categories ORDER BY category_id"
  | Regions => "SELECT region_id, region_name FROM regions ORDER BY region_id"
  | Customers =>
      "SELECT customer_id, first_name, last_name, email, signup_date FROM customers ORDER BY customer_id"
  | Products =>
      sql_block
        ["SELECT p.product_id, p.product_name, p.category_id, c.category_name";
         "FROM products p";
         "JOIN categories c ON c.category_id = p.category_id";
         "ORDER BY p.product_id"]
  | Sales =>
      sql_block
        ["SELECT sale_id, product_id, sale_date, quantity, price, customer_id, region_id";
         "FROM sales_fact";
         "ORDER BY sale_id"]
  end.

(** The statement of a get by identifier. *)
Definition get_sql (r : resource) : string :=
  match r with
  | Categories =>
      "SELECT category_id, category_name FROM categories WHERE category_id=%s"
  | Regions => "SELECT region_id, region_name FROM regions WHERE region_id=%s"
  | Customers =>
      "SELECT customer_id, first_name, last_name, email, signup_date FROM customers WHERE customer_id=%s"
  | Products =>
      sql_block
        ["SELECT p.product_id, p.product_name, p.category_id, c.category_name";
         "FROM products p";
         "JOIN categories c ON c.category_id = p.category_id";
         "WHERE p.product_id=%s"]
  | Sales =>
      "SELECT sale_id, product_id, sale_date, quantity, price, customer_id, region_id FROM sales_fact WHERE sale_id=%s"
  end.

(** The statement and the parameters of a read route. *)
Definition read_statement (req : request) : option (string * list value) :=
  match url_rule req with
  | ListOf r => Some (list_sql r, [])
  | GetOf r id => Some (get_sql r, [VInt id])
  | SearchSales =>
      match search_plan req with
      | Some l => Some (search_sql (map fst l), map snd l)
      | None => None
      end
  | _ => None
  end.

(** The storage work of a read: connect and run one statement. *)
Definition storage_query (sql : string) (params : list value) : M DB cursor :=
  (_ <- _db ;; execute sql params)%H.

(** The response to a create: 201 with a Location header. *)
Definition created (fmt : string) (payload : value) (location : string)
  : Response :=
  with_header (encoded fmt payload 201 "response") "Location" location.

(** The three shapes a response of the application has: a success with
    status 200, a creation with status 201 and a Location, or the error
    envelope with one of five statuses. *)
Definition well_answered (fmt : string) (resp : Response) : Prop :=
  (exists payload, resp = encoded fmt payload 200 "response")
  \/ (exists payload location, resp = created fmt payload location)
  \/ (exists message st,
        In st [400; 401; 404; 409; 500]
        /\ resp = error_envelope fmt message st).

(** A computation that, when it returns, returns such a response. *)
Definition answers (fmt : string) (m : M DB Response) : Prop :=
  forall db,
    (exists resp db', m db = (Return resp, db') /\ well_answered fmt resp)
    \/ (exists e db', m db = (Raise e, db')).

(** A member of the representation a write answers with echoes the
    statement: it is the identifier of the row, or a parameter of the
    statement, a date parameter being echoed as its ISO text. *)
Definition echoes (id : Z) (params : list value) (v : value) : Prop :=
  v = VInt id
  \/ In v params
  \/ exists d, v = VStr (Datetime.isoformat d) /\ In (VDate d) params.

(** The exceptions the validation of a body can raise. *)
Definition validation_exn (e : exn) : Prop :=
  match e with
  | BadRequest _ | AttributeError _ | OverflowError _ => True
  | _ => False
  end.

(** The last character of the text, when there is one, is not whitespace. *)
Fixpoint last_not_space (s : string) : bool :=
  match s with
  | EmptyString => true
  | String c EmptyString => negb (Text.isspace c)
  | String _ s' => last_not_space s'
  end.

(** The text neither starts nor ends with whitespace. *)
Definition no_outer_space (s : string) : bool :=
  match s with
  | EmptyString => true
  | String c _ => negb (Text.isspace c)
  end
  && last_not_space s.

(** The member of the body that names a category or a region. *)
Definition name_key (r : resource) : option string :=
  match r with
  | Categories => Some "category_name"
  | Regions => Some "region_name"
  | _ => None
  end.

(** A member of the body that counts as no name: absent, null, false, zero,
    empty, or a text of whitespace only. *)
Definition no_name (member : option value) : Prop :=
  match member with
  | None => True
  | Some (VStr s) => Text.blank s = true
  | Some v => truthy v = false
  end.

(** The members of a credentials body are the configured ones. *)
Definition credentials_match (b : value) : bool :=
  match b with
  | VDict items =>
      match dict_get items "username", dict_get items "password" with
      | Some (VStr u), Some (VStr p) =>
          String.eqb u API_USERNAME && String.eqb p API_PASSWORD
      | _, _ => false
      end
  | _ => false
  end.

(** A part of an e-mail address: not empty, no [@] and no whitespace. *)
Definition email_part (s : string) : Prop :=
  s <> ""
  /\ Forall (fun c => c <> "@"%char /\ Text.isspace c = false)
       (list_ascii_of_string s).

(** local@domain.tld, each of the three a part. *)
Definition email_text (s : string) : Prop :=
  exists local_part domain tld,
    s = local_part ++ "@" ++ domain ++ "." ++ tld
    /\ email_part local_part /\ email_part domain /\ email_part tld.

(** The four characters that [%04d] writes for [y] are digits that spell
    [y]; likewise the two characters of [%02d]. *)
Definition four_digits_of (y : Z) : bool :=
  match Text.pad4 y with
  | String a (String b (String c (String d EmptyString))) =>
      Text.is_digit a && Text.is_digit b && Text.is_digit c && Text.is_digit d
      && (number_of (Text.pad4 y) =? y)
  | _ => false
  end.

Definition two_digits_of (n : Z) : bool :=
  match Text.pad2 n with
  | String a (String b EmptyString) =>
      Text.is_digit a && Text.is_digit b && (number_of (Text.pad2 n) =? n)
  | _ => false
  end.

(** The whole numbers from [lo] to [hi]. *)
Definition numbers_from (lo hi : Z) : list Z :=
  map (fun i => lo + Z.of_nat i) (seq 0 (Z.to_nat (hi - lo + 1))).

(** The claims of the token a login signs: the configured user, the time
    of issue and the expiry one hour later. *)
Definition login_claims : value :=
  VDict [("sub", VStr API_USERNAME);
         ("iat", VInt now_timestamp);
         ("exp", VInt (now_timestamp + 3600))].

(** The token library verifies, under the configured key and at the time
    of issue, the token a login signs, and writes this token without
    whitespace around it. Nothing is asked of other payloads, other keys or
    later times. *)
Definition verifies_login_token : Prop :=
  (exists claims,
     jwt_decode (jwt_encode login_claims JWT_SECRET_KEY) JWT_SECRET_KEY
     = Decoded claims)
  /\ no_outer_space (jwt_encode login_claims JWT_SECRET_KEY) = true.

(** *** Configuration at start-up (config.py, [create_app]) *)

(** [int(os.getenv(name, default))] of config.py and
    [int(_env(name, app.config.get(name, default)))] of [create_app]: the
    text of the variable converted when it is set, the default otherwise. *)
Definition Config_int (name : string) (default : Z) : conv Z :=
  match getenv name with
  | Some s => Builtins.int_str s
  | None => Converted default
  end.

Definition create_app_int (name : string) (default : Z) : conv Z :=
  match Config_int name default with
  | Converted from_class =>
      match getenv name with
      | None => Converted from_class
      | Some s => Builtins.int_str s
      end
  | failure => failure
  end.

Definition MYSQL_PORT : conv Z := create_app_int "MYSQL_PORT" 3306.
Definition MYSQL_POOL_SIZE : conv Z := create_app_int "MYSQL_POOL_SIZE" 5.
Definition MYSQL_USER : string := _env "MYSQL_USER" (os_getenv "MYSQL_USER" "root").
Definition MYSQL_PASSWORD : string :=
  _env "MYSQL_PASSWORD" (os_getenv "MYSQL_PASSWORD" "root123").
Definition MYSQL_HOST : string :=
  _env "MYSQL_HOST" (os_getenv "MYSQL_HOST" "localhost").
Definition MYSQL_DB : string :=
  _env "MYSQL_DB" (os_getenv "MYSQL_DB" "hanz_sales_db").
Definition MYSQL_POOL_NAME : string :=
  _env "MYSQL_POOL_NAME" (os_getenv "MYSQL_POOL_NAME" "mypool").

End RouteVocabulary.

(** Requests for the contracts of the routes, on the demo runtime. *)
Module Scenario.

Definition category_row (row : Z * string) : list (string * value) :=
  [("category_id", VInt (fst row)); ("category_name", VStr (snd row))].

(** The demo engine with the update and the reads of the categories
    table. *)
Definition execute (sql : string) (params : list value) (db : Demo.store)
  : driver cursor * Demo.store :=
  if String.eqb sql "UPDATE categories SET category_name=%s WHERE category_id=%s" then
    match params with
    | [VStr name; VInt id] =>
        if Demo.has_id id db
        then (Done (mkcursor 1 0 [] (DictRows [])),
              map (fun row : Z * string => if fst row =? id then (id, name) else row) db)
        else (Done Demo.empty_cursor, db)
    | _ => (Failed "not all arguments converted during bytes formatting", db)
    end
  else if String.eqb sql "SELECT category_id, category_name FROM categories WHERE category_id=%s" then
    match params with
    | [VInt id] =>
        let rows := filter (fun row : Z * string => fst row =? id) db in
        (Done (mkcursor (Z.of_nat (List.length rows)) 0
                 ["category_id"; "category_name"]
                 (DictRows (map category_row rows))), db)
    | _ => (Failed "not all arguments converted during bytes formatting", db)
    end
  else if String.eqb sql "SELECT category_id, category_name FROM categories ORDER BY category_id" then
    (Done (mkcursor (Z.of_nat (List.length db)) 0
             ["category_id"; "category_name"]
             (TupleRows (map (fun row : Z * string => [VInt (fst row); VStr (snd row)]) db))),
     db)
  else Demo.execute sql params db.

Definition runtime : Runtime := {|
  DB := Demo.store;
  db_connect := fun db => (Done tt, db);
  db_execute := execute;
  db_commit := fun db => (Done tt, db);
  jwt_decode := Demo.decode;
  jwt_encode := fun _ _ => "good";
  now_timestamp := 1700000000;
  float_of_str := fun _ => ValueErr;
  float_of_int := fun n => Converted (Finite n 0);
  getenv := fun _ => None;
  propagate_exceptions := false
|}.

(** A token the demo verifier accepts is presented. *)
Definition good_token : string := "good".
Definition good_claims : value := VDict [("sub", VStr "admin")].

(** POST /api/categories?format=xml with a new name *)
Definition create_tools : request :=
  mkrequest (CreateOf Categories) [("format", "xml")] Demo.bearer_good
    (Some (VDict [("category_name", VStr "  Tools ")])).


(** POST /api/categories with a name of blanks *)
Definition create_blank : request :=
  mkrequest (CreateOf Categories) [] Demo.bearer_good
    (Some (VDict [("category_name", VStr "   ")])).

(** PUT /api/categories/2 *)
Definition rename_two : request :=
  mkrequest (UpdateOf Categories 2) [] Demo.bearer_good
    (Some (VDict [("category_name", VStr "Yard")])).

(** GET /api/categories/2 *)
Definition get_two : request :=
  mkrequest (GetOf Categories 2) [] Demo.bearer_good None.

(** GET /api/categories *)
Definition list_all : request :=
  mkrequest (ListOf Categories) [] Demo.bearer_good None.

(** POST /auth/login with the default credentials *)
Definition login_admin : request :=
  mkrequest Login [] None
    (Some (VDict [("username", VStr "admin"); ("password", VStr "password")])).

(** GET /api/sales/search?customer_id=abc *)
Definition search_abc : request :=
  mkrequest SearchSales [("customer_id", "abc")] Demo.bearer_good None.

(** GET /api/categories with blanks around the token *)
Definition list_padded : request :=
  mkrequest (ListOf Categories) [] (Some "Bearer   good  ") None.

(** POST /api/customers with an e-mail address without an at sign *)
Definition customer_bad_email : request :=
  mkrequest (CreateOf Customers) [] Demo.bearer_good
    (Some (VDict [("customer_id", VInt 999001);
                  ("first_name", VStr "Test");
                  ("last_name", VStr "User");
                  ("email", VStr "not-an-email");
                  ("signup_date", VStr "2023-01-01")])).

(** PUT /api/customers/7 without an e-mail address *)
Definition update_without_email : request :=
  mkrequest (UpdateOf Customers 7) [] Demo.bearer_good
    (Some (VDict [("first_name", VStr "Test"); ("last_name", VStr "User");
                  ("signup_date", VStr "2023-01-01")])).

(** [float(n)] within the range: the integer rounded to 53 significant
    bits, a tie going to the even neighbour. *)
Definition round_to_float (n : Z) : pyfloat :=
  let a := Z.abs n in
  let k := Z.log2 a - 52 in
  if k <=? 0 then Finite n 0
  else
    let q := Z.shiftr a k in
    let r := Z.land a (Z.ones k) in
    let half := Z.shiftl 1 (k - 1) in
    let q' := if (half <? r) || ((r =? half) && Z.odd q) then q + 1 else q in
    Finite (Z.sgn n * q') k.

(** The demo runtime with the range of binary floats: [float] rounds an
    integer to the nearest float, and from 2^1024 - 2^970 on the nearest
    one is out of range. *)
Definition bounded_floats : Runtime := {|
  DB := Demo.store;
  db_connect := fun db => (Done tt, db);
  db_execute := execute;
  db_commit := fun db => (Done tt, db);
  jwt_decode := Demo.decode;
  jwt_encode := fun _ _ => "good";
  now_timestamp := 1700000000;
  float_of_str := fun _ => ValueErr;
  float_of_int := fun n =>
    if Z.abs n <? 2 ^ 1024 - 2 ^ 970 then Converted (round_to_float n)
    else OverflowErr;
  getenv := fun _ => None;
  propagate_exceptions := false
|}.

(** POST /api/sales whose price is the integer 10^400 *)
Definition sale_huge_price : request :=
  mkrequest (CreateOf Sales) [] Demo.bearer_good
    (Some (VDict [("sale_id", VInt 7); ("product_id", VInt 1);
                  ("sale_date", VStr "2023-02-01");
                  ("quantity", VInt 2);
                  ("price", VInt (10 ^ 400)); ("customer_id", VInt 42);
                  ("region_id", VInt 1)])).

(** GET /nowhere and PATCH /health *)
Definition nowhere : request := mkrequest NoRoute [] None None.
Definition patch_health : request := mkrequest WrongMethod [("format", "xml")] None None.

End Scenario.

(* ================================================================== *)
(** ** The seeding script (tests/insert_data.py) *)

(** What stops the script. *)
Inductive script_exn : Type :=
| ScriptRuntimeError (text : string)
| ScriptDriverError (text : string)   (* an exception of the MySQL driver *)
| ScriptTypeError
| ScriptKeyError (key : string)
| ScriptValueError
| ScriptOverflowError
| ScriptIndexError.

Inductive outcome (A : Type) : Type :=
| Finished (a : A)
| Stopped (e : script_exn).
Arguments Finished {A} a.
Arguments Stopped {A} e.

(** The pseudo-random generator, call by call. *)
Record Random : Type := mkRandom {
  (** the index that the n-th call of [random.choice] picks in a sequence
      of the given length *)
  choice_index : nat -> nat -> nat;
  (** [random.randint(a, b)] at its n-th call *)
  randint : nat -> Z -> Z -> Z;
  (** [round(random.uniform(10.0, 1500.0), 2)] at the n-th call of [uniform] *)
  uniform_price : nat -> pyfloat
}.

(** [date + timedelta(days=n)]: [None] is OverflowError. *)
Definition date_add (d : Datetime.date) (days : Z) : option Datetime.date :=
  let o := Datetime.ymd_to_ord (Datetime.year d) (Datetime.month d) (Datetime.day d)
           + days in
  if (0 <? o) && (o <=? 3652059) then
    let '(y, m, dd) := Datetime.ord_to_ymd o in Some (Datetime.mkdate y m dd)
  else None.

(** What the script does to the database server, in order. *)
Inductive db_call : Type :=
| Connect
| Statement (sql : string) (params : list value)
| Commit.

(** The same runtime with a storage that also keeps the calls it
    received. *)
Definition recording (R0 : Runtime) : Runtime := {|
  DB := (@DB R0 * list db_call)%type;
  db_connect := fun s =>
    let (r, d) := @db_connect R0 (fst s) in (r, (d, (snd s ++ [Connect])%list));
  db_execute := fun sql params s =>
    let (r, d) := @db_execute R0 sql params (fst s) in
    (r, (d, (snd s ++ [Statement sql params])%list));
  db_commit := fun s =>
    let (r, d) := @db_commit R0 (fst s) in (r, (d, (snd s ++ [Commit])%list));
  jwt_decode := @jwt_decode R0;
  jwt_encode := @jwt_encode R0;
  now_timestamp := @now_timestamp R0;
  float_of_str := @float_of_str R0;
  float_of_int := @float_of_int R0;
  getenv := @getenv R0;
  propagate_exceptions := @propagate_exceptions R0
|}.

Section InsertData.

Context {R : Runtime}.

Variable rnd : Random.

(** The script as a state-passing function over the storage. *)
Definition Script (A : Type) : Type := DB -> outcome A * DB.

Definition finish {A} (a : A) : Script A := fun db => (Finished a, db).

Definition stop {A} (e : script_exn) : Script A := fun db => (Stopped e, db).

Definition pure {A} (o : outcome A) : Script A := fun db => (o, db).

Definition sbind {A B} (m : Script A) (k : A -> Script B) : Script B :=
  fun db =>
    match m db with
    | (Finished a, db') => k a db'
    | (Stopped e, db') => (Stopped e, db')
    end.

Definition driver_step {A} (f : DB -> driver A * DB) : Script A :=
  fun db =>
    match f db with
    | (Done a, db') => (Finished a, db')
    | (Failed text, db') => (Stopped (ScriptDriverError text), db')
    end.

Declare Scope script_scope.
Delimit Scope script_scope with S.
Notation "x <- m ;; k" := (sbind m (fun x => k))
  (at level 61, m at next level, right associativity) : script_scope.

(** [_make_app]: the one setting that is computed,
    [int(os.getenv("MYSQL_PORT", "3306"))]. *)
Definition _make_app : outcome Z :=
  match Builtins.int_str
          (match getenv "MYSQL_PORT" with Some s => s | None => "3306" end) with
  | Converted port => Finished port
  | TypeErr => Stopped ScriptTypeError
  | ValueErr => Stopped ScriptValueError
  | OverflowErr => Stopped ScriptOverflowError
  end.

(** [int(v)] *)
Definition to_int (v : value) : outcome Z :=
  match Builtins.int v with
  | Converted n => Finished n
  | TypeErr => Stopped ScriptTypeError
  | ValueErr => Stopped ScriptValueError
  | OverflowErr => Stopped ScriptOverflowError
  end.

(** [cur.fetchone()[key]] *)
Definition fetchone_at (cur : cursor) (key : string) : outcome value :=
  match fetched cur with
  | DictRows (row :: _) =>
      match dict_get row key with
      | Some v => Finished v
      | None => Stopped (ScriptKeyError key)
      end
  | _ => Stopped ScriptTypeError
  end.

(** [[r[key] for r in rows]] *)
Fixpoint column (rows : list (list (string * value))) (key : string)
  : outcome (list value) :=
  match rows with
  | [] => Finished []
  | row :: rest =>
      match dict_get row key with
      | Some v =>
          match column rest key with
          | Finished vs => Finished (v :: vs)
          | Stopped e => Stopped e
          end
      | None => Stopped (ScriptKeyError key)
      end
  end.

(** [[r[key] for r in cur.fetchall()]] *)
Definition fetchall_column (cur : cursor) (key : string) : outcome (list value) :=
  match fetched cur with
  | DictRows rows => column rows key
  | TupleRows [] => Finished []
  | TupleRows (_ :: _) => Stopped ScriptTypeError
  end.

(** [random.choice(seq)] at its n-th call *)
Definition choice (n : nat) (seq : list value) : outcome value :=
  match nth_error seq (choice_index rnd n (List.length seq)) with
  | Some v => Finished v
  | None => Stopped ScriptIndexError
  end.

Definition insert_sales_fact : string :=
  sql_block
    ["INSERT INTO sales_fact (sale_id, product_id, sale_date, quantity, price, customer_id, region_id)";
     "VALUES (%s,%s,%s,%s,%s,%s,%s)"].

(** The parameters of the INSERT of the i-th turn of the loop. *)
Definition new_sale (i : nat) (sale_id : Z)
  (product_ids customer_ids region_ids : list value) : outcome (list value) :=
  match choice (3 * i) product_ids with
  | Stopped e => Stopped e
  | Finished product_id =>
      match choice (3 * i + 1) customer_ids with
      | Stopped e => Stopped e
      | Finished customer_id =>
          match choice (3 * i + 2) region_ids with
          | Stopped e => Stopped e
          | Finished region_id =>
              match date_add (Datetime.mkdate 2023 1 1)
                      (randint rnd (2 * i) 0 60) with
              | None => Stopped ScriptOverflowError
              | Some sale_date =>
                  let quantity := randint rnd (2 * i + 1) 1 10 in
                  let price := uniform_price rnd i in
                  Finished [VInt sale_id; product_id; VDate sale_date;
                            VInt quantity; VFloat price; customer_id; region_id]
              end
          end
      end
  end.

(** [for _ in range(to_add)]: [todo] turns are left, [i] were made. *)
Fixpoint insert_loop (todo i : nat) (next_id : Z)
  (product_ids customer_ids region_ids : list value) : Script unit :=
  match todo with
  | O => finish tt
  | S todo' =>
      (params <- pure (new_sale i next_id product_ids customer_ids region_ids) ;;
       _ <- driver_step (db_execute insert_sales_fact params) ;;
       insert_loop todo' (S i) (next_id + 1) product_ids customer_ids region_ids)%S
  end.

Definition is_empty (l : list value) : bool :=
  match l with [] => true | _ => false end.

Definition ensure_min_sales (min_count : Z) : Script Z :=
  (_ <- pure _make_app ;;
   _ <- driver_step db_connect ;;
   cur <- driver_step (db_execute "SELECT COUNT(*) AS c FROM sales_fact" []) ;;
   c <- pure (fetchone_at cur "c") ;;
   current <- pure (to_int c) ;;
   if min_count <=? current then finish 0
   else
     cur <- driver_step (db_execute "SELECT MAX(sale_id) AS m FROM sales_fact" []) ;;
     max_id <- pure (fetchone_at cur "m") ;;
     m <- pure (to_int (por max_id (VInt 0))) ;;
     let next_id := m + 1 in
     cur <- driver_step (db_execute "SELECT product_id FROM products" []) ;;
     product_ids <- pure (fetchall_column cur "product_id") ;;
     cur <- driver_step (db_execute "SELECT customer_id FROM customers" []) ;;
     customer_ids <- pure (fetchall_column cur "customer_id") ;;
     cur <- driver_step (db_execute "SELECT region_id FROM regions" []) ;;
     region_ids <- pure (fetchall_column cur "region_id") ;;
     if is_empty product_ids || is_empty customer_ids || is_empty region_ids
     then stop (ScriptRuntimeError
                  "Missing dimension data (products/customers/regions). Load the schema seed first.")
     else
       let to_add := min_count - current in
       _ <- insert_loop (Z.to_nat to_add) 0 next_id
              product_ids customer_ids region_ids ;;
       _ <- driver_step db_commit ;;
       finish to_add)%S.

End InsertData.

(** *** Vocabulary for the seeding script *)

(** The generator keeps the promises of the [random] module: [choice]
    picks an index inside the sequence, [randint(a, b)] a number from [a]
    to [b]. *)
Definition fair (rnd : Random) : Prop :=
  (forall n len, (0 < len)%nat -> (choice_index rnd n len < len)%nat)
  /\ (forall n a b, a <= b -> a <= randint rnd n a b <= b).

(** The reads the script starts with. *)
Definition seed_reads : list db_call :=
  [Connect;
   Statement "SELECT COUNT(*) AS c FROM sales_fact" [];
   Statement "SELECT MAX(sale_id) AS m FROM sales_fact" [];
   Statement "SELECT product_id FROM products" [];
   Statement "SELECT customer_id FROM customers" [];
   Statement "SELECT region_id FROM regions" []].

(** The storage in state [db] answers the connection and the count of
    sales_fact, which finds [current] rows, and is then in state [d]. *)
Definition counted {R0 : Runtime} (db d : DB) (current : Z) : Prop :=
  exists d1 cur c,
    db_connect db = (Done tt, d1)
    /\ db_execute "SELECT COUNT(*) AS c FROM sales_fact" [] d1 = (Done cur, d)
    /\ fetchone_at cur "c" = Finished c
    /\ to_int c = Finished current.

(** The storage in state [d] answers the four reads that follow the count:
    the greatest sale id is [m] (0 for an empty table), and the
    identifiers of the products, customers and regions are the three
    lists; it is then in state [d']. *)
Definition surveyed {R0 : Runtime} (d d' : DB) (m : Z)
  (product_ids customer_ids region_ids : list value) : Prop :=
  exists c2 d3 max_id c3 d4 c4 d5 c5,
    db_execute "SELECT MAX(sale_id) AS m FROM sales_fact" [] d = (Done c2, d3)
    /\ fetchone_at c2 "m" = Finished max_id
    /\ to_int (por max_id (VInt 0)) = Finished m
    /\ db_execute "SELECT product_id FROM products" [] d3 = (Done c3, d4)
    /\ fetchall_column c3 "product_id" = Finished product_ids
    /\ db_execute "SELECT customer_id FROM customers" [] d4 = (Done c4, d5)
    /\ fetchall_column c4 "customer_id" = Finished customer_ids
    /\ db_execute "SELECT region_id FROM regions" [] d5 = (Done c5, d')
    /\ fetchall_column c5 "region_id" = Finished region_ids.

(** A row the script inserts: the sale id, a product, a date of the first
    61 days of 2023, a quantity from 1 to 10, a price, a customer and a
    region, the three taken from the lists read before. *)
Definition seeded_row (sale_id : Z) (product_ids customer_ids region_ids : list value)
  (params : list value) : Prop :=
  exists product_id customer_id region_id sale_date quantity price,
    params = [VInt sale_id; product_id; VDate sale_date; VInt quantity;
              VFloat price; customer_id; region_id]
    /\ In product_id product_ids
    /\ In customer_id customer_ids
    /\ In region_id region_ids
    /\ 1 <= quantity <= 10
    /\ Datetime.year sale_date = 2023
    /\ 1 <= Datetime.month sale_date <= 3
    /\ calendar_date (Datetime.year sale_date) (Datetime.month sale_date)
         (Datetime.day sale_date) = true.

(** The date the script makes of a draw, checked against the validator
    of the API. *)
Definition seed_date_ok (days : Z) : bool :=
  match date_add (Datetime.mkdate 2023 1 1) days with
  | Some d =>
      (Datetime.year d =? 2023) && (1 <=? Datetime.month d)
      && (Datetime.month d <=? 3)
      && calendar_date (Datetime.year d) (Datetime.month d) (Datetime.day d)
      && match Datetime.fromisoformat (Datetime.isoformat d) with
         | Some d' =>
             (Datetime.year d' =? Datetime.year d)
             && (Datetime.month d' =? Datetime.month d)
             && (Datetime.day d' =? Datetime.day d)
         | None => false
         end
  | None => false
  end.

(** The insert statements of the rows with the given parameters. *)
Definition inserts_of (rows : list (list value)) : list db_call :=
  map (Statement insert_sales_fact) rows.

(** The sale id of a row of parameters. *)
Definition sale_id_of (params : list value) : value :=
  match params with
  | v :: _ => v
  | [] => VNone
  end.

(** The float is a number from [lo] to [hi]. *)
Definition float_between (lo hi : Z) (x : pyfloat) : Prop :=
  match x with
  | Finite m e =>
      if 0 <=? e then lo <= m * 2 ^ e <= hi
      else lo * 2 ^ (- e) <= m <= hi * 2 ^ (- e)
  | _ => False
  end.

(** The generator keeps the promise of [uniform]: a price drawn between
    10 and 1500 and rounded to cents is a number from 10 to 1500. *)
Definition priced (rnd : Random) : Prop :=
  forall n, float_between 10 1500 (uniform_price rnd n).

(** The price of a row of parameters. *)
Definition price_of (params : list value) : value := nth 4 params VNone.

(** The storage in state [d] takes the inserts of the rows one after the
    other and then the commit, and is then in state [d']. *)
Fixpoint stores {R0 : Runtime} (d : DB) (rows : list (list value)) (d' : DB)
  : Prop :=
  match rows with
  | [] => db_commit d = (Done tt, d')
  | row :: rest =>
      exists cur d1,
        db_execute insert_sales_fact row d = (Done cur, d1)
        /\ stores d1 rest d'
  end.

(** Fresh sales: rows numbered from [m + 1] on without a gap, each a
    seeded row whose price is a number from 10 to 1500. *)
Definition fresh_sales (m : Z) (product_ids customer_ids region_ids : list value)
  (rows : list (list value)) : Prop :=
  forall j row,
    nth_error rows j = Some row ->
    seeded_row (m + 1 + Z.of_nat j) product_ids customer_ids region_ids row
    /\ exists price,
         price_of row = VFloat price /\ float_between 10 1500 price.

(** The storage in state [d], where the greatest sale id is [m] and the
    three lists hold the identifiers of the products, customers and
    regions, accepts fresh sales and their commit. Nothing is asked for
    other rows (a sale id that is stored already, a product that is not)
    or for other states. *)
Definition accepts_fresh_sales {R0 : Runtime} (d : DB) (m : Z)
  (product_ids customer_ids region_ids : list value) : Prop :=
  forall rows,
    fresh_sales m product_ids customer_ids region_ids rows ->
    exists d', stores d rows d'.

(** The rows of [todo] turns of the loop from turn [i] on. *)
Fixpoint sales_rows (rnd : Random) (todo i : nat) (next_id : Z)
  (product_ids customer_ids region_ids : list value) : list (list value) :=
  match todo with
  | O => []
  | S todo' =>
      match new_sale rnd i next_id product_ids customer_ids region_ids with
      | Finished row =>
          row :: sales_rows rnd todo' (S i) (next_id + 1)
                   product_ids customer_ids region_ids
      | Stopped _ => []
      end
  end.

(** A small engine for the script: the storage is the list of the sale ids
    of sales_fact, which is the primary key (an insert of a stored sale id
    fails); there are two products, one customer and one region. *)
Module SeedDemo.

Definition execute (sql : string) (params : list value) (db : list Z)
  : driver cursor * list Z :=
  if String.eqb sql "SELECT COUNT(*) AS c FROM sales_fact" then
    (Done (mkcursor 1 0 ["c"] (DictRows [[("c", VInt (Z.of_nat (List.length db)))]])), db)
  else if String.eqb sql "SELECT MAX(sale_id) AS m FROM sales_fact" then
    (Done (mkcursor 1 0 ["m"]
             (DictRows [[("m", match db with
                               | [] => VNone
                               | _ => VInt (fold_right Z.max 0 db)
                               end)]])), db)
  else if String.eqb sql "SELECT product_id FROM products" then
    (Done (mkcursor 2 0 ["product_id"]
             (DictRows [[("product_id", VInt 1)]; [("product_id", VInt 2)]])), db)
  else if String.eqb sql "SELECT customer_id FROM customers" then
    (Done (mkcursor 1 0 ["customer_id"] (DictRows [[("customer_id", VInt 42)]])), db)
  else if String.eqb sql "SELECT region_id FROM regions" then
    (Done (mkcursor 1 0 ["region_id"] (DictRows [[("region_id", VInt 5)]])), db)
  else if String.eqb sql insert_sales_fact then
    match params with
    | VInt sale_id :: _ =>
        if existsb (Z.eqb sale_id) db
        then (Failed "Duplicate entry for key 'sales_fact.PRIMARY'", db)
        else (Done (mkcursor 1 0 [] (DictRows [])), (db ++ [sale_id])%list)
    | _ => (Failed "Incorrect integer value for column 'sale_id'", db)
    end
  else (Failed "You have an error in your SQL syntax", db).

Definition runtime : Runtime := {|
  DB := list Z;
  db_connect := fun db => (Done tt, db);
  db_execute := execute;
  db_commit := fun db => (Done tt, db);
  jwt_decode := Demo.decode;
  jwt_encode := fun _ _ => "good";
  now_timestamp := 1700000000;
  float_of_str := fun _ => ValueErr;
  float_of_int := fun n => Converted (Finite n 0);
  getenv := fun _ => None;
  propagate_exceptions := false
|}.

(** The engine without any product. *)
Definition no_products : Runtime := {|
  DB := list Z;
  db_connect := fun db => (Done tt, db);
  db_execute := fun sql params db =>
    if String.eqb sql "SELECT product_id FROM products"
    then (Done (mkcursor 0 0 ["product_id"] (DictRows [])), db)
    else execute sql params db;
  db_commit := fun db => (Done tt, db);
  jwt_decode := Demo.decode;
  jwt_encode := fun _ _ => "good";
  now_timestamp := 1700000000;
  float_of_str := fun _ => ValueErr;
  float_of_int := fun n => Converted (Finite n 0);
  getenv := fun _ => None;
  propagate_exceptions := false
|}.

(** A generator that always picks the first item and the least number. *)
Definition least : Random := {|
  choice_index := fun _ _ => O;
  randint := fun _ a _ => a;
  uniform_price := fun _ => Finite 10 0
|}.

End SeedDemo.

(* ================================================================== *)
(** * Properties *)

(** ** Text *)

Lemma lstrip_app_blank (l s : string) :
  Text.blank l = true -> Text.lstrip (l ++ s) = Text.lstrip s.
Proof.
  induction l as [|c l IH]; simpl; intros H.
  - reflexivity.
  - apply andb_prop in H as [Hc Hl]. rewrite Hc. auto.
Qed.

Lemma rstrip_blank (r : string) :
  Text.blank r = true -> Text.rstrip r = EmptyString.
Proof.
  induction r as [|c r IH]; simpl; intros H.
  - reflexivity.
  - apply andb_prop in H as [Hc Hr]. rewrite (IH Hr), Hc. reflexivity.
Qed.

Lemma rstrip_app_blank (w r : string) :
  Text.blank r = true -> Text.rstrip (w ++ r) = Text.rstrip w.
Proof.
  intros H. induction w as [|c w IH]; simpl.
  - apply rstrip_blank. exact H.
  - rewrite IH. reflexivity.
Qed.

Lemma space_is_lowercase (c : ascii) :
  Text.isspace c = true -> Text.lower_char c = c.
Proof.
  destruct c as [b0 b1 b2 b3 b4 b5 b6 b7].
  destruct b0, b1, b2, b3, b4, b5, b6, b7; vm_compute;
    solve [reflexivity | discriminate].
Qed.

(** A character that lowercases to a letter is no whitespace. *)
Lemma lowers_to_letter (c x : ascii) :
  Text.lower_char c = x -> Text.isspace x = false -> Text.isspace c = false.
Proof.
  intros Hl Hx. destruct (Text.isspace c) eqn:Hc; [|reflexivity].
  rewrite (space_is_lowercase c Hc) in Hl. congruence.
Qed.

Lemma strip_core (l w r : string) (a z : ascii) (mid : string) :
  Text.blank l = true -> Text.blank r = true ->
  w = String a (mid ++ String z EmptyString) ->
  Text.isspace a = false -> Text.isspace z = false ->
  Text.strip (l ++ w ++ r) = w.
Proof.
  intros Hl Hr -> Ha Hz. unfold Text.strip.
  rewrite lstrip_app_blank by exact Hl.
  simpl. rewrite Ha.
  change (String a ((mid ++ String z EmptyString) ++ r))
    with (String a (mid ++ String z EmptyString) ++ r).
  rewrite rstrip_app_blank by exact Hr.
  assert (Hne : forall m, Text.rstrip (m ++ String z EmptyString)
                          = m ++ String z EmptyString).
  { induction m as [|c m IH]; simpl.
    - rewrite Hz. reflexivity.
    - rewrite IH. destruct m; reflexivity. }
  simpl. rewrite Hne. destruct mid; reflexivity.
Qed.

(** A text that lowercases to json or xml, between blanks, strips to
    itself. *)
Lemma strip_format_word (l w r : string) :
  Text.blank l = true -> Text.blank r = true ->
  Text.lower w = "json" \/ Text.lower w = "xml" ->
  Text.strip (l ++ w ++ r) = w /\ w <> "".
Proof.
  intros Hl Hr [Hw | Hw].
  - destruct w as [|a [|b [|c [|d [|? ?]]]]]; try discriminate.
    simpl in Hw. injection Hw as Ha Hb Hc Hd.
    split; [|discriminate].
    apply (strip_core l _ r a d (String b (String c EmptyString))); auto.
    + eapply lowers_to_letter; [exact Ha | reflexivity].
    + eapply lowers_to_letter; [exact Hd | reflexivity].
  - destruct w as [|a [|b [|c [|? ?]]]]; try discriminate.
    simpl in Hw. injection Hw as Ha Hb Hc.
    split; [|discriminate].
    apply (strip_core l _ r a c (String b EmptyString)); auto.
    + eapply lowers_to_letter; [exact Ha | reflexivity].
    + eapply lowers_to_letter; [exact Hc | reflexivity].
Qed.

Lemma app_not_empty (l w r : string) :
  w <> "" -> String.eqb (l ++ w ++ r) "" = false.
Proof.
  intros Hw. apply String.eqb_neq.
  destruct l; simpl; [|discriminate].
  destruct w; simpl; [congruence | discriminate].
Qed.

(** ** Format selection *)

(** C9. The format parameter is trimmed of surrounding whitespace and
    lowercased before it is compared with json and xml: a value made of
    any case variant [w] of one of the two words, with blanks [l] before
    and [r] after it, is accepted, and the format is the lowercase word. *)
Theorem format_trimmed_and_lowercased (req : request) (l w r : string) :
  Text.blank l = true ->
  Text.blank r = true ->
  Text.lower w = "json" \/ Text.lower w = "xml" ->
  args_get (args req) "format" = Some (l ++ w ++ r) ->
  _get_format req = Return (Text.lower w).
Proof.
  intros Hl Hr Hw Harg.
  destruct (strip_format_word l w r Hl Hr Hw) as [Hstrip Hne].
  unfold _get_format. rewrite Harg, (app_not_empty l w r Hne), Hstrip.
  destruct Hw as [-> | ->]; reflexivity.
Qed.

(** 'XML', 'Json' and ' json ' are accepted. *)
Lemma format_trimmed_and_lowercased_witness :
  _get_format (mkrequest Health [("format", "XML")] None None) = Return "xml"
  /\ _get_format (mkrequest Health [("format", "Json")] None None) = Return "json"
  /\ _get_format (mkrequest Health [("format", " json ")] None None) = Return "json".
Proof.
  split; [|split].
  - apply (format_trimmed_and_lowercased
             (mkrequest Health [("format", "XML")] None None) "" "XML" "");
      [reflexivity | reflexivity | right; reflexivity | reflexivity].
  - apply (format_trimmed_and_lowercased
             (mkrequest Health [("format", "Json")] None None) "" "Json" "");
      [reflexivity | reflexivity | left; reflexivity | reflexivity].
  - apply (format_trimmed_and_lowercased
             (mkrequest Health [("format", " json ")] None None) " " "json" " ");
      [reflexivity | reflexivity | left; reflexivity | reflexivity].
Defined.

(** ** The integer parser *)

Lemma quot_is_truncation (m d : Z) :
  0 < d -> truncation (Z.quot m d) m d.
Proof.
  intros Hd. unfold truncation.
  pose proof (Z.quot_rem' m d) as Hqr.
  split; intros Hm.
  - pose proof (Z.rem_bound_pos m d Hm Hd). nia.
  - pose proof (Z.rem_bound_pos_neg m d Hd Hm). nia.
Qed.

Lemma parse_int_of_converted (v : value) (field : string) (minimum : option Z) (n : Z) :
  Builtins.int v = Converted n ->
  meets minimum n ->
  _parse_int v field minimum = Return n.
Proof.
  intros Hc Hm. unfold _parse_int. rewrite Hc.
  destruct minimum as [k|]; [|reflexivity].
  simpl in Hm. destruct (Z.ltb_spec n k); [lia | reflexivity].
Qed.

(** What the parser returns is what [int] converted, and it is not below
    the minimum. *)
Lemma parse_int_returns (v : value) (field : string) (minimum : option Z) (n : Z) :
  _parse_int v field minimum = Return n <->
  Builtins.int v = Converted n /\ meets minimum n.
Proof.
  split.
  - unfold _parse_int. destruct (Builtins.int v) as [p| | |]; try discriminate.
    destruct minimum as [k|]; simpl.
    + destruct (Z.ltb_spec p k) as [Hlt | Hge]; [discriminate|].
      intros Hr. injection Hr as ->. split; [reflexivity | lia].
    + intros Hr. injection Hr as ->. split; [reflexivity | exact I].
  - intros [Hc Hm]. apply parse_int_of_converted; assumption.
Qed.

(** An identifier or a quantity parsed with minimum 1 is at least 1: zero
    and negative numbers are rejected. *)
Lemma parse_int_minimum_one (v : value) (field : string) (n : Z) :
  _parse_int v field (Some 1) = Return n -> 1 <= n.
Proof.
  intros H. apply parse_int_returns in H as [_ H]. exact H.
Qed.

(** A value below the minimum is turned down with the bad-input error that
    names the field. *)
Lemma parse_int_below_minimum (v : value) (field : string) (k n : Z) :
  Builtins.int v = Converted n -> n < k ->
  _parse_int v field (Some k)
  = Raise (BadRequest (field ++ " must be >= " ++ Text.str_int k)).
Proof.
  intros Hc Hlt. unfold _parse_int. rewrite Hc.
  destruct (Z.ltb_spec n k); [reflexivity | lia].
Qed.

(** C10. A number that is not whole is not rejected for that: the parser
    returns its truncation toward zero whenever the truncation meets the
    minimum. The number is m * 2^e with e < 0 and m not a multiple of
    2^(-e). *)
Theorem fractional_number_truncated
  (m e : Z) (field : string) (minimum : option Z) :
  fractional m e ->
  exists t,
    truncation t m (2 ^ (- e))
    /\ (meets minimum t ->
        _parse_int (VFloat (Finite m e)) field minimum = Return t).
Proof.
  intros [He _]. exists (Z.quot m (2 ^ (- e))). split.
  - apply quot_is_truncation. apply Z.pow_pos_nonneg; lia.
  - intros Hm. apply parse_int_of_converted; [|exact Hm].
    simpl. destruct (Z.leb_spec 0 e); [lia | reflexivity].
Qed.

(** A quantity of 1.9 sent as a number is accepted as 1. *)
Lemma fractional_number_truncated_witness :
  _parse_int (VFloat Demo.one_point_nine) "quantity" (Some 1) = Return 1.
Proof.
  destruct (fractional_number_truncated 4278419646001971 (-51) "quantity" (Some 1))
    as [t [[Hpos _] Hret]].
  - split; [lia | vm_compute; discriminate].
  - assert (Ht : t = 1).
    { specialize (Hpos ltac:(lia)).
      change (2 ^ (- -51)) with 2251799813685248 in Hpos. lia. }
    subst t. apply Hret. simpl. lia.
Defined.

(** C6. An infinite float (the JSON numbers 1e999 or Infinity) is not
    convertible, yet the parser does not fail with the bad-input error:
    the OverflowError of the conversion is not among the exceptions it
    catches, so it leaves the parser, and the request is answered by the
    catch-all handler with status 500. *)
Theorem parse_int_infinity_not_bad_input
  (field : string) (minimum : option Z) (negative : bool) :
  _parse_int (VFloat (Infinity negative)) field minimum
  = Raise (OverflowError "cannot convert float infinity to integer")
  /\ (forall description,
        _parse_int (VFloat (Infinity negative)) field minimum
        <> Raise (BadRequest description))
  /\ wsgi_app (R := Demo.runtime) Demo.sale_infinite_quantity Demo.db0
     = (Return (error_envelope "json" "Internal server error" 500), Demo.db0).
Proof.
  split; [reflexivity | split; [discriminate | reflexivity]].
Qed.

(** ** The date parser *)

Lemma leap_rules_agree (y : Z) : Datetime.is_leap y = leap_year y.
Proof.
  unfold Datetime.is_leap, leap_year.
  destruct (Z.eqb_spec (y mod 400) 0) as [H400 | H400].
  - assert (H4 : y mod 4 = 0).
    { rewrite (Z.div_mod y 400) by lia. rewrite H400, Z.add_0_r.
      replace (400 * (y / 400)) with ((100 * (y / 400)) * 4) by ring.
      apply Z.mod_mul. lia. }
    rewrite H4. simpl. rewrite orb_true_r. reflexivity.
  - rewrite !orb_false_r. reflexivity.
Qed.

Lemma month_lengths_agree (y m : Z) :
  1 <= m <= 12 -> Datetime.days_in_month y m = month_length y m.
Proof.
  intros Hm. unfold Datetime.days_in_month.
  assert (Hcases : m = 1 \/ m = 2 \/ m = 3 \/ m = 4 \/ m = 5 \/ m = 6 \/ m = 7
                   \/ m = 8 \/ m = 9 \/ m = 10 \/ m = 11 \/ m = 12) by lia.
  rewrite leap_rules_agree.
  repeat (destruct Hcases as [-> | Hcases]; [simpl; try reflexivity;
    destruct (leap_year y); reflexivity|]).
  subst m. reflexivity.
Qed.

Lemma range_checks_agree (y m d : Z) :
  Datetime.check_date_args y m d = calendar_date y m d.
Proof.
  unfold Datetime.check_date_args, calendar_date.
  destruct (Z.leb_spec 1 m); [|rewrite !andb_false_r; reflexivity].
  destruct (Z.leb_spec m 12); [|rewrite !andb_false_r; reflexivity].
  rewrite month_lengths_agree by lia. reflexivity.
Qed.

Lemma digit_code (c : ascii) :
  Text.is_digit c = true -> 48 <= Text.code c <= 57.
Proof.
  unfold Text.is_digit. intros H. apply andb_prop in H as [H1 H2].
  apply Z.leb_le in H1. apply Z.leb_le in H2. lia.
Qed.

Lemma utf8_digit (c : ascii) (s : string) :
  Text.is_digit c = true ->
  Datetime.utf8 (String c s) = Text.code c :: Datetime.utf8 s.
Proof.
  intros H. apply digit_code in H. simpl.
  destruct (Z.ltb_spec (Text.code c) 128); [reflexivity | lia].
Qed.

Lemma parse_digit_step (c : ascii) (p : list Z) (n : nat) (acc : Z) :
  Text.is_digit c = true ->
  Datetime.parse_digits (Text.code c :: p) (S n) acc
  = Datetime.parse_digits p n (acc * 10 + Text.digit_val c).
Proof.
  intros H. simpl. unfold Text.is_digit in H. rewrite H. reflexivity.
Qed.

Lemma parse_digits_done (p : list Z) (acc : Z) :
  Datetime.parse_digits p 0 acc = Some (acc, p).
Proof.
  destruct p; reflexivity.
Qed.

Lemma digit_is_not (c : ascii) (k : Z) (p : list Z) :
  Text.is_digit c = true -> k < 48 \/ 57 < k ->
  Datetime.at_byte k (Text.code c :: p) = false.
Proof.
  intros H Hk. apply digit_code in H. simpl. apply Z.eqb_neq. lia.
Qed.

(** On a text in YYYY-MM-DD form the ISO parser returns the date of the
    three fields when they are a calendar date, and fails otherwise. *)
Lemma fromisoformat_yyyy_mm_dd (s : string) :
  yyyy_mm_dd_form s = true ->
  Datetime.fromisoformat s =
    let '(y, m, d) := ymd_fields s in
    if calendar_date y m d then Some (Datetime.mkdate y m d) else None.
Proof.
  destruct s as [|y1 [|y2 [|y3 [|y4 [|s1 [|m1 [|m2 [|s2 [|d1 [|d2 [|? ?]]]]]]]]]]];
    try discriminate.
  intros H. unfold yyyy_mm_dd_form in H.
  do 9 (apply andb_prop in H as [H ?]).
  repeat match goal with
         | E : Ascii.eqb _ _ = true |- _ => apply Ascii.eqb_eq in E; subst
         end.
  unfold Datetime.fromisoformat.
  repeat (rewrite utf8_digit by assumption).
  change (Datetime.utf8 (String "-" ?t)) with (45 :: Datetime.utf8 t).
  repeat (rewrite utf8_digit by assumption).
  change (Datetime.utf8 (String "-" ?t)) with (45 :: Datetime.utf8 t).
  repeat (rewrite utf8_digit by assumption).
  change (Datetime.utf8 EmptyString) with (@nil Z).
  change (Z.of_nat (Datatypes.length ?l) =? 7) with false.
  change (Z.of_nat (Datatypes.length ?l) =? 8) with false.
  change (Z.of_nat (Datatypes.length ?l) =? 10) with true.
  cbv beta iota delta [orb].
  unfold Datetime.parse_isoformat_date.
  repeat (rewrite parse_digit_step by assumption).
  rewrite parse_digits_done. cbv beta iota zeta.
  change (Datetime.at_byte 45 (45 :: ?t)) with true. cbv beta iota zeta.
  change (tl (45 :: ?t)) with t.
  rewrite digit_is_not by (assumption || lia).
  repeat (rewrite parse_digit_step by assumption).
  rewrite parse_digits_done. cbv beta iota zeta.
  unfold Datetime.expect_sep.
  change (Datetime.at_byte 45 (45 :: ?t)) with true. cbv beta iota zeta.
  change (tl (45 :: ?t)) with t.
  repeat (rewrite parse_digit_step by assumption).
  rewrite parse_digits_done. cbv beta iota zeta.
  rewrite range_checks_agree.
  reflexivity.
Qed.



Lemma parse_date_text (s : string) (field : string) :
  s <> "" ->
  _parse_date (VStr s) field =
    match Datetime.fromisoformat s with
    | Some d => Return d
    | None => Raise (BadRequest (field ++ " must be a date string (YYYY-MM-DD)"))
    end.
Proof.
  intros Hs. unfold _parse_date. simpl.
  apply String.eqb_neq in Hs. rewrite Hs. reflexivity.
Qed.

Lemma form_not_empty (s : string) : yyyy_mm_dd_form s = true -> s <> "".
Proof. destruct s; [discriminate | discriminate]. Qed.









Lemma code_injective (a b : ascii) : Text.code a = Text.code b -> a = b.
Proof.
  unfold Text.code. intros H. apply N2Z.inj in H.
  rewrite <- (ascii_N_embedding a), <- (ascii_N_embedding b), H. reflexivity.
Qed.








(** ** The response encoder *)

Section EncoderFacts.

Context {R : Runtime}.

Lemma get_format_cases (req : request) :
  (exists fmt, _get_format req = Return fmt
               /\ (fmt = "json" \/ fmt = "xml"))
  \/ _get_format req = Raise (BadRequest "format must be 'json' or 'xml'").
Proof.
  unfold _get_format.
  destruct (String.eqb_spec (Text.lower (Text.strip
     match args_get (args req) "format" with
     | Some v => if String.eqb v "" then "json" else v
     | None => "json"
     end)) "json") as [-> | Hj].
  - left. exists "json". split; [reflexivity | left; reflexivity].
  - destruct (String.eqb_spec (Text.lower (Text.strip
     match args_get (args req) "format" with
     | Some v => if String.eqb v "" then "json" else v
     | None => "json"
     end)) "xml") as [-> | Hx].
    + left. exists "xml". split; [reflexivity | right; reflexivity].
    + right. reflexivity.
Qed.

Lemma unsupported_format_raises (req : request) :
  unsupported_format req ->
  _get_format req = Raise (BadRequest "format must be 'json' or 'xml'").
Proof.
  intros Hbad. destruct (get_format_cases req) as [[fmt [Hf _]] | Hr].
  - exfalso. exact (Hbad fmt Hf).
  - exact Hr.
Qed.

Lemma api_response_legal (req : request) (fmt : string) (p : value) (st : Z)
  (root : string) :
  _get_format req = Return fmt ->
  api_response req p st root = Return (encoded fmt p st root).
Proof.
  intros Hf. unfold api_response, encoded. rewrite Hf. simpl.
  destruct (String.eqb fmt "xml"); reflexivity.
Qed.

Lemma error_response_legal (req : request) (fmt message : string) (st : Z) :
  _get_format req = Return fmt ->
  error_response req message st None = Return (error_envelope fmt message st).
Proof.
  intros Hf. unfold error_response, error_envelope.
  apply api_response_legal. exact Hf.
Qed.

Lemma api_response_unsupported (req : request) (p : value) (st : Z) (root : string) :
  unsupported_format req ->
  api_response req p st root = Raise (BadRequest "format must be 'json' or 'xml'").
Proof.
  intros Hbad. unfold api_response.
  rewrite (unsupported_format_raises req Hbad). reflexivity.
Qed.

Lemma error_response_unsupported (req : request) (message : string) (st : Z) :
  unsupported_format req ->
  error_response req message st None
  = Raise (BadRequest "format must be 'json' or 'xml'").
Proof.
  intros Hbad. unfold error_response. apply api_response_unsupported. exact Hbad.
Qed.

Lemma handle_db_error_legal (req : request) (fmt : string) (e : exn) :
  _get_format req = Return fmt ->
  _handle_db_error req e = Return (storage_failure_answer fmt (str_exn e)).
Proof.
  intros Hf. unfold _handle_db_error, storage_failure_answer.
  destruct (Text.contains "Duplicate entry" (str_exn e));
    apply error_response_legal; exact Hf.
Qed.

Lemma handle_db_error_unsupported (req : request) (e : exn) :
  unsupported_format req ->
  _handle_db_error req e = Raise (BadRequest "format must be 'json' or 'xml'").
Proof.
  intros Hbad. unfold _handle_db_error.
  destruct (Text.contains "Duplicate entry" (str_exn e));
    apply error_response_unsupported; exact Hbad.
Qed.

Lemma encoded_status (fmt : string) (p : value) (st : Z) (root : string) :
  status (encoded fmt p st root) = st /\ payload_of (encoded fmt p st root) = p.
Proof.
  unfold encoded. destruct (String.eqb fmt "xml"); split; reflexivity.
Qed.

(** ** The auth gate *)

Lemma prefix_split (p s : string) :
  String.prefix p s = true -> exists rest, s = p ++ rest.
Proof.
  revert s. induction p as [|a p IH]; intros s H.
  - exists s. reflexivity.
  - destruct s as [|b s]; simpl in H; [discriminate|].
    destruct (ascii_dec a b) as [-> | _]; [|discriminate].
    destruct (IH s H) as [rest ->]. exists rest. reflexivity.
Qed.

Lemma substring_whole (s : string) : String.substring 0 (String.length s) s = s.
Proof.
  induction s as [|c s IH]; simpl; [reflexivity | rewrite IH; reflexivity].
Qed.

(** After the prefix, the first split at a space and the text from the
    eighth character on are the same thing. *)
Lemma bearer_remainder (h : string) :
  String.prefix "Bearer " h = true ->
  snd (Text.split_space_once h)
  = Some (String.substring 7 (String.length h - 7) h).
Proof.
  intros H. destruct (prefix_split _ _ H) as [rest ->].
  simpl. rewrite Nat.sub_0_r, substring_whole. reflexivity.
Qed.

(** The gate, told by the token the request presents. *)
Lemma require_jwt_gate (fn : view) (req : request) (db : DB) :
  require_jwt fn req db =
    match presented_token req with
    | None =>
        (error_response req "Missing or invalid Authorization header" 401 None, db)
    | Some token =>
        match jwt_decode token JWT_SECRET_KEY with
        | Decoded _ => fn req db
        | ExpiredSignatureError => (error_response req "Token expired" 401 None, db)
        | InvalidTokenError => (error_response req "Invalid token" 401 None, db)
        | DecodeOtherError text => (Raise (PyJWTError text), db)
        end
    end.
Proof.
  unfold require_jwt, presented_token, Text.startswith.
  destruct (authorization req) as [h|]; simpl.
  - destruct (String.prefix "Bearer " h) eqn:Hp; simpl; [|reflexivity].
    rewrite (bearer_remainder h Hp).
    destruct (jwt_decode _ _); reflexivity.
  - reflexivity.
Qed.

Lemma require_jwt_authorised (fn : view) (req : request) (db : DB) :
  authorised req -> require_jwt fn req db = fn req db.
Proof.
  intros (token & claims & Ht & Hd).
  rewrite require_jwt_gate, Ht, Hd. reflexivity.
Qed.

(** ** Dispatch *)

Lemma wsgi_app_answer (req : request) (db db' : DB) (resp : Response) :
  dispatch_request req db = (Return resp, db') ->
  wsgi_app req db = (Return resp, db').
Proof.
  intros H. unfold wsgi_app, full_dispatch_request, try_except.
  rewrite H. reflexivity.
Qed.

Lemma dispatch_protected (req : request) (db : DB) :
  login_required (url_rule req) = true ->
  dispatch_request req db = require_jwt (endpoint (url_rule req)) req db.
Proof.
  intros H. unfold dispatch_request, view_function. rewrite H. reflexivity.
Qed.

Lemma gate_dispatch (req : request) (db : DB) (fmt : string) :
  login_required (url_rule req) = true ->
  _get_format req = Return fmt ->
  dispatch_request req db =
    match presented_token req with
    | None =>
        (Return (error_envelope fmt "Missing or invalid Authorization header" 401),
         db)
    | Some token =>
        match jwt_decode token JWT_SECRET_KEY with
        | ExpiredSignatureError =>
            (Return (error_envelope fmt "Token expired" 401), db)
        | InvalidTokenError =>
            (Return (error_envelope fmt "Invalid token" 401), db)
        | Decoded _ => endpoint (url_rule req) req db
        | DecodeOtherError text => (Raise (PyJWTError text), db)
        end
    end.
Proof.
  intros Hp Hf. rewrite (dispatch_protected req db Hp), require_jwt_gate.
  destruct (presented_token req) as [token|].
  - destruct (jwt_decode token JWT_SECRET_KEY);
      rewrite ?(error_response_legal req fmt _ _ Hf); reflexivity.
  - rewrite (error_response_legal req fmt _ _ Hf). reflexivity.
Qed.

End EncoderFacts.

(** C3. On a protected route and with a legal format, the gate answers
    401 'Missing or invalid Authorization header' when the header does not
    start with 'Bearer ', 401 'Token expired' when the verifier finds the
    token expired, 401 'Invalid token' when it finds it invalid, and on
    success it runs the handler of the route on the same request and the
    same storage state: the claims of the token are dropped. When the
    header does not start with 'Bearer ' the verifier plays no part: the
    outcome is the same with any other verifier in its place. *)
Theorem auth_gate_contract {R : Runtime} (req : request) (db : DB) (fmt : string) :
  login_required (url_rule req) = true ->
  _get_format req = Return fmt ->
  dispatch_request req db =
    match presented_token req with
    | None =>
        (Return (error_envelope fmt "Missing or invalid Authorization header" 401),
         db)
    | Some token =>
        match jwt_decode token JWT_SECRET_KEY with
        | ExpiredSignatureError =>
            (Return (error_envelope fmt "Token expired" 401), db)
        | InvalidTokenError =>
            (Return (error_envelope fmt "Invalid token" 401), db)
        | Decoded _ => endpoint (url_rule req) req db
        | DecodeOtherError text => (Raise (PyJWTError text), db)
        end
    end
  /\ (presented_token req = None ->
      forall decode,
        dispatch_request (R := with_verifier decode) req db
        = dispatch_request req db).
Proof.
  intros Hp Hf. split.
  - apply gate_dispatch; assumption.
  - intros Hnone decode.
    rewrite (gate_dispatch req db fmt Hp Hf).
    rewrite (gate_dispatch (R := with_verifier decode) req db fmt Hp Hf).
    rewrite Hnone. reflexivity.
Qed.



(** No header, an expired token, a token from another issuer, a good
    token. *)
Lemma auth_gate_contract_witness :
  dispatch_request (R := Demo.runtime) Demo.unauthenticated Demo.db0
  = (Return (error_envelope "json" "Missing or invalid Authorization header" 401),
     Demo.db0)
  /\ dispatch_request (R := Demo.runtime)
       (mkrequest (ListOf Categories) [] (Some "Bearer old") None) Demo.db0
     = (Return (error_envelope "json" "Token expired" 401), Demo.db0)
  /\ dispatch_request (R := Demo.runtime)
       (mkrequest (ListOf Categories) [] (Some "Bearer forged") None) Demo.db0
     = (Return (error_envelope "json" "Invalid token" 401), Demo.db0)
  /\ dispatch_request (R := Demo.runtime)
       (mkrequest (ListOf Categories) [] (Some "Bearer good") None) Demo.db0
     = list_categories (R := Demo.runtime)
         (mkrequest (ListOf Categories) [] (Some "Bearer good") None) Demo.db0.
Proof.
  split; [|split; [|split]].
  - exact (proj1 (auth_gate_contract (R := Demo.runtime) Demo.unauthenticated
                    Demo.db0 "json" eq_refl eq_refl)).
  - exact (proj1 (auth_gate_contract (R := Demo.runtime)
                    (mkrequest (ListOf Categories) [] (Some "Bearer old") None)
                    Demo.db0 "json" eq_refl eq_refl)).
  - exact (proj1 (auth_gate_contract (R := Demo.runtime)
                    (mkrequest (ListOf Categories) [] (Some "Bearer forged") None)
                    Demo.db0 "json" eq_refl eq_refl)).
  - exact (proj1 (auth_gate_contract (R := Demo.runtime)
                    (mkrequest (ListOf Categories) [] (Some "Bearer good") None)
                    Demo.db0 "json" eq_refl eq_refl)).
Defined.

Section GateFacts.

Context {R : Runtime}.

(** C1, as the code has it. On a protected route, a request without a
    valid bearer token (no header, a header that does not start with
    'Bearer ', an expired or an invalid token) whose format parameter is
    legal is answered 401, in that format, whatever its body and its other
    query parameters; the storage is not touched. *)
Theorem unauthenticated_gets_401 (req : request) (db : DB) (fmt : string) :
  login_required (url_rule req) = true ->
  no_valid_bearer req ->
  _get_format req = Return fmt ->
  wsgi_app req db = (Return (error_envelope fmt (gate_message req) 401), db)
  /\ answered_with (wsgi_app req db) 401.
Proof.
  intros Hp Hn Hf.
  assert (H : wsgi_app req db
              = (Return (error_envelope fmt (gate_message req) 401), db)).
  { apply wsgi_app_answer.
    rewrite (dispatch_protected req db Hp), require_jwt_gate.
    unfold no_valid_bearer in Hn. unfold gate_message.
    destruct (presented_token req) as [token|].
    - destruct Hn as [-> | ->];
        rewrite (error_response_legal req fmt _ _ Hf); reflexivity.
    - rewrite (error_response_legal req fmt _ _ Hf). reflexivity. }
  split; [exact H|].
  rewrite H. eexists. split; [reflexivity|].
  apply encoded_status.
Qed.

(** ** Requests with an unsupported format *)

Lemma fails_raise {A : Type} (e : exn) : fails (A := A) (raise e).
Proof. intros db. exists e, db. reflexivity. Qed.

Lemma fails_lift {A : Type} (e : exn) : fails (A := A) (lift (Raise e)).
Proof. intros db. exists e, db. reflexivity. Qed.

Lemma fails_bind_l {A B : Type} (m : M DB A) (k : A -> M DB B) :
  fails m -> fails (bind m k).
Proof.
  intros Hm db. destruct (Hm db) as (e & db' & H).
  exists e, db'. unfold bind. rewrite H. reflexivity.
Qed.

Lemma fails_bind_r {A B : Type} (m : M DB A) (k : A -> M DB B) :
  (forall a, fails (k a)) -> fails (bind m k).
Proof.
  intros Hk db. unfold bind.
  destruct (m db) as [[a | e] db'].
  - apply Hk.
  - exists e, db'. reflexivity.
Qed.

Lemma fails_db_guard (req : request) (block : M DB Response) :
  unsupported_format req -> fails block -> fails (db_guard req block).
Proof.
  intros Hbad Hb db. destruct (Hb db) as (e & db' & H).
  unfold db_guard, try_except. rewrite H.
  unfold lift. rewrite (handle_db_error_unsupported req e Hbad).
  eexists. eexists. reflexivity.
Qed.

Lemma fails_api_response (req : request) (p : value) (st : Z) (root : string) :
  unsupported_format req -> fails (lift (S := DB) (api_response req p st root)).
Proof.
  intros Hbad. rewrite (api_response_unsupported req p st root Hbad).
  apply fails_lift.
Qed.

Lemma fails_error_response (req : request) (message : string) (st : Z) :
  unsupported_format req ->
  fails (lift (S := DB) (error_response req message st None)).
Proof.
  intros Hbad. rewrite (error_response_unsupported req message st Hbad).
  apply fails_lift.
Qed.

Lemma fails_require_jwt (fn : view) (req : request) :
  unsupported_format req -> fails (fn req) -> fails (require_jwt fn req).
Proof.
  intros Hbad Hfn db. rewrite require_jwt_gate.
  destruct (presented_token req) as [token|].
  - destruct (jwt_decode token JWT_SECRET_KEY).
    + apply Hfn.
    + rewrite (error_response_unsupported req _ _ Hbad). eauto.
    + rewrite (error_response_unsupported req _ _ Hbad). eauto.
    + eauto.
  - rewrite (error_response_unsupported req _ _ Hbad). eauto.
Qed.

End GateFacts.

(** One step of the proof that a view cannot answer: a view ends in a call
    of the encoder, which raises. *)
Ltac fails_step Hbad :=
  match goal with
  | |- fails (bind (lift (api_response _ _ _ _)) _) =>
      apply fails_bind_l; apply fails_api_response; exact Hbad
  | |- fails (bind _ _) => apply fails_bind_r; intros
  | |- fails (lift (api_response _ _ _ _)) => apply fails_api_response; exact Hbad
  | |- fails (lift (error_response _ _ _ None)) =>
      apply fails_error_response; exact Hbad
  | |- fails (db_guard _ _) => apply fails_db_guard; [exact Hbad|]
  | |- fails (raise _) => apply fails_raise
  | |- fails (if ?c then _ else _) => destruct c
  | |- fails (match ?x with _ => _ end) => destruct x
  end.

Section UnsupportedFormat.

Context {R : Runtime}.

Lemma endpoint_fails (req : request) (rt : route) :
  unsupported_format req -> fails (endpoint rt req).
Proof.
  intros Hbad.
  destruct rt as [ | | r | r | r id | r id | r id | | | ]; try destruct r;
    cbv beta iota zeta delta
      [endpoint health login
       list_categories create_category get_category update_category delete_category
       list_regions create_region get_region update_region delete_region
       list_customers create_customer get_customer update_customer delete_customer
       list_products create_product get_product update_product delete_product
       list_sales create_sale get_sale update_sale delete_sale search_sales];
    repeat fails_step Hbad.
Qed.

Lemma view_fails (req : request) (rt : route) :
  unsupported_format req -> fails (view_function rt req).
Proof.
  intros Hbad. unfold view_function.
  destruct (login_required rt).
  - apply fails_require_jwt; [exact Hbad | apply endpoint_fails; exact Hbad].
  - apply endpoint_fails; exact Hbad.
Qed.

(** C2, what the code does with an unsupported format. Whatever the route
    (the routes that answer an error included) and whatever else the
    request holds, the request gets no response at all, and in particular
    no 400: the bad-input exception raised by the encoder reaches the
    handler registered for it, which calls the encoder again and raises
    the same exception, and so does the catch-all handler; the exception
    leaves the application. *)
Theorem unsupported_format_not_answered (req : request) (db : DB) :
  unsupported_format req ->
  exists db',
    wsgi_app req db = (Raise (BadRequest "format must be 'json' or 'xml'"), db').
Proof.
  intros Hbad.
  destruct (view_fails req (url_rule req) Hbad db) as (e & db' & Hv).
  exists db'.
  unfold wsgi_app, full_dispatch_request, try_except, dispatch_request.
  rewrite Hv.
  assert (Hh : handle_user_exception req e db'
               = (Raise (BadRequest "format must be 'json' or 'xml'"), db')).
  { unfold handle_user_exception, _bad_request, _not_found, _unhandled, lift.
    destruct e; rewrite (error_response_unsupported req _ _ Hbad); reflexivity. }
  rewrite Hh.
  unfold handle_exception, _unhandled, lift, raise.
  destruct propagate_exceptions; [reflexivity|].
  rewrite (error_response_unsupported req _ _ Hbad). reflexivity.
Qed.

End UnsupportedFormat.

(** GET /health?format=yaml gets no response. *)
Lemma unsupported_format_not_answered_witness :
  exists db',
    wsgi_app (R := Demo.runtime) Demo.health_yaml Demo.db0
    = (Raise (BadRequest "format must be 'json' or 'xml'"), db').
Proof.
  apply (unsupported_format_not_answered (R := Demo.runtime)).
  intros fmt H. vm_compute in H. discriminate H.
Defined.

(** The format is looked at when the response is encoded, after the work
    of the handler: POST /api/categories?format=yaml has stored and
    committed the new row when the exception is raised. *)
Lemma unsupported_format_after_the_write :
  wsgi_app (R := Demo.runtime) Demo.create_yaml Demo.db0
  = (Raise (BadRequest "format must be 'json' or 'xml'"),
     [(1, "Kitchen"); (2, "Garden"); (3, "Tools")]).
Proof. reflexivity. Qed.

(** GET /api/categories without a header is answered 401. *)
Lemma unauthenticated_gets_401_witness :
  answered_with
    (wsgi_app (R := Demo.runtime) Demo.unauthenticated Demo.db0) 401.
Proof.
  apply (unauthenticated_gets_401 (R := Demo.runtime)
           Demo.unauthenticated Demo.db0 "json");
    [reflexivity | exact I | reflexivity].
Defined.

(** C1 does not hold as it is worded: GET /api/categories?format=yaml
    without an Authorization header is on a protected route and carries no
    valid bearer token, and it is not answered 401. *)
Lemma unauthenticated_unsupported_format_counterexample :
  login_required (url_rule Demo.unauthenticated_yaml) = true
  /\ no_valid_bearer (R := Demo.runtime) Demo.unauthenticated_yaml
  /\ ~ answered_with
         (wsgi_app (R := Demo.runtime) Demo.unauthenticated_yaml Demo.db0) 401.
Proof.
  split; [reflexivity | split; [exact I|]].
  intros [resp [H _]]. vm_compute in H. discriminate H.
Qed.

(** ** Storage failures *)

Section StorageFailures.

Context {R : Runtime}.

Lemma bind_lift_return {A B : Type} (a : A) (k : A -> M DB B) :
  bind (lift (Return a)) k = k a.
Proof. reflexivity. Qed.

Lemma text_field_sound (b : value) (k s : string) :
  text_field b k = Some s ->
  exists v, body_get b k = Return v /\ or_empty_strip v = Return s
            /\ String.eqb s "" = false.
Proof.
  unfold text_field. destruct (body_get b k) as [v|] eqn:Hg; [|discriminate].
  destruct (or_empty_strip v) as [t|] eqn:Hs; [|discriminate].
  destruct (String.eqb t "") eqn:He; [discriminate|].
  intros H. injection H as <-. exists v. auto.
Qed.

Lemma id_field_sound (b : value) (k : string) (n : Z) :
  id_field b k = Some n ->
  exists v, body_get b k = Return v /\ _parse_int v k (Some 1) = Return n.
Proof.
  unfold id_field. destruct (body_get b k) as [v|] eqn:Hg; [|discriminate].
  destruct (_parse_int v k (Some 1)) as [m|] eqn:Hp; [|discriminate].
  intros H. injection H as <-. exists v. auto.
Qed.

Lemma date_field_sound (b : value) (k : string) (d : Datetime.date) :
  date_field b k = Some d ->
  exists v, body_get b k = Return v /\ _parse_date v k = Return d
            /\ is_None v = false.
Proof.
  unfold date_field. destruct (body_get b k) as [v|] eqn:Hg; [|discriminate].
  destruct (_parse_date v k) as [m|] eqn:Hp; [|discriminate].
  intros H. injection H as <-. exists v. repeat split; auto.
  destruct v; try reflexivity. discriminate Hp.
Qed.

Lemma email_field_sound (b : value) (k s : string) :
  email_field b k = Some s ->
  exists v, body_get b k = Return v /\ _validate_email v = Return s
            /\ is_None v = false.
Proof.
  unfold email_field. destruct (body_get b k) as [v|] eqn:Hg; [|discriminate].
  destruct (_validate_email v) as [m|] eqn:Hp; [|discriminate].
  intros H. injection H as <-. exists v. repeat split; auto.
  destruct v; try reflexivity. discriminate Hp.
Qed.

Lemma number_field_sound (b : value) (k : string) (x : pyfloat) :
  number_field b k = Some x ->
  exists v, body_get b k = Return v /\ _parse_decimal v k = Return x.
Proof.
  unfold number_field. destruct (body_get b k) as [v|] eqn:Hg; [|discriminate].
  destruct (_parse_decimal v k) as [m|] eqn:Hp; [|discriminate].
  intros H. injection H as <-. exists v. auto.
Qed.

(** The guarded block of a write: when connecting, the statement or the
    commit fails, the answer is the one of the error translator. *)
Lemma guard_storage_failure (req : request) (fmt sql msg : string)
  (params : list value) (db db' : DB) (k : cursor -> M DB Response) :
  _get_format req = Return fmt ->
  storage_txn sql params db = (Raise (StorageError msg), db') ->
  db_guard req
    (bind _db (fun _ => bind (execute sql params)
                          (fun cur => bind commit (fun _ => k cur)))) db
  = (Return (storage_failure_answer fmt msg), db').
Proof.
  intros Hf Htxn.
  unfold storage_txn, db_guard, try_except, bind, _db, execute, commit,
    driver_call, ret, lift in *.
  destruct (db_connect db) as [[[]|t1] d1].
  - destruct (db_execute sql params d1) as [[cur|t2] d2].
    + destruct (db_commit d2) as [[[]|t3] d3]; [discriminate|].
      injection Htxn as -> ->.
      rewrite (handle_db_error_legal req fmt _ Hf). reflexivity.
    + injection Htxn as -> ->.
      rewrite (handle_db_error_legal req fmt _ Hf). reflexivity.
  - injection Htxn as -> ->.
    rewrite (handle_db_error_legal req fmt _ Hf). reflexivity.
Qed.

End StorageFailures.

(** Takes the next validated member out of the statement of a write. *)
Ltac open_field H :=
  match type of H with
  | match text_field ?b ?k with _ => _ end = Some _ =>
      let E := fresh "E" in
      destruct (text_field b k) eqn:E; [|discriminate H];
      apply text_field_sound in E as (? & ? & ? & ?)
  | match id_field ?b ?k with _ => _ end = Some _ =>
      let E := fresh "E" in
      destruct (id_field b k) eqn:E; [|discriminate H];
      apply id_field_sound in E as (? & ? & ?)
  | match date_field ?b ?k with _ => _ end = Some _ =>
      let E := fresh "E" in
      destruct (date_field b k) eqn:E; [|discriminate H];
      apply date_field_sound in E as (? & ? & ? & ?)
  | match email_field ?b ?k with _ => _ end = Some _ =>
      let E := fresh "E" in
      destruct (email_field b k) eqn:E; [|discriminate H];
      apply email_field_sound in E as (? & ? & ? & ?)
  | match number_field ?b ?k with _ => _ end = Some _ =>
      let E := fresh "E" in
      destruct (number_field b k) eqn:E; [|discriminate H];
      apply number_field_sound in E as (? & ? & ?)
  end.

(** Runs the validation part of a handler with the validated members. *)
Ltac run_validation :=
  repeat match goal with
         | |- context [bind (lift (Return _)) _] => rewrite bind_lift_return
         | H : body_get _ _ = Return _ |- _ => rewrite H
         | H : or_empty_strip _ = Return _ |- _ => rewrite H
         | H : _parse_int _ _ _ = Return _ |- _ => rewrite H
         | H : _parse_date _ _ = Return _ |- _ => rewrite H
         | H : _parse_decimal _ _ = Return _ |- _ => rewrite H
         | H : _validate_email _ = Return _ |- _ => rewrite H
         | H : String.eqb _ "" = false |- _ => rewrite H
         | H : is_None _ = false |- _ => rewrite H
         end.

Section StorageFailureTheorem.

Context {R : Runtime}.

(** C4. On every write route (create, update and delete of every
    resource), when the storage work of the handler (connecting, the
    statement, the commit) fails with an exception whose text is [msg], the
    request is answered 409 'Conflict (duplicate key)' if [msg] contains
    'Duplicate entry', and 500 'Database error' otherwise. The request is
    authorised, its format is legal and its body validates, so that
    [write_statement] gives the statement the handler sends. *)
Theorem storage_failure_translated
  (req : request) (db db' : DB) (fmt sql msg : string) (params : list value) :
  authorised req ->
  _get_format req = Return fmt ->
  write_statement req = Some (sql, params) ->
  storage_txn sql params db = (Raise (StorageError msg), db') ->
  wsgi_app req db
  = (Return (if Text.contains "Duplicate entry" msg
             then error_envelope fmt "Conflict (duplicate key)" 409
             else error_envelope fmt "Database error" 500), db').
Proof.
  intros Hauth Hf Hw Htxn.
  change (wsgi_app req db = (Return (storage_failure_answer fmt msg), db')).
  apply wsgi_app_answer.
  unfold write_statement in Hw.
  unfold dispatch_request, view_function.
  destruct (url_rule req) as [ | | r | r | r id | r id | r id | | | ];
    try discriminate Hw; destruct r; try discriminate Hw;
    cbv beta iota delta [login_required];
    rewrite (require_jwt_authorised _ req db Hauth);
    cbv beta iota zeta delta
      [endpoint create_category update_category delete_category
       create_region update_region delete_region
       create_customer update_customer delete_customer
       create_product update_product delete_product
       create_sale update_sale delete_sale];
    cbv beta iota delta [obind] in Hw;
    repeat open_field Hw;
    injection Hw as <- <-;
    run_validation;
    cbv beta iota delta [orb];
    run_validation;
    apply (guard_storage_failure req fmt _ msg _ db db' _ Hf Htxn).
Qed.

End StorageFailureTheorem.

(** A duplicate name on POST /api/categories is answered 409, and a delete
    while the database server is away is answered 500. *)
Lemma storage_failure_translated_witness :
  wsgi_app (R := Demo.runtime) Demo.create_duplicate Demo.db0
  = (Return (error_envelope "json" "Conflict (duplicate key)" 409), Demo.db0)
  /\ wsgi_app (R := Demo.offline) Demo.delete_two Demo.db0
     = (Return (error_envelope "xml" "Database error" 500), Demo.db0).
Proof.
  split.
  - exact (storage_failure_translated (R := Demo.runtime)
             Demo.create_duplicate Demo.db0 Demo.db0 "json"
             "INSERT INTO categories (category_name) VALUES (%s)"
             "1062 Duplicate entry 'Kitchen' for key 'categories.category_name'"
             [VStr "Kitchen"]
             (ex_intro _ "good"
                (ex_intro _ (VDict [("sub", VStr "admin")])
                   (conj eq_refl eq_refl)))
             eq_refl eq_refl eq_refl).
  - exact (storage_failure_translated (R := Demo.offline)
             Demo.delete_two Demo.db0 Demo.db0 "xml"
             "DELETE FROM categories WHERE category_id=%s"
             "2006 MySQL server has gone away"
             [VInt 2]
             (ex_intro _ "good"
                (ex_intro _ (VDict [("sub", VStr "admin")])
                   (conj eq_refl eq_refl)))
             eq_refl eq_refl eq_refl).
Defined.

(** ** Deletes *)

Section Deletes.

Context {R : Runtime}.

(** One run of a delete route when the storage does its work. *)
Lemma delete_run (r : resource) (id : Z) (req : request) (fmt : string)
  (db db1 db2 db3 : DB) (cur : cursor) :
  url_rule req = DeleteOf r id ->
  authorised req ->
  _get_format req = Return fmt ->
  db_connect db = (Done tt, db1) ->
  db_execute (delete_sql r) [VInt id] db1 = (Done cur, db2) ->
  db_commit db2 = (Done tt, db3) ->
  wsgi_app req db
  = (Return (if rowcount cur =? 0
             then error_envelope fmt (not_found_message r) 404
             else encoded fmt (VDict [("deleted", VBool true);
                                      (pk_column r, VInt id)]) 200 "response"),
     db3).
Proof.
  intros Hr Hauth Hf Hc He Hm.
  apply wsgi_app_answer.
  unfold dispatch_request, view_function. rewrite Hr.
  cbv beta iota delta [login_required].
  rewrite (require_jwt_authorised _ req db Hauth).
  destruct r; cbn [delete_sql table_name pk_column append] in He;
    cbv beta iota zeta delta
      [endpoint delete_category delete_region delete_customer delete_product
       delete_sale db_guard try_except bind _db execute commit driver_call lift];
    rewrite Hc, He, Hm;
    cbn [not_found_message pk_column];
    destruct (rowcount cur =? 0);
    rewrite ?(error_response_legal req fmt _ _ Hf),
            ?(api_response_legal req fmt _ _ _ Hf);
    reflexivity.
Qed.

(** C8. For every resource and every identifier: when no row has the
    identifier, the delete is answered 404, however many times it is sent;
    when a row has it, the delete is answered 200 with
    {deleted: true, <key>: id} and leaves no such row, so that the same
    delete sent again is answered 404. The request is authorised, its
    format is legal, and the storage engine runs deletes by key. *)
Theorem delete_contract (r : resource) (id : Z) (req : request) (fmt : string)
  (present : DB -> bool) (db : DB) :
  url_rule req = DeleteOf r id ->
  authorised req ->
  _get_format req = Return fmt ->
  deletes_by_key present (delete_sql r) id ->
  (present db = false ->
   forall n,
     Forall (fun out => out = Return (error_envelope fmt (not_found_message r) 404))
       (replay n req db))
  /\ (present db = true ->
      exists db1 db2,
        wsgi_app req db
        = (Return (encoded fmt (VDict [("deleted", VBool true);
                                       (pk_column r, VInt id)]) 200 "response"),
           db1)
        /\ present db1 = false
        /\ wsgi_app req db1
           = (Return (error_envelope fmt (not_found_message r) 404), db2)).
Proof.
  intros Hr Hauth Hf Hlaw.
  assert (Habsent : forall d, present d = false ->
            exists d', wsgi_app req d
                       = (Return (error_envelope fmt (not_found_message r) 404), d')
                       /\ present d' = false).
  { intros d Hd. destruct (Hlaw d) as (d1 & cur & d2 & d3 & Hc & He & Hm & Hrc & Hp).
    exists d3. split; [|exact Hp].
    rewrite (delete_run r id req fmt d d1 d2 d3 cur Hr Hauth Hf Hc He Hm).
    apply Hrc in Hd. rewrite Hd. reflexivity. }
  split.
  - intros Hd n. revert db Hd.
    induction n as [|n IH]; intros db Hd; simpl.
    + constructor.
    + destruct (Habsent db Hd) as (d' & Hrun & Hd').
      rewrite Hrun. constructor; [reflexivity | apply IH; exact Hd'].
  - intros Hd.
    destruct (Hlaw db) as (d1 & cur & d2 & d3 & Hc & He & Hm & Hrc & Hp).
    destruct (Habsent d3 Hp) as (d' & Hrun & _).
    exists d3, d'. repeat split; [|exact Hp | exact Hrun].
    rewrite (delete_run r id req fmt db d1 d2 d3 cur Hr Hauth Hf Hc He Hm).
    destruct (Z.eqb_spec (rowcount cur) 0) as [Hz | Hnz]; [|reflexivity].
    apply Hrc in Hz. congruence.
Qed.

End Deletes.

Lemma demo_filter_length (id : Z) (db : Demo.store) :
  Nat.le (List.length (filter (fun row : Z * string => negb (fst row =? id)) db))
    (List.length db).
Proof.
  induction db as [|row db IH]; simpl; [constructor|].
  destruct (fst row =? id); simpl; unfold Nat.le in *; lia.
Qed.

Lemma demo_rowcount (id : Z) (db : Demo.store) :
  Z.of_nat
    (List.length db
     - List.length (filter (fun row : Z * string => negb (fst row =? id)) db))
  = 0
  <-> Demo.has_id id db = false.
Proof.
  rewrite <- Nat2Z.inj_0, Nat2Z.inj_iff.
  induction db as [|row db IH].
  - split; reflexivity.
  - pose proof (demo_filter_length id db) as Hle. unfold Nat.le in Hle.
    cbn [filter List.length Demo.has_id existsb].
    destruct (fst row =? id); cbn [negb List.length orb].
    + split; [lia | discriminate].
    + fold (Demo.has_id id db). rewrite <- IH. lia.
Qed.

Lemma demo_deleted (id : Z) (db : Demo.store) :
  Demo.has_id id (filter (fun row : Z * string => negb (fst row =? id)) db) = false.
Proof.
  induction db as [|row db IH]; simpl; [reflexivity|].
  destruct (fst row =? id) eqn:He; simpl; [exact IH|].
  rewrite He. exact IH.
Qed.

(** The demo engine runs deletes by key on the categories table. *)
Lemma demo_deletes_by_key (id : Z) :
  deletes_by_key (R := Demo.runtime) (Demo.has_id id) (delete_sql Categories) id.
Proof.
  intros db.
  exists db.
  exists (mkcursor
            (Z.of_nat
               (List.length db
                - List.length
                    (filter (fun row : Z * string => negb (fst row =? id)) db)))
            0 [] (DictRows [])).
  exists (filter (fun row : Z * string => negb (fst row =? id)) db).
  exists (filter (fun row : Z * string => negb (fst row =? id)) db).
  split; [reflexivity|]. split; [reflexivity|]. split; [reflexivity|].
  split; [apply demo_rowcount | apply demo_deleted].
Qed.

(** DELETE /api/categories/2 succeeds once, then is answered 404; DELETE
    /api/categories/9, a row that is not there, is answered 404 three times
    in a row. *)
Lemma delete_contract_witness :
  (exists db1 db2,
     wsgi_app (R := Demo.runtime) Demo.delete_two Demo.db0
     = (Return (encoded "xml" (VDict [("deleted", VBool true);
                                      ("category_id", VInt 2)]) 200 "response"),
        db1)
     /\ Demo.has_id 2 db1 = false
     /\ wsgi_app (R := Demo.runtime) Demo.delete_two db1
        = (Return (error_envelope "xml" "Category not found" 404), db2))
  /\ Forall (fun out => out = Return (error_envelope "json" "Category not found" 404))
       (replay (R := Demo.runtime) 3
          (mkrequest (DeleteOf Categories 9) [] Demo.bearer_good None) Demo.db0).
Proof.
  split.
  - apply (delete_contract (R := Demo.runtime) Categories 2 Demo.delete_two "xml"
             (Demo.has_id 2) Demo.db0);
      [ reflexivity
      | exists "good", (VDict [("sub", VStr "admin")]); split; reflexivity
      | reflexivity
      | apply demo_deletes_by_key
      | reflexivity ].
  - apply (delete_contract (R := Demo.runtime) Categories 9
             (mkrequest (DeleteOf Categories 9) [] Demo.bearer_good None) "json"
             (Demo.has_id 9) Demo.db0);
      [ reflexivity
      | exists "good", (VDict [("sub", VStr "admin")]); split; reflexivity
      | reflexivity
      | apply demo_deletes_by_key
      | reflexivity ].
Defined.

(** ** Search *)

Section Search.

Context {R : Runtime}.

Lemma dict_get_set_other (r : list (string * value)) (k k' : string) (v : value) :
  String.eqb k k' = false ->
  dict_get (dict_set r k v) k' = dict_get r k'.
Proof.
  intros Hk. induction r as [|[k0 v0] r IH]; simpl.
  - rewrite Hk. reflexivity.
  - destruct (String.eqb k0 k) eqn:H0; simpl.
    + apply String.eqb_eq in H0. subst k0. rewrite Hk. reflexivity.
    + destruct (String.eqb k0 k'); [reflexivity | exact IH].
Qed.

Lemma stringify_keeps (k k' : string) (r : list (string * value)) :
  String.eqb k k' = false ->
  dict_get (stringify_date k r) k' = dict_get r k'.
Proof.
  intros Hk. unfold stringify_date.
  destruct (dict_get r k) as [[]|]; try reflexivity;
    apply dict_get_set_other; exact Hk.
Qed.



End Search.

Section SearchPlan.

Context {R : Runtime}.

Lemma parse_date_supplied (s field : string) :
  String.eqb s "" = false ->
  _parse_date (VStr s) field =
    match Datetime.fromisoformat s with
    | Some d => Return d
    | None => Raise (BadRequest (field ++ " must be a date string (YYYY-MM-DD)"))
    end.
Proof.
  intros H. apply parse_date_text. apply String.eqb_neq. exact H.
Qed.

Lemma parse_int_text (s field : string) :
  _parse_int (VStr s) field (Some 1) =
    match Builtins.int_str s with
    | Converted n =>
        if n <? 1 then Raise (BadRequest (field ++ " must be >= 1")) else Return n
    | TypeErr | ValueErr => Raise (BadRequest (field ++ " must be an integer"))
    | OverflowErr => Raise (OverflowError "cannot convert float infinity to integer")
    end.
Proof. reflexivity. Qed.

Lemma int_str_no_overflow (s : string) : Builtins.int_str s <> OverflowErr.
Proof.
  unfold Builtins.int_str.
  destruct (Builtins.int_rstrip (Builtins.int_lstrip s)) as [|c r].
  - simpl. discriminate.
  - destruct (match String c r with
              | String "+" r0 => (false, r0)
              | String "-" r0 => (true, r0)
              | _ => (false, String c r)
              end) as [negative body0].
    destruct (Builtins.int_digits body0 true 0 0) as [[n digits]|];
      [destruct (Builtins.int_max_str_digits <? digits)|]; discriminate.
Qed.

(** What the continuation [K] of the builder must do with the filters
    that remain: append their conjuncts and parameters, or raise a
    bad-input error when a value does not validate. *)
Lemma like_step (req : request) (f : search_filter) (rest : list search_filter)
  (K : list string * list value -> result (list string * list value)) :
  (forall s, filter_parameter f s = Some (VStr ("%" ++ s ++ "%"))) ->
  (forall acc,
     match plan req rest with
     | Some l => K acc = Return ((fst acc ++ map fst l)%list,
                                 (snd acc ++ map snd l)%list)
     | None => exists description, K acc = Raise (BadRequest description)
     end) ->
  forall acc,
    match plan req (f :: rest) with
    | Some l =>
        K (add_like (filter_condition f) (args_get (args req) (filter_arg f)) acc)
        = Return ((fst acc ++ map fst l)%list, (snd acc ++ map snd l)%list)
    | None =>
        exists description,
          K (add_like (filter_condition f) (args_get (args req) (filter_arg f)) acc)
          = Raise (BadRequest description)
    end.
Proof.
  intros Hf HK acc. cbn [plan]. unfold sent, add_like, supplied.
  destruct (args_get (args req) (filter_arg f)) as [s|]; [|apply HK].
  destruct (String.eqb s ""); [apply HK|].
  rewrite Hf.
  specialize (HK ((fst acc ++ [filter_condition f])%list,
                  (snd acc ++ [VStr ("%" ++ s ++ "%")])%list)).
  destruct (plan req rest) as [l|]; [|exact HK].
  rewrite HK. cbn [fst snd map]. rewrite <- !app_assoc. reflexivity.
Qed.

Lemma checked_step (req : request) (f : search_filter) (rest : list search_filter)
  (parse : string -> result value)
  (K : list string * list value -> result (list string * list value)) :
  (forall s, String.eqb s "" = false ->
     match filter_parameter f s with
     | Some p => parse s = Return p
     | None => exists description, parse s = Raise (BadRequest description)
     end) ->
  (forall acc,
     match plan req rest with
     | Some l => K acc = Return ((fst acc ++ map fst l)%list,
                                 (snd acc ++ map snd l)%list)
     | None => exists description, K acc = Raise (BadRequest description)
     end) ->
  forall acc,
    match plan req (f :: rest) with
    | Some l =>
        rbind (add_checked (filter_condition f)
                 (args_get (args req) (filter_arg f)) parse acc) K
        = Return ((fst acc ++ map fst l)%list, (snd acc ++ map snd l)%list)
    | None =>
        exists description,
          rbind (add_checked (filter_condition f)
                   (args_get (args req) (filter_arg f)) parse acc) K
          = Raise (BadRequest description)
    end.
Proof.
  intros Hp HK acc. cbn [plan]. unfold sent, add_checked, supplied.
  destruct (args_get (args req) (filter_arg f)) as [s|]; [|apply HK].
  destruct (String.eqb s "") eqn:Es; [apply HK|].
  specialize (Hp s Es).
  destruct (filter_parameter f s) as [p|].
  - rewrite Hp. cbn [rbind].
    specialize (HK ((fst acc ++ [filter_condition f])%list,
                    (snd acc ++ [p])%list)).
    destruct (plan req rest) as [l|]; [|exact HK].
    rewrite HK. cbn [fst snd map]. rewrite <- !app_assoc. reflexivity.
  - destruct Hp as [description Hp]. rewrite Hp. cbn [rbind].
    exists description. reflexivity.
Qed.

Lemma customer_id_parameter (s : string) :
  String.eqb s "" = false ->
  match filter_parameter ByCustomerId s with
  | Some p =>
      rbind (_parse_int (VStr s) "customer_id" (Some 1)) (fun n => Return (VInt n))
      = Return p
  | None =>
      exists description,
        rbind (_parse_int (VStr s) "customer_id" (Some 1)) (fun n => Return (VInt n))
        = Raise (BadRequest description)
  end.
Proof.
  intros _. rewrite parse_int_text. cbn [filter_parameter].
  pose proof (int_str_no_overflow s) as Ho.
  destruct (Builtins.int_str s) as [n| | |].
  - destruct (n <? 1); [eexists|]; reflexivity.
  - eexists; reflexivity.
  - eexists; reflexivity.
  - congruence.
Qed.

Lemma date_parameter (f : search_filter) (field s : string) :
  f = ByDateFrom \/ f = ByDateTo ->
  String.eqb s "" = false ->
  match filter_parameter f s with
  | Some p =>
      rbind (_parse_date (VStr s) field) (fun d => Return (VDate d)) = Return p
  | None =>
      exists description,
        rbind (_parse_date (VStr s) field) (fun d => Return (VDate d))
        = Raise (BadRequest description)
  end.
Proof.
  intros Hf Es. rewrite (parse_date_supplied s field Es).
  destruct Hf as [-> | ->]; cbn [filter_parameter];
    (destruct (Datetime.fromisoformat s); [|eexists]; reflexivity).
Qed.

(** The condition and parameter lists the handler builds are the plan: one
    conjunct and one parameter for each filter that was sent, in the order
    of the filters; a value that does not validate is a bad-input error. *)
Lemma search_conditions_plan (req : request) :
  match search_plan req with
  | Some l => search_conditions req = Return (map fst l, map snd l)
  | None => exists description, search_conditions req = Raise (BadRequest description)
  end.
Proof.
  unfold search_conditions, search_plan, all_filters. cbv zeta.
  apply (like_step req ByProductName
           [ByCategoryName; ByRegionName; ByCustomerId; ByDateFrom; ByDateTo]
           (fun a => rbind (add_checked _ _ _
                              (add_like _ _ (add_like _ _ a))) _));
    [reflexivity|].
  apply (like_step req ByCategoryName
           [ByRegionName; ByCustomerId; ByDateFrom; ByDateTo]
           (fun a => rbind (add_checked _ _ _ (add_like _ _ a)) _));
    [reflexivity|].
  apply (like_step req ByRegionName [ByCustomerId; ByDateFrom; ByDateTo]
           (fun a => rbind (add_checked _ _ _ a) _));
    [reflexivity|].
  apply (checked_step req ByCustomerId [ByDateFrom; ByDateTo]);
    [apply customer_id_parameter|].
  apply (checked_step req ByDateFrom [ByDateTo]);
    [intros s Es; exact (date_parameter ByDateFrom "date_from" s (or_introl eq_refl) Es)|].
  apply (checked_step req ByDateTo []);
    [intros s Es; exact (date_parameter ByDateTo "date_to" s (or_intror eq_refl) Es)|].
  intros [c p]. cbn [plan map fst snd]. rewrite !app_nil_r. reflexivity.
Qed.

End SearchPlan.








(** *** The wildcards of LIKE *)






Section SearchSelection.

Context {R : Runtime}.







End SearchSelection.

Section SearchTheorem.

Context {R : Runtime}.



End SearchTheorem.

(** ** The search on the demo engine *)





(** C7 does not hold as it is worded: the value of a name filter is put
    between percent signs as it is, so that its own percent signs and
    underscores are read as wildcards. A search for the product name '_'
    returns the kettle and the teapot, neither of which has an underscore
    in its name. *)
Lemma search_counterexample :
  ~ (forall req rows s row,
       url_rule req = SearchSales ->
       sent req ByProductName = Some s ->
       wsgi_app (R := SearchDemo.runtime) req tt
       = (Return (encoded "json"
                    (VDict [("items", VList (map VDict (map search_row rows)));
                            ("count", VInt (Z.of_nat (List.length rows)))])
                    200 "response"), tt) ->
       In row rows ->
       exists name,
         cell row "product_name" = VStr name
         /\ contains_under same_letter s name = true)
  /\ wsgi_app (R := SearchDemo.runtime) SearchDemo.search_underscore tt
     = (Return (encoded "json"
                  (VDict [("items",
                           VList (map VDict (map search_row Demo.sales_denorm)));
                          ("count", VInt 2)]) 200 "response"), tt)
  /\ contains_under same_letter "_" "Kettle" = false
  /\ contains_under same_letter "_" "Teapot" = false.
Proof.
  split; [|repeat split; reflexivity].
  intros H.
  destruct (H SearchDemo.search_underscore Demo.sales_denorm "_"
              (hd [] Demo.sales_denorm) eq_refl eq_refl eq_refl
              (or_introl eq_refl)) as (name & Hname & Hin).
  injection Hname as <-. discriminate Hin.
Qed.

(** ** Further facts about the claims above *)

(** With a legal format the body is JSON when the parameter is absent or
    json, and XML when it is xml; the error envelope of the same request is
    encoded by the same call, hence in the same format. *)
Lemma format_selects_encoder (req : request) (p : value) (st : Z) (root : string) :
  (args_get (args req) "format" = None \/ args_get (args req) "format" = Some "json" ->
   api_response req p st root
   = Return (mkResponse st [("Content-Type", "application/json")] (Jsonify p)))
  /\ (args_get (args req) "format" = Some "xml" ->
      api_response req p st root
      = Return (mkResponse st [("Content-Type", "application/xml; charset=utf-8")]
                  (Dicttoxml p root)))
  /\ (forall fmt message,
        _get_format req = Return fmt ->
        api_response req p st root = Return (encoded fmt p st root)
        /\ error_response req message st None
           = Return (encoded fmt (VDict [("error", VStr message); ("status", VInt st)])
                       st "error")).
Proof.
  split; [|split].
  - intros [H | H]; unfold api_response, _get_format; rewrite H; reflexivity.
  - intros H; unfold api_response, _get_format; rewrite H; reflexivity.
  - intros fmt message Hf. split.
    + apply api_response_legal. exact Hf.
    + apply (error_response_legal req fmt message st Hf).
Qed.

(** POST /api/sales with a quantity of 0, with a sale id of 0 and with a
    negative region id, and POST /api/products with a category id of 0:
    each is answered 400 with the message that names the field, and
    nothing is stored. *)
Lemma low_numbers_rejected :
  let sale (sale_id quantity region_id : Z) :=
    mkrequest (CreateOf Sales) [] Demo.bearer_good
      (Some (VDict [("sale_id", VInt sale_id); ("product_id", VInt 1);
                    ("sale_date", VStr "2023-02-01");
                    ("quantity", VInt quantity); ("price", VInt 20);
                    ("customer_id", VInt 42); ("region_id", VInt region_id)])) in
  wsgi_app (R := Demo.runtime) (sale 7 0 1) Demo.db0
  = (Return (error_envelope "json" "quantity must be >= 1" 400), Demo.db0)
  /\ wsgi_app (R := Demo.runtime) (sale 0 2 1) Demo.db0
     = (Return (error_envelope "json" "sale_id must be >= 1" 400), Demo.db0)
  /\ wsgi_app (R := Demo.runtime) (sale 7 2 (-1)) Demo.db0
     = (Return (error_envelope "json" "region_id must be >= 1" 400), Demo.db0)
  /\ wsgi_app (R := Demo.runtime)
       (mkrequest (CreateOf Products) [] Demo.bearer_good
          (Some (VDict [("product_name", VStr "Kettle"); ("category_id", VInt 0)])))
       Demo.db0
     = (Return (error_envelope "json" "category_id must be >= 1" 400), Demo.db0).
Proof.
  repeat split; reflexivity.
Qed.

(* ================================================================== *)
(** * The contracts of the routes *)

(** ** Every request is answered *)

Section Answers.

Context {R : Runtime}.

Variable req : request.
Variable fmt : string.
Hypothesis legal : _get_format req = Return fmt.

Lemma answers_api_response (p : value) :
  answers fmt (lift (api_response req p 200 "response")).
Proof.
  intros db. left. exists (encoded fmt p 200 "response"), db. split.
  - unfold lift. rewrite (api_response_legal req fmt p 200 "response" legal).
    reflexivity.
  - left. exists p. reflexivity.
Qed.

Lemma answers_error_response (message : string) (st : Z) :
  In st [400; 401; 404; 409; 500] ->
  answers fmt (lift (error_response req message st None)).
Proof.
  intros Hst db. left. exists (error_envelope fmt message st), db. split.
  - unfold lift. rewrite (error_response_legal req fmt message st legal).
    reflexivity.
  - right. right. exists message, st. split; [exact Hst | reflexivity].
Qed.

Lemma answers_created (p : value) (location : string) :
  answers fmt
    (bind (lift (api_response req p 201 "response"))
       (fun resp => lift (headers_setitem resp "Location" location))).
Proof.
  intros db. unfold bind, lift, headers_setitem.
  rewrite (api_response_legal req fmt p 201 "response" legal).
  destruct (has_line_break location).
  - right. eexists; eexists; reflexivity.
  - left. exists (created fmt p location), db. split; [reflexivity|].
    right. left. exists p, location. reflexivity.
Qed.

Lemma answers_raise (e : exn) : answers fmt (raise e).
Proof. intros db. right. exists e, db. reflexivity. Qed.

Lemma answers_bind {A : Type} (m : M DB A) (k : A -> M DB Response) :
  (forall a, answers fmt (k a)) -> answers fmt (bind m k).
Proof.
  intros Hk db. unfold bind. destruct (m db) as [[a | e] db1].
  - apply Hk.
  - right. exists e, db1. reflexivity.
Qed.

Lemma answers_db_guard (block : M DB Response) :
  answers fmt block -> answers fmt (db_guard req block).
Proof.
  intros Hb db. unfold db_guard, try_except.
  destruct (Hb db) as [(resp & db1 & -> & Hw) | (e & db1 & ->)].
  - left. exists resp, db1. split; [reflexivity | exact Hw].
  - left. exists (storage_failure_answer fmt (str_exn e)), db1. split.
    + unfold lift. rewrite (handle_db_error_legal req fmt e legal). reflexivity.
    + right. right. unfold storage_failure_answer.
      destruct (Text.contains "Duplicate entry" (str_exn e)).
      * exists "Conflict (duplicate key)", 409. split; [simpl; auto | reflexivity].
      * exists "Database error", 500. split; [simpl; auto 6 | reflexivity].
Qed.

Lemma answers_require_jwt (fn : view) :
  answers fmt (fn req) -> answers fmt (require_jwt fn req).
Proof.
  intros Hfn db. rewrite require_jwt_gate.
  assert (H401 : forall message,
            (exists resp db', (error_response req message 401 None, db)
                              = (Return resp, db') /\ well_answered fmt resp)
            \/ (exists e db', (error_response req message 401 None, db)
                              = (Raise e, db'))).
  { intros message. apply (answers_error_response message 401); simpl; auto. }
  destruct (presented_token req) as [token|]; [|apply H401].
  destruct (jwt_decode token JWT_SECRET_KEY) as [claims | | | text];
    [apply Hfn | apply H401 | apply H401 |].
  right. exists (PyJWTError text), db. reflexivity.
Qed.

End Answers.

(** Takes a handler apart down to the calls that build its response. *)
Ltac answers_step :=
  repeat first
    [ apply answers_api_response; assumption
    | apply answers_error_response; [assumption | simpl; auto 6]
    | apply answers_created; assumption
    | apply answers_raise
    | apply answers_db_guard; [assumption|]
    | apply answers_bind; intros ?
    | match goal with
      | |- answers _ (if ?c then _ else _) => destruct c
      | |- answers _ (match ?o with None => _ | Some _ => _ end) => destruct o
      | |- answers _ (match ?o with [] => _ | _ :: _ => _ end) => destruct o
      end ].

Section AnswersTheorem.

Context {R : Runtime}.

Lemma endpoint_answers (rt : route) (req : request) (fmt : string) :
  _get_format req = Return fmt -> answers fmt (endpoint rt req).
Proof.
  intros Hf.
  destruct rt as [ | | r | r | r id | r id | r id | | | ]; try destruct r;
    cbv beta iota zeta delta
      [endpoint health login
       list_categories create_category get_category update_category delete_category
       list_regions create_region get_region update_region delete_region
       list_customers create_customer get_customer update_customer delete_customer
       list_products create_product get_product update_product delete_product
       list_sales create_sale get_sale update_sale delete_sale search_sales];
    answers_step.
Qed.

Lemma well_answered_status (fmt : string) (resp : Response) :
  well_answered fmt resp -> In (status resp) [200; 201; 400; 401; 404; 409; 500].
Proof.
  intros [(p & ->) | [(p & loc & ->) | (message & st & Hst & ->)]].
  - rewrite (proj1 (encoded_status fmt p 200 "response")). simpl. auto.
  - unfold created, with_header. cbn [status].
    rewrite (proj1 (encoded_status fmt p 201 "response")). simpl. auto.
  - unfold error_envelope. rewrite (proj1 (encoded_status fmt _ st "error")).
    simpl in Hst. simpl. intuition.
Qed.

Lemma well_answered_format (fmt : string) (resp : Response) :
  fmt = "json" \/ fmt = "xml" ->
  well_answered fmt resp ->
  header resp "Content-Type"
  = Some (if String.eqb fmt "xml" then "application/xml; charset=utf-8"
          else "application/json").
Proof.
  intros Hfmt [(p & ->) | [(p & loc & ->) | (message & st & Hst & ->)]];
    destruct Hfmt as [-> | ->]; reflexivity.
Qed.

(** X1. With a legal format every request is answered, whatever the route,
    the token, the body and the behaviour of the storage: no exception
    leaves the application. The response has one of three shapes: a
    success with status 200 and root element 'response', a creation with
    status 201 and a Location header, or the error envelope
    {error, status} whose status field repeats the HTTP status, which is
    400, 401, 404, 409 or 500. Its Content-Type is the one of the selected
    format. *)
Theorem every_request_answered (req : request) (db : DB) (fmt : string) :
  _get_format req = Return fmt ->
  exists resp db',
    wsgi_app req db = (Return resp, db')
    /\ well_answered fmt resp
    /\ In (status resp) [200; 201; 400; 401; 404; 409; 500]
    /\ header resp "Content-Type"
       = Some (if String.eqb fmt "xml" then "application/xml; charset=utf-8"
               else "application/json").
Proof.
  intros Hf.
  assert (Hfmt : fmt = "json" \/ fmt = "xml").
  { destruct (get_format_cases req) as [(f & Hf' & Hc) | Hr]; congruence. }
  assert (Hw : exists resp db',
             wsgi_app req db = (Return resp, db') /\ well_answered fmt resp).
  { assert (Hd : answers fmt (dispatch_request req)).
    { unfold dispatch_request, view_function.
      destruct (login_required (url_rule req)).
      - apply answers_require_jwt; [exact Hf | apply endpoint_answers; exact Hf].
      - apply endpoint_answers; exact Hf. }
    unfold wsgi_app, full_dispatch_request, try_except.
    destruct (Hd db) as [(resp & db1 & -> & Hwell) | (e & db1 & ->)].
    - exists resp, db1. split; [reflexivity | exact Hwell].
    - assert (He : answers fmt (handle_user_exception req e)).
      { unfold handle_user_exception, _bad_request, _not_found, _unhandled.
        destruct e; apply answers_error_response; try exact Hf; simpl; auto 6. }
      destruct (He db1) as [(resp & db2 & Hrun & Hwell) | (e' & db2 & Hrun)].
      + rewrite Hrun. exists resp, db2. split; [reflexivity | exact Hwell].
      + exfalso. unfold handle_user_exception, _bad_request, _not_found, _unhandled,
          lift in Hrun.
        destruct e; rewrite (error_response_legal req fmt _ _ Hf) in Hrun;
          discriminate Hrun. }
  destruct Hw as (resp & db' & Hrun & Hwell).
  exists resp, db'. repeat split.
  - exact Hrun.
  - exact Hwell.
  - apply (well_answered_status fmt resp Hwell).
  - apply (well_answered_format fmt resp Hfmt Hwell).
Qed.

End AnswersTheorem.

(** ** A body that does not validate *)

Section InvalidBody.

Context {R : Runtime}.

Lemma body_get_raises (b : value) (k : string) (e : exn) :
  body_get b k = Raise e -> validation_exn e.
Proof. destruct b; simpl; intros H; inversion H; exact I. Qed.

Lemma or_empty_strip_raises (v : value) (e : exn) :
  or_empty_strip v = Raise e -> validation_exn e.
Proof.
  unfold or_empty_strip. destruct (por v (VStr "")); intros H; inversion H; exact I.
Qed.

Lemma parse_int_raises (v : value) (f : string) (m : option Z) (e : exn) :
  _parse_int v f m = Raise e -> validation_exn e.
Proof.
  unfold _parse_int. destruct (Builtins.int v) as [n | | |].
  - destruct m as [k|]; [destruct (n <? k)|]; intros H; inversion H; exact I.
  - intros H; inversion H; exact I.
  - intros H; inversion H; exact I.
  - intros H; inversion H; exact I.
Qed.

Lemma parse_decimal_raises (v : value) (f : string) (e : exn) :
  _parse_decimal v f = Raise e -> validation_exn e.
Proof.
  unfold _parse_decimal. destruct (float v); intros H; inversion H; exact I.
Qed.

Lemma parse_date_raises (v : value) (f : string) (e : exn) :
  _parse_date v f = Raise e ->
  e = BadRequest (f ++ " must be a date string (YYYY-MM-DD)").
Proof.
  unfold _parse_date.
  destruct (negb (truthy v) || negb (is_str v)); [intros H; inversion H; reflexivity|].
  destruct v; try (intros H; inversion H; reflexivity).
  destruct (Datetime.fromisoformat s); intros H; inversion H; reflexivity.
Qed.

Lemma validate_email_raises (v : value) (e : exn) :
  _validate_email v = Raise e ->
  e = BadRequest "email must be a valid email address".
Proof.
  unfold _validate_email.
  destruct v; try (intros H; inversion H; reflexivity).
  destruct (_EMAIL_RE_match s); intros H; inversion H; reflexivity.
Qed.

(** What the application makes of an exception of the validation. *)
Lemma validation_exn_answer (req : request) (fmt : string) (db : DB) (e : exn) :
  _get_format req = Return fmt ->
  validation_exn e ->
  dispatch_request req db = (Raise e, db) ->
  exists message st,
    (st = 400 \/ (st = 500 /\ message = "Internal server error"))
    /\ wsgi_app req db = (Return (error_envelope fmt message st), db).
Proof.
  intros Hf He Hrun.
  unfold wsgi_app, full_dispatch_request, try_except. rewrite Hrun.
  destruct e; try contradiction;
    cbv beta iota delta [handle_user_exception _bad_request _unhandled lift];
    rewrite (error_response_legal req fmt _ _ Hf);
    eexists; eexists; (split; [|reflexivity]); auto.
Qed.

End InvalidBody.

(** Runs the validation of a handler member by member; what is left is the
    handler after a validation that raised nothing. *)
Ltac validation_step :=
  repeat match goal with
    | |- context [bind (lift ?r) _] =>
        let E := fresh "E" in
        destruct r eqn:E;
        [ rewrite bind_lift_return
        | left; eexists; split; [|reflexivity];
          first [ exact (body_get_raises _ _ _ E)
                | exact (or_empty_strip_raises _ _ E)
                | exact (parse_int_raises _ _ _ _ E)
                | exact (parse_decimal_raises _ _ _ E)
                | rewrite (parse_date_raises _ _ _ E); exact I
                | rewrite (validate_email_raises _ _ E); exact I ] ]
    end.

Section InvalidBodyTheorem.

Context {R : Runtime}.

Lemma invalid_body_view (req : request) (fmt : string) (db : DB) :
  _get_format req = Return fmt ->
  (exists r, url_rule req = CreateOf r) \/ (exists r id, url_rule req = UpdateOf r id) ->
  write_statement req = None ->
  (exists e, validation_exn e /\ endpoint (url_rule req) req db = (Raise e, db))
  \/ (exists message,
        endpoint (url_rule req) req db = (Return (error_envelope fmt message 400), db)).
Proof.
  intros Hf Hroute Hw.
  unfold write_statement in Hw.
  destruct Hroute as [(r & Hr) | (r & id & Hr)]; rewrite Hr in Hw |- *; destruct r;
    cbv beta iota zeta delta
      [endpoint create_category update_category create_region update_region
       create_customer update_customer create_product update_product
       create_sale update_sale];
    cbv beta iota delta [obind text_field id_field date_field email_field
                         number_field] in Hw;
    validation_step.
  all: repeat first
         [ progress validation_step
         | match goal with
           | |- context [if ?c then _ else _] =>
               let C := fresh "C" in
               destruct c eqn:C;
               [ right; eexists; unfold lift;
                 rewrite (error_response_legal req fmt _ _ Hf); reflexivity |]
           end ].
  all: exfalso.
  all: repeat match goal with
         | C : _ || _ = false |- _ => apply orb_false_elim in C as [? ?]
         end.
  all: repeat match goal with
         | E : _ = Return _ |- _ => rewrite E in Hw; clear E
         end.
  all: cbv beta iota in Hw.
  all: repeat match goal with
         | C : String.eqb _ _ = false |- _ => rewrite C in Hw; clear C
         end.
  all: discriminate Hw.
Qed.

(** X2. On a create or update route, when the body does not validate (so
    that there is no statement to send), the request is answered with the
    error envelope and the storage is left as it was: the status is 400,
    or 500 'Internal server error' when the validation stopped on an
    exception that is not a bad-input error (a body that is not an object,
    a name that is not text, an infinite number). The request is
    authorised and its format is legal. *)
Theorem invalid_body_not_stored (req : request) (fmt : string) (db : DB) :
  authorised req ->
  _get_format req = Return fmt ->
  (exists r, url_rule req = CreateOf r) \/ (exists r id, url_rule req = UpdateOf r id) ->
  write_statement req = None ->
  exists message st,
    (st = 400 \/ (st = 500 /\ message = "Internal server error"))
    /\ wsgi_app req db = (Return (error_envelope fmt message st), db).
Proof.
  intros Hauth Hf Hroute Hw.
  assert (Hd : dispatch_request req db = endpoint (url_rule req) req db).
  { rewrite dispatch_protected.
    - apply require_jwt_authorised. exact Hauth.
    - destruct Hroute as [(r & ->) | (r & id & ->)]; reflexivity. }
  destruct (invalid_body_view req fmt db Hf Hroute Hw)
    as [(e & He & Hrun) | (message & Hrun)].
  - apply (validation_exn_answer req fmt db e Hf He). rewrite Hd. exact Hrun.
  - exists message, 400. split; [left; reflexivity|].
    apply wsgi_app_answer. rewrite Hd. exact Hrun.
Qed.

End InvalidBodyTheorem.

(** ** Writes that the storage carries out *)

Section Writes.

Context {R : Runtime}.

(** The guarded block of a write when connecting, the statement and the
    commit succeed: the rest of the block runs on the cursor. *)
Lemma guard_storage_success (req : request) (sql : string) (params : list value)
  (db db' db'' : DB) (cur : cursor) (k : cursor -> M DB Response)
  (resp : Response) :
  storage_txn sql params db = (Return cur, db') ->
  k cur db' = (Return resp, db'') ->
  db_guard req
    (bind _db (fun _ => bind (execute sql params)
                          (fun cur => bind commit (fun _ => k cur)))) db
  = (Return resp, db'').
Proof.
  intros Htxn Hk.
  unfold storage_txn, db_guard, try_except, bind, _db, execute, commit,
    driver_call, ret, lift in *.
  destruct (db_connect db) as [[[]|t1] d1]; [|discriminate].
  destruct (db_execute sql params d1) as [[c|t2] d2]; [|discriminate].
  destruct (db_commit d2) as [[[]|t3] d3]; [|discriminate].
  injection Htxn as -> ->. rewrite Hk. reflexivity.
Qed.







Lemma found_or_not_run (req : request) (fmt message : string) (p : value)
  (c : bool) (db : DB) :
  _get_format req = Return fmt ->
  (if c then lift (error_response req message 404 None)
   else lift (api_response req p 200 "response")) db
  = (Return (if c then error_envelope fmt message 404
             else encoded fmt p 200 "response"), db).
Proof.
  intros Hf. unfold lift.
  rewrite (error_response_legal req fmt message 404 Hf),
          (api_response_legal req fmt p 200 "response" Hf).
  destruct c; reflexivity.
Qed.

Lemma dispatch_authorised (req : request) (db : DB) :
  login_required (url_rule req) = true ->
  authorised req ->
  dispatch_request req db = endpoint (url_rule req) req db.
Proof.
  intros Hp Hauth. rewrite (dispatch_protected req db Hp).
  apply require_jwt_authorised. exact Hauth.
Qed.

End Writes.

(** Shows that every member of a concrete representation echoes the
    statement. *)
Ltac echoes_all :=
  repeat (constructor;
          [ first [ left; reflexivity
                  | right; left; simpl; tauto
                  | right; right; eexists; split; [reflexivity | simpl; tauto] ]
          | ]);
  constructor.

Section WriteContracts.

Context {R : Runtime}.


(** X4. An update that the storage carries out is answered by the row
    count of the statement: 404 '<Resource> not found' when no row was
    matched (the statement is committed all the same), and otherwise 200
    with a representation that carries the identifier of the URL under the
    key column and echoes the parameters of the statement. *)
Theorem update_contract (r : resource) (id : Z) (req : request) (fmt sql : string)
  (params : list value) (db db' : DB) (cur : cursor) :
  url_rule req = UpdateOf r id ->
  authorised req ->
  _get_format req = Return fmt ->
  write_statement req = Some (sql, params) ->
  storage_txn sql params db = (Return cur, db') ->
  exists items,
    wsgi_app req db
    = (Return (if rowcount cur =? 0
               then error_envelope fmt (not_found_message r) 404
               else encoded fmt (VDict items) 200 "response"), db')
    /\ dict_get items (pk_column r) = Some (VInt id)
    /\ Forall (fun member => echoes id params (snd member)) items.
Proof.
  intros Hr Hauth Hf Hw Htxn.
  assert (Hd : dispatch_request req db = endpoint (UpdateOf r id) req db).
  { rewrite <- Hr. apply dispatch_authorised; [rewrite Hr; reflexivity | exact Hauth]. }
  unfold write_statement in Hw. rewrite Hr in Hw.
  destruct r; cbv beta iota delta [obind] in Hw; repeat open_field Hw;
    injection Hw as <- <-;
    eexists;
    (split;
     [ apply wsgi_app_answer; rewrite Hd;
       cbv beta iota zeta delta
         [endpoint update_category update_region update_customer update_product
          update_sale];
       run_validation; cbv beta iota delta [orb]; run_validation;
       eapply guard_storage_success;
       [ exact Htxn | apply (found_or_not_run req fmt _ _ _ db' Hf) ]
     | split; [reflexivity | echoes_all] ]).
Qed.

End WriteContracts.

(** ** Reads *)

Section Reads.

Context {R : Runtime}.

(** The guarded block of a read when the storage answers the statement. *)
Lemma guard_query_success (req : request) (sql : string) (params : list value)
  (db db' db'' : DB) (cur : cursor) (k : cursor -> M DB Response)
  (resp : Response) :
  storage_query sql params db = (Return cur, db') ->
  k cur db' = (Return resp, db'') ->
  db_guard req (bind _db (fun _ => bind (execute sql params) k)) db
  = (Return resp, db'').
Proof.
  intros Hq Hk.
  unfold storage_query, db_guard, try_except, bind, _db, execute,
    driver_call, lift in *.
  destruct (db_connect db) as [[[]|t1] d1]; [|discriminate].
  destruct (db_execute sql params d1) as [[c|t2] d2]; [|discriminate].
  injection Hq as -> ->. rewrite Hk. reflexivity.
Qed.

(** The guarded block of a read when connecting or the statement fails. *)
Lemma guard_query_failure (req : request) (fmt sql msg : string)
  (params : list value) (db db' : DB) (k : cursor -> M DB Response) :
  _get_format req = Return fmt ->
  storage_query sql params db = (Raise (StorageError msg), db') ->
  db_guard req (bind _db (fun _ => bind (execute sql params) k)) db
  = (Return (storage_failure_answer fmt msg), db').
Proof.
  intros Hf Hq.
  unfold storage_query, db_guard, try_except, bind, _db, execute,
    driver_call, lift in *.
  destruct (db_connect db) as [[[]|t1] d1].
  - destruct (db_execute sql params d1) as [[c|t2] d2]; [discriminate|].
    injection Hq as -> ->.
    rewrite (handle_db_error_legal req fmt _ Hf). reflexivity.
  - injection Hq as -> ->.
    rewrite (handle_db_error_legal req fmt _ Hf). reflexivity.
Qed.

Lemma found_row_run (req : request) (fmt message : string) (db : DB)
  (found : option (list (string * value)))
  (shown : list (string * value) -> list (string * value)) :
  _get_format req = Return fmt ->
  match found with
  | None | Some [] => lift (error_response req message 404 None)
  | Some row => lift (api_response req (VDict (shown row)) 200 "response")
  end db
  = (Return match found with
            | None | Some [] => error_envelope fmt message 404
            | Some row => encoded fmt (VDict (shown row)) 200 "response"
            end, db).
Proof.
  intros Hf. unfold lift.
  destruct found as [[|cell row]|];
    rewrite ?(error_response_legal req fmt message 404 Hf),
            ?(api_response_legal req fmt _ 200 "response" Hf);
    reflexivity.
Qed.

(** X5. A get by identifier sends the SELECT of the resource with the
    identifier as its only parameter, commits nothing, and answers 404
    '<Resource> not found' when the cursor has no row or an empty row, and
    200 with the first row otherwise; for customers and sales the date
    column of the row is turned into text first. *)
Theorem get_contract (r : resource) (id : Z) (req : request) (fmt : string)
  (db db' : DB) (cur : cursor) :
  url_rule req = GetOf r id ->
  authorised req ->
  _get_format req = Return fmt ->
  storage_query (get_sql r) [VInt id] db = (Return cur, db') ->
  wsgi_app req db
  = (Return match _fetchone_dict cur with
            | None | Some [] => error_envelope fmt (not_found_message r) 404
            | Some row => encoded fmt (VDict (read_row r row)) 200 "response"
            end, db').
Proof.
  intros Hr Hauth Hf Hq.
  apply wsgi_app_answer.
  rewrite (dispatch_authorised req db); [|rewrite Hr; reflexivity | exact Hauth].
  rewrite Hr.
  destruct r; cbv beta iota delta [get_sql] in Hq;
    cbv beta iota zeta delta
      [endpoint get_category get_region get_customer get_product get_sale];
    eapply guard_query_success; try exact Hq;
    cbv beta iota delta [not_found_message read_row date_column].
  - apply (found_row_run req fmt _ db' _ (fun row => row) Hf).
  - apply (found_row_run req fmt _ db' _ (fun row => row) Hf).
  - apply (found_row_run req fmt _ db' _ (stringify_date "signup_date") Hf).
  - apply (found_row_run req fmt _ db' _ (fun row => row) Hf).
  - apply (found_row_run req fmt _ db' _ (stringify_date "sale_date") Hf).
Qed.

(** X6. A list answers 200 with {items: [...]}: one item per fetched row,
    in the order of the cursor, the date column turned into text for
    customers and sales. An empty table gives an empty list, not a 404. *)
Theorem list_contract (r : resource) (req : request) (fmt : string)
  (db db' : DB) (cur : cursor) :
  url_rule req = ListOf r ->
  authorised req ->
  _get_format req = Return fmt ->
  storage_query (list_sql r) [] db = (Return cur, db') ->
  wsgi_app req db
  = (Return (encoded fmt
               (VDict [("items",
                        VList (map (fun row => VDict (read_row r row))
                                 (_fetchall_dict cur)))])
               200 "response"), db').
Proof.
  intros Hr Hauth Hf Hq.
  apply wsgi_app_answer.
  rewrite (dispatch_authorised req db); [|rewrite Hr; reflexivity | exact Hauth].
  rewrite Hr.
  destruct r; cbv beta iota delta [list_sql] in Hq;
    cbv beta iota zeta delta
      [endpoint list_categories list_regions list_customers list_products
       list_sales];
    eapply guard_query_success; try exact Hq;
    unfold lift, items_payload;
    rewrite (api_response_legal req fmt _ 200 "response" Hf);
    cbv beta iota delta [read_row date_column];
    rewrite ?map_map; reflexivity.
Qed.

(** X7. On every read route (the lists, the gets and the search), when
    connecting or the statement fails with an exception whose text is
    [msg], the request is answered 409 'Conflict (duplicate key)' if [msg]
    contains 'Duplicate entry' and 500 'Database error' otherwise, as on
    the write routes. *)
Theorem read_failure_translated (req : request) (fmt sql msg : string)
  (params : list value) (db db' : DB) :
  authorised req ->
  _get_format req = Return fmt ->
  read_statement req = Some (sql, params) ->
  storage_query sql params db = (Raise (StorageError msg), db') ->
  wsgi_app req db
  = (Return (if Text.contains "Duplicate entry" msg
             then error_envelope fmt "Conflict (duplicate key)" 409
             else error_envelope fmt "Database error" 500), db').
Proof.
  intros Hauth Hf Hs Hq.
  change (wsgi_app req db = (Return (storage_failure_answer fmt msg), db')).
  apply wsgi_app_answer.
  unfold read_statement in Hs.
  destruct (url_rule req) as [ | | r | r | r id | r id | r id | | | ] eqn:Hr;
    try discriminate Hs;
    (rewrite (dispatch_authorised req db); [|rewrite Hr; reflexivity | exact Hauth]);
    rewrite Hr.
  - destruct r; injection Hs as <- <-;
      cbv beta iota zeta delta
        [endpoint list_categories list_regions list_customers list_products
         list_sales];
      apply (guard_query_failure req fmt _ msg _ db db' _ Hf Hq).
  - destruct r; injection Hs as <- <-;
      cbv beta iota zeta delta
        [endpoint get_category get_region get_customer get_product get_sale];
      apply (guard_query_failure req fmt _ msg _ db db' _ Hf Hq).
  - pose proof (search_conditions_plan req) as Hsc.
    destruct (search_plan req) as [l|]; [|discriminate Hs].
    injection Hs as <- <-.
    cbv beta iota delta [endpoint search_sales].
    rewrite Hsc, bind_lift_return. cbn [fst snd].
    apply (guard_query_failure req fmt _ msg _ db db' _ Hf Hq).
Qed.

Lemma date_filters_complaint (req : request) (acc0 : list string * list value)
  (e : exn) :
  (acc1 <- add_checked "sale_date >= %s" (args_get (args req) "date_from")
             (fun s => d <- _parse_date (VStr s) "date_from" ;;
                       Return (VDate d)) acc0 ;;
   acc2 <- add_checked "sale_date <= %s" (args_get (args req) "date_to")
             (fun s => d <- _parse_date (VStr s) "date_to" ;;
                       Return (VDate d)) acc1 ;;
   Return acc2)%result = Raise e ->
  exists message,
    first_complaint req [ByDateFrom; ByDateTo] = Some message
    /\ e = BadRequest message.
Proof.
  unfold add_checked. cbn [first_complaint filter_complaint].
  unfold sent, supplied. cbn [filter_arg].
  destruct (args_get (args req) "date_from") as [s2|];
    [destruct (String.eqb s2 "") eqn:E2;
     [|rewrite (parse_date_supplied s2 "date_from" E2);
       destruct (Datetime.fromisoformat s2)]|];
    cbn [rbind];
    try (destruct (args_get (args req) "date_to") as [s3|];
         [destruct (String.eqb s3 "") eqn:E3;
          [|rewrite (parse_date_supplied s3 "date_to" E3);
            destruct (Datetime.fromisoformat s3)]|];
         cbn [rbind]);
    intros H; try discriminate H; injection H as <-;
    eexists; split; reflexivity.
Qed.

Lemma search_conditions_complaint (req : request) (e : exn) :
  search_conditions req = Raise e ->
  exists message,
    first_complaint req all_filters = Some message /\ e = BadRequest message.
Proof.
  unfold search_conditions. cbv zeta.
  set (acc := add_like _ _ (add_like _ _ (add_like _ _ _))). clearbody acc.
  assert (Hnames : first_complaint req all_filters
                   = match sent req ByCustomerId with
                     | Some s =>
                         match filter_complaint ByCustomerId s with
                         | Some message => Some message
                         | None => first_complaint req [ByDateFrom; ByDateTo]
                         end
                     | None => first_complaint req [ByDateFrom; ByDateTo]
                     end).
  { unfold all_filters. cbn [first_complaint filter_complaint].
    destruct (sent req ByProductName), (sent req ByCategoryName),
      (sent req ByRegionName); reflexivity. }
  rewrite Hnames. unfold add_checked at 1. unfold sent, supplied.
  cbn [filter_arg filter_complaint].
  destruct (args_get (args req) "customer_id") as [s1|];
    [destruct (String.eqb s1 "") eqn:E1|]; cbn [rbind];
    try apply date_filters_complaint.
  rewrite parse_int_text.
  pose proof (int_str_no_overflow s1) as Hno.
  destruct (Builtins.int_str s1) as [n | | |]; try congruence;
    [destruct (n <? 1)|..]; cbn [rbind]; try apply date_filters_complaint;
    intros H; injection H as <-; eexists; split; reflexivity.
Qed.

Lemma complaint_not_empty (req : request) (fs : list search_filter)
  (message : string) :
  first_complaint req fs = Some message -> String.eqb message "" = false.
Proof.
  induction fs as [|f fs IH]; [discriminate|].
  cbn [first_complaint].
  destruct (sent req f) as [s|]; [|exact IH].
  destruct (filter_complaint f s) as [m|] eqn:Em; [|exact IH].
  intros H. injection H as <-.
  destruct f; cbn [filter_complaint filter_arg] in Em; try discriminate Em.
  - destruct (Builtins.int_str s) as [n | | |]; [destruct (n <? 1)|..];
      try discriminate Em; injection Em as <-; reflexivity.
  - destruct (Datetime.fromisoformat s); [discriminate Em|].
    injection Em as <-. reflexivity.
  - destruct (Datetime.fromisoformat s); [discriminate Em|].
    injection Em as <-. reflexivity.
Qed.

(** X8. A search with a customer id that is not an integer of at least 1,
    or with a date bound that is not a date, is answered 400 with the
    message that names the filter, and the storage is not reached. The
    filter named is the first one, in the order customer_id, date_from,
    date_to, whose value does not validate; the message is the query
    parameter of that filter followed by ' must be an integer', ' must be
    >= 1' or ' must be a date string (YYYY-MM-DD)'. *)
Theorem invalid_filter_not_searched (req : request) (fmt : string) (db : DB) :
  url_rule req = SearchSales ->
  authorised req ->
  _get_format req = Return fmt ->
  search_plan req = None ->
  exists message,
    first_complaint req all_filters = Some message
    /\ wsgi_app req db = (Return (error_envelope fmt message 400), db).
Proof.
  intros Hr Hauth Hf Hplan.
  pose proof (search_conditions_plan req) as Hsc. rewrite Hplan in Hsc.
  destruct Hsc as (description & Hsc).
  destruct (search_conditions_complaint req _ Hsc) as (message & Hin & Hm).
  injection Hm as ->.
  exists message. split; [exact Hin|].
  unfold wsgi_app, full_dispatch_request, try_except.
  rewrite (dispatch_authorised req db); [|rewrite Hr; reflexivity | exact Hauth].
  rewrite Hr. cbv beta iota delta [endpoint search_sales].
  rewrite Hsc.
  cbv beta iota delta [bind lift handle_user_exception _bad_request].
  rewrite (complaint_not_empty req _ _ Hin),
    (error_response_legal req fmt _ 400 Hf). reflexivity.
Qed.
End Reads.

(** ** Trimming *)

Lemma lstrip_blank (s : string) : Text.blank s = true -> Text.lstrip s = EmptyString.
Proof.
  induction s as [|c s IH]; simpl; intros H; [reflexivity|].
  apply andb_prop in H as [Hc Hs]. rewrite Hc. auto.
Qed.

Lemma strip_blank (s : string) : Text.blank s = true -> Text.strip s = EmptyString.
Proof. intros H. unfold Text.strip. rewrite (lstrip_blank s H). reflexivity. Qed.

Lemma rstrip_last_not_space (w : string) :
  last_not_space w = true -> Text.rstrip w = w.
Proof.
  induction w as [|c w IH]; [reflexivity|].
  destruct w as [|c' w'].
  - simpl. intros H. apply negb_true_iff in H. rewrite H. reflexivity.
  - intros H. change (last_not_space (String c' w') = true) in H.
    cbn [Text.rstrip]. cbn [Text.rstrip] in IH. rewrite (IH H). reflexivity.
Qed.

(** Blanks around a text that has none at its ends are what [strip]
    removes. *)
Lemma strip_padded (l w r : string) :
  Text.blank l = true -> Text.blank r = true -> no_outer_space w = true ->
  Text.strip (l ++ w ++ r) = w.
Proof.
  intros Hl Hr Hw. unfold Text.strip. rewrite (lstrip_app_blank l _ Hl).
  destruct w as [|a w'].
  - simpl. rewrite (lstrip_blank r Hr). reflexivity.
  - unfold no_outer_space in Hw. apply andb_prop in Hw as [Ha Hlast].
    apply negb_true_iff in Ha.
    change (String a w' ++ r) with (String a (w' ++ r)).
    cbn [Text.lstrip]. rewrite Ha.
    change (String a (w' ++ r)) with (String a w' ++ r).
    rewrite (rstrip_app_blank _ r Hr).
    apply rstrip_last_not_space. exact Hlast.
Qed.

Lemma prefix_app (p s : string) : String.prefix p (p ++ s) = true.
Proof.
  induction p as [|a p IH]; simpl.
  - destruct s; reflexivity.
  - destruct (ascii_dec a a) as [_ | Hne]; [exact IH | congruence].
Qed.

(** ** Login *)

Section LoginContract.

Context {R : Runtime}.

(** X9. Login needs no token and does not touch the storage. When the
    body is an object (or missing, or empty) it answers 200 with a token
    exactly when the members username and password are the two configured
    texts, and 401 'Invalid credentials' otherwise; the token is signed
    with the configured secret, names the configured user and expires 3600
    seconds after it was issued, the lifetime that expires_in announces. A
    body that is a non-empty list, a number or a text is answered 500. *)
Theorem login_contract (req : request) (db : DB) (fmt : string) :
  url_rule req = Login ->
  _get_format req = Return fmt ->
  wsgi_app req db
  = (Return
       match get_json_or_empty req with
       | VDict _ =>
           if credentials_match (get_json_or_empty req)
           then encoded fmt
                  (VDict [("access_token",
                           VStr (jwt_encode
                                   (VDict [("sub", VStr API_USERNAME);
                                           ("iat", VInt now_timestamp);
                                           ("exp", VInt (now_timestamp + 3600))])
                                   JWT_SECRET_KEY));
                          ("token_type", VStr "Bearer");
                          ("expires_in", VInt 3600)]) 200 "response"
           else error_envelope fmt "Invalid credentials" 401
       | _ => error_envelope fmt "Internal server error" 500
       end, db).
Proof.
  intros Hr Hf.
  unfold wsgi_app, full_dispatch_request, try_except, dispatch_request,
    view_function.
  rewrite Hr. cbv beta iota zeta delta [login_required endpoint login].
  destruct (get_json_or_empty req) as [ | b | n | x | s | d | t | l | items ];
    try (cbv beta iota delta [body_get bind lift handle_user_exception _unhandled];
         rewrite (error_response_legal req fmt _ 500 Hf); reflexivity).
  cbv beta iota delta [body_get]. rewrite !bind_lift_return.
  unfold credentials_match, differs.
  destruct (dict_get items "username") as [[ | | | | u | | | | ]|];
    destruct (dict_get items "password") as [[ | | | | p | | | | ]|];
    try (destruct (String.eqb_spec u API_USERNAME) as [-> | Hu]);
    try (destruct (String.eqb p API_PASSWORD));
    cbv beta iota delta [orb andb negb lift];
    rewrite ?(error_response_legal req fmt _ 401 Hf),
            ?(api_response_legal req fmt _ 200 "response" Hf);
    reflexivity.
Qed.

(** X10. With a legal format, a URL that matches no rule is answered 404
    'Not found', and a method that the rule does not allow is answered 500
    'Internal server error' (the catch-all handler also receives the 405
    of the router); the storage is not touched. *)
Theorem routing_errors (req : request) (db : DB) (fmt : string) :
  _get_format req = Return fmt ->
  (url_rule req = NoRoute ->
   wsgi_app req db = (Return (error_envelope fmt "Not found" 404), db))
  /\ (url_rule req = WrongMethod ->
      wsgi_app req db
      = (Return (error_envelope fmt "Internal server error" 500), db)).
Proof.
  intros Hf.
  split; intros Hr;
    unfold wsgi_app, full_dispatch_request, try_except, dispatch_request,
      view_function;
    rewrite Hr;
    cbv beta iota delta [login_required endpoint raise handle_user_exception
                         _not_found _unhandled lift];
    rewrite (error_response_legal req fmt _ _ Hf); reflexivity.
Qed.

(** X11. The token handed to the verifier is what follows 'Bearer ' in the
    header with the whitespace around it removed: blanks before and after
    the token make no difference to the outcome of the gate. *)
Theorem gate_token_trimmed (fn : view) (req : request) (db : DB)
  (l token r : string) :
  authorization req = Some ("Bearer " ++ l ++ token ++ r) ->
  Text.blank l = true ->
  Text.blank r = true ->
  no_outer_space token = true ->
  require_jwt fn req db
  = match jwt_decode token JWT_SECRET_KEY with
    | Decoded _ => fn req db
    | ExpiredSignatureError => (error_response req "Token expired" 401 None, db)
    | InvalidTokenError => (error_response req "Invalid token" 401 None, db)
    | DecodeOtherError text => (Raise (PyJWTError text), db)
    end.
Proof.
  intros Ha Hl Hr Ht.
  rewrite require_jwt_gate. unfold presented_token. rewrite Ha.
  rewrite prefix_app.
  replace (String.substring 7 (String.length ("Bearer " ++ l ++ token ++ r) - 7)
             ("Bearer " ++ l ++ token ++ r))
    with (l ++ token ++ r).
  - rewrite (strip_padded l token r Hl Hr Ht). reflexivity.
  - simpl. rewrite Nat.sub_0_r, substring_whole. reflexivity.
Qed.

End LoginContract.

(** ** Names *)

Section Names.

Context {R : Runtime}.

Lemma or_empty_strip_no_name (items : list (string * value)) (key : string) :
  no_name (dict_get items key) ->
  or_empty_strip (match dict_get items key with Some v => v | None => VNone end)
  = Return "".
Proof.
  unfold no_name, or_empty_strip, por.
  destruct (dict_get items key) as [v|]; [|reflexivity].
  destruct v as [ | b | n | x | s | d | t | l | l ]; intros H;
    try (rewrite H; reflexivity); try discriminate H.
  cbn [truthy]. destruct (String.eqb s ""); cbn [negb]; [reflexivity|].
  rewrite (strip_blank s H). reflexivity.
Qed.


(** X13. On the create and update routes of categories and regions, a
    name that is absent, null, false, zero, empty or made of whitespace
    only is answered 400 '<key> is required', and nothing is stored. *)
Theorem blank_name_required (r : resource) (key : string) (req : request)
  (db : DB) (fmt : string) (items : list (string * value)) :
  (url_rule req = CreateOf r \/ exists id, url_rule req = UpdateOf r id) ->
  name_key r = Some key ->
  authorised req ->
  _get_format req = Return fmt ->
  get_json_or_empty req = VDict items ->
  no_name (dict_get items key) ->
  wsgi_app req db = (Return (error_envelope fmt (key ++ " is required") 400), db).
Proof.
  intros Hroute Hkey Hauth Hf Hbody Hname.
  apply wsgi_app_answer.
  rewrite (dispatch_authorised req db);
    [|destruct Hroute as [-> | (id & ->)]; reflexivity | exact Hauth].
  destruct r; try discriminate Hkey; injection Hkey as <-;
    destruct Hroute as [-> | (id & ->)];
    cbv beta iota zeta delta
      [endpoint create_category update_category create_region update_region];
    rewrite Hbody; cbv beta iota delta [body_get]; rewrite bind_lift_return;
    rewrite (or_empty_strip_no_name items _ Hname), bind_lift_return;
    cbn [String.eqb]; unfold lift;
    rewrite (error_response_legal req fmt _ 400 Hf); reflexivity.
Qed.


End Names.

(** ** Dates written and read back *)

Lemma numbers_from_In (lo hi z : Z) :
  lo <= z <= hi -> In z (numbers_from lo hi).
Proof.
  intros H. unfold numbers_from.
  replace z with (lo + Z.of_nat (Z.to_nat (z - lo))) by lia.
  apply (in_map (fun i => lo + Z.of_nat i)). apply in_seq. lia.
Qed.

Lemma pad4_spelled (y : Z) : 1 <= y <= 9999 -> four_digits_of y = true.
Proof.
  intros H.
  assert (Hall : forallb four_digits_of (numbers_from 1 9999) = true)
    by (vm_compute; reflexivity).
  rewrite forallb_forall in Hall. apply Hall.
  apply numbers_from_In. lia.
Qed.

Lemma pad2_spelled (n : Z) : 0 <= n <= 99 -> two_digits_of n = true.
Proof.
  intros H.
  assert (Hall : forallb two_digits_of (numbers_from 0 99) = true)
    by (vm_compute; reflexivity).
  rewrite forallb_forall in Hall. apply Hall.
  apply numbers_from_In. lia.
Qed.

Lemma month_length_bound (y m : Z) : month_length y m <= 31.
Proof.
  unfold month_length.
  destruct m as [|p|p]; try lia.
  do 4 (try destruct p as [p|p|]; try lia);
    destruct (leap_year y); lia.
Qed.

Lemma calendar_date_bounds (y m d : Z) :
  calendar_date y m d = true -> 1 <= y <= 9999 /\ 1 <= m <= 12 /\ 1 <= d <= 31.
Proof.
  unfold calendar_date. intros H.
  do 5 (apply andb_prop in H as [H ?]).
  pose proof (month_length_bound y m). lia.
Qed.

Lemma digit_bounds (c : ascii) :
  Text.is_digit c = true -> 0 <= Text.digit_val c <= 9.
Proof. unfold Text.is_digit, Text.digit_val. lia. Qed.

Lemma digit_val_injective (a b : ascii) :
  Text.digit_val a = Text.digit_val b -> a = b.
Proof. unfold Text.digit_val. intros H. apply code_injective. lia. Qed.

(** The text the date formatter writes for a calendar date, character by
    character. *)
Lemma isoformat_spelled (y m d : Z) :
  calendar_date y m d = true ->
  exists y1 y2 y3 y4 m1 m2 d1 d2,
    Datetime.isoformat (Datetime.mkdate y m d)
    = String y1 (String y2 (String y3 (String y4 (String "-"
        (String m1 (String m2 (String "-" (String d1 (String d2
           EmptyString)))))))))
    /\ Text.is_digit y1 = true /\ Text.is_digit y2 = true
    /\ Text.is_digit y3 = true /\ Text.is_digit y4 = true
    /\ Text.is_digit m1 = true /\ Text.is_digit m2 = true
    /\ Text.is_digit d1 = true /\ Text.is_digit d2 = true
    /\ number_of (String y1 (String y2 (String y3 (String y4 EmptyString)))) = y
    /\ number_of (String m1 (String m2 EmptyString)) = m
    /\ number_of (String d1 (String d2 EmptyString)) = d.
Proof.
  intros Hc. destruct (calendar_date_bounds y m d Hc) as (Hy & Hm & Hd).
  pose proof (pad4_spelled y Hy) as H4.
  pose proof (pad2_spelled m ltac:(lia)) as H2m.
  pose proof (pad2_spelled d ltac:(lia)) as H2d.
  unfold four_digits_of in H4. unfold two_digits_of in H2m, H2d.
  unfold Datetime.isoformat. cbn [Datetime.year Datetime.month Datetime.day].
  destruct (Text.pad4 y) as [|y1 [|y2 [|y3 [|y4 [|? ?]]]]]; try discriminate H4.
  destruct (Text.pad2 m) as [|m1 [|m2 [|? ?]]]; try discriminate H2m.
  destruct (Text.pad2 d) as [|d1 [|d2 [|? ?]]]; try discriminate H2d.
  do 4 (apply andb_prop in H4 as [H4 ?]).
  do 2 (apply andb_prop in H2m as [H2m ?]).
  do 2 (apply andb_prop in H2d as [H2d ?]).
  exists y1, y2, y3, y4, m1, m2, d1, d2.
  repeat split; try assumption; try reflexivity; apply Z.eqb_eq; assumption.
Qed.

Section DateRoundTrip.

Context {R : Runtime}.

(** X15. The text that the handlers write for a date ([str] of the date)
    is read back by the date parser as the same date: for every date of
    the calendar in the years 1 to 9999 the text is in YYYY-MM-DD form and
    parses to the date it was written from. *)
Theorem date_round_trip (y m d : Z) (field : string) :
  calendar_date y m d = true ->
  yyyy_mm_dd_form (Datetime.isoformat (Datetime.mkdate y m d)) = true
  /\ Datetime.fromisoformat (Datetime.isoformat (Datetime.mkdate y m d))
     = Some (Datetime.mkdate y m d)
  /\ _parse_date (VStr (Datetime.isoformat (Datetime.mkdate y m d))) field
     = Return (Datetime.mkdate y m d).
Proof.
  intros Hc.
  destruct (isoformat_spelled y m d Hc)
    as (y1 & y2 & y3 & y4 & m1 & m2 & d1 & d2 & Es & Hy1 & Hy2 & Hy3 & Hy4
        & Hm1 & Hm2 & Hd1 & Hd2 & Ny & Nm & Nd).
  assert (Hform : yyyy_mm_dd_form (Datetime.isoformat (Datetime.mkdate y m d)) = true).
  { rewrite Es. unfold yyyy_mm_dd_form.
    rewrite Hy1, Hy2, Hy3, Hy4, Hm1, Hm2, Hd1, Hd2. reflexivity. }
  assert (Hparse : Datetime.fromisoformat (Datetime.isoformat (Datetime.mkdate y m d))
                   = Some (Datetime.mkdate y m d)).
  { rewrite (fromisoformat_yyyy_mm_dd _ Hform). rewrite Es.
    unfold ymd_fields. cbn [String.substring].
    rewrite Ny, Nm, Nd, Hc. reflexivity. }
  split; [exact Hform|]. split; [exact Hparse|].
  rewrite (parse_date_text _ field (form_not_empty _ Hform)), Hparse. reflexivity.
Qed.

(** X16. A date sent in YYYY-MM-DD form is echoed as it was sent: when
    the parser accepts the text, the text written for the parsed date is
    the text itself. *)
Theorem date_text_kept (s : string) (field : string) (dt : Datetime.date) :
  yyyy_mm_dd_form s = true ->
  _parse_date (VStr s) field = Return dt ->
  Datetime.isoformat dt = s.
Proof.
  intros Hform Hp.
  rewrite (parse_date_text s field (form_not_empty s Hform)) in Hp.
  pose proof (fromisoformat_yyyy_mm_dd s Hform) as Hiso.
  destruct (ymd_fields s) as [[y m] d] eqn:Ef.
  cbv beta iota in Hiso. rewrite Hiso in Hp.
  destruct (calendar_date y m d) eqn:Hc; [|discriminate Hp].
  injection Hp as <-.
  destruct (isoformat_spelled y m d Hc)
    as (y1 & y2 & y3 & y4 & m1 & m2 & d1 & d2 & Es & Hy1 & Hy2 & Hy3 & Hy4
        & Hm1 & Hm2 & Hd1 & Hd2 & Ny & Nm & Nd).
  rewrite Es.
  destruct s as [|a1 [|a2 [|a3 [|a4 [|s1 [|b1 [|b2 [|s2 [|c1 [|c2 [|? ?]]]]]]]]]]];
    try discriminate Hform.
  unfold yyyy_mm_dd_form in Hform.
  do 9 (apply andb_prop in Hform as [Hform ?]).
  repeat match goal with
         | E : Ascii.eqb ?x _ = true |- _ => apply Ascii.eqb_eq in E; subst x
         end.
  unfold ymd_fields in Ef. cbn [String.substring] in Ef.
  injection Ef as Ey Em Ed.
  unfold number_of in Ny, Nm, Nd, Ey, Em, Ed.
  cbn [list_ascii_of_string fold_left] in Ny, Nm, Nd, Ey, Em, Ed.
  repeat match goal with
         | D : Text.is_digit _ = true |- _ => apply digit_bounds in D
         end.
  assert (Text.digit_val y1 = Text.digit_val a1) by lia.
  assert (Text.digit_val y2 = Text.digit_val a2) by lia.
  assert (Text.digit_val y3 = Text.digit_val a3) by lia.
  assert (Text.digit_val y4 = Text.digit_val a4) by lia.
  assert (Text.digit_val m1 = Text.digit_val b1) by lia.
  assert (Text.digit_val m2 = Text.digit_val b2) by lia.
  assert (Text.digit_val d1 = Text.digit_val c1) by lia.
  assert (Text.digit_val d2 = Text.digit_val c2) by lia.
  repeat match goal with
         | E : Text.digit_val ?x = Text.digit_val _ |- _ =>
             apply digit_val_injective in E; subst x
         end.
  reflexivity.
Qed.

End DateRoundTrip.

(** ** E-mail addresses *)

Lemma email_char_iff (c : ascii) :
  email_char c = true <-> c <> "@"%char /\ Text.isspace c = false.
Proof.
  unfold email_char. rewrite andb_true_iff, !negb_true_iff.
  split; intros [H1 H2]; (split; [|exact H2]).
  - apply Ascii.eqb_neq. exact H1.
  - apply Ascii.eqb_neq. exact H1.
Qed.

Lemma all_email_chars_iff (s : string) :
  all_email_chars s = true
  <-> Forall (fun c => c <> "@"%char /\ Text.isspace c = false)
        (list_ascii_of_string s).
Proof.
  induction s as [|c s IH]; simpl.
  - split; [constructor | reflexivity].
  - rewrite andb_true_iff, email_char_iff, IH. split.
    + intros [Hc Hs]. constructor; assumption.
    + intros H. inversion H; subst. split; assumption.
Qed.

Lemma all_email_chars_app (a b : string) :
  all_email_chars (a ++ b) = all_email_chars a && all_email_chars b.
Proof.
  induction a as [|c a IH]; simpl; [reflexivity|].
  rewrite IH, andb_assoc. reflexivity.
Qed.

Lemma email_part_iff (s : string) :
  email_part s <-> String.eqb s "" = false /\ all_email_chars s = true.
Proof.
  unfold email_part. rewrite all_email_chars_iff, String.eqb_neq. reflexivity.
Qed.

Lemma split_at_sound (s a b : string) :
  split_at s = Some (a, b) -> s = a ++ String "@" b.
Proof.
  revert a. induction s as [|c s IH]; simpl; intros a H; [discriminate|].
  destruct (Ascii.eqb_spec c "@"%char) as [-> | Hc].
  - injection H as <- <-. reflexivity.
  - destruct (split_at s) as [[a' b']|]; [|discriminate].
    injection H as <- <-. simpl. rewrite (IH a' eq_refl). reflexivity.
Qed.

Lemma split_at_first (a b : string) :
  all_email_chars a = true -> split_at (a ++ String "@" b) = Some (a, b).
Proof.
  induction a as [|c a IH]; simpl; intros H; [reflexivity|].
  apply andb_prop in H as [Hc Ha].
  apply email_char_iff in Hc as [Hc _]. apply Ascii.eqb_neq in Hc.
  rewrite Hc, (IH Ha). reflexivity.
Qed.

Lemma inner_dot_sound (s : string) (seen : bool) :
  has_inner_dot s seen = true ->
  exists d t, s = d ++ String "." t /\ t <> ""
              /\ (seen = true \/ d <> "").
Proof.
  revert seen. induction s as [|c s IH]; simpl; intros seen H; [discriminate|].
  apply orb_prop in H as [H | H].
  - apply andb_prop in H as [H Ht]. apply andb_prop in H as [Hs Hc].
    apply Ascii.eqb_eq in Hc. subst c.
    exists "", s. repeat split.
    + apply negb_true_iff in Ht. apply String.eqb_neq. exact Ht.
    + left. exact Hs.
  - destruct (IH true H) as (d & t & -> & Ht & _).
    exists (String c d), t. repeat split; [exact Ht | right; discriminate].
Qed.

Lemma inner_dot_complete (d t : string) (seen : bool) :
  t <> "" -> seen = true \/ d <> "" ->
  has_inner_dot (d ++ String "." t) seen = true.
Proof.
  intros Ht. revert seen. induction d as [|c d IH]; intros seen Hs.
  - destruct Hs as [-> | Hd]; [|congruence].
    simpl. apply String.eqb_neq in Ht. rewrite Ht. reflexivity.
  - change (String c d ++ String "." t) with (String c (d ++ String "." t)).
    cbn [has_inner_dot]. rewrite (IH true (or_introl eq_refl)).
    apply orb_true_r.
Qed.

Lemma email_shape_iff (s : string) : email_shape s = true <-> email_text s.
Proof.
  unfold email_shape, email_text. split.
  - destruct (split_at s) as [[l rest]|] eqn:Es; [|discriminate].
    intros H. apply andb_prop in H as [H Hdot].
    apply andb_prop in H as [H Hrest]. apply andb_prop in H as [Hne Hl].
    apply negb_true_iff in Hne.
    destruct (inner_dot_sound rest false Hdot) as (d & t & -> & Ht & Hd).
    destruct Hd as [Hd | Hd]; [discriminate|].
    rewrite all_email_chars_app in Hrest. apply andb_prop in Hrest as [Hdc Htc].
    cbn [all_email_chars] in Htc. apply andb_prop in Htc as [_ Htc].
    exists l, d, t. split; [apply (split_at_sound s l _ Es)|].
    rewrite !email_part_iff. rewrite <- !String.eqb_neq in *. auto.
  - intros (l & d & t & -> & Hl & Hd & Ht).
    apply email_part_iff in Hl as [Hl Hlc].
    apply email_part_iff in Hd as [Hd Hdc].
    apply email_part_iff in Ht as [Ht Htc].
    change (l ++ "@" ++ d ++ "." ++ t) with (l ++ String "@" (d ++ String "." t)).
    rewrite (split_at_first l _ Hlc), Hl, Hlc.
    rewrite all_email_chars_app, Hdc. cbn [all_email_chars].
    rewrite Htc. apply String.eqb_neq in Hd, Ht.
    rewrite (inner_dot_complete d t false Ht (or_intror Hd)). reflexivity.
Qed.

Lemma chop_newline_sound (s s' : string) :
  chop_newline s = Some s' -> s = s' ++ LF.
Proof.
  revert s'. induction s as [|c s IH]; intros s' H; [discriminate|].
  destruct s as [|c' s0].
  - simpl in H. destruct (Ascii.eqb_spec c (Text.chr 10)) as [-> | _];
      [|discriminate]. injection H as <-. reflexivity.
  - cbn [chop_newline] in H. cbn [chop_newline] in IH.
    destruct (match s0 with
              | EmptyString =>
                  if Ascii.eqb c' (Text.chr 10) then Some EmptyString else None
              | String _ _ =>
                  match chop_newline s0 with
                  | Some r => Some (String c' r)
                  | None => None
                  end
              end) as [r|]; [|discriminate].
    injection H as <-. rewrite (IH r eq_refl). reflexivity.
Qed.

Lemma chop_newline_complete (s' : string) : chop_newline (s' ++ LF) = Some s'.
Proof.
  induction s' as [|c s IH]; [reflexivity|].
  change (String c s ++ LF) with (String c (s ++ LF)).
  cbn [chop_newline]. rewrite IH.
  destruct (s ++ LF) eqn:E; [|reflexivity].
  destruct s; discriminate E.
Qed.

Section Emails.

Context {R : Runtime}.

(** X17. The e-mail validator returns its argument unchanged, and it
    accepts exactly the texts of the form local@domain.tld, where each of
    the three parts is non-empty and has no at sign and no whitespace,
    optionally followed by one final newline (which is kept in the value
    returned). Anything that is not a text is rejected. *)
Theorem email_accepted_iff (v : value) (s : string) :
  _validate_email v = Return s
  <-> v = VStr s
      /\ (email_text s \/ exists s', s = s' ++ LF /\ email_text s').
Proof.
  unfold _validate_email, _EMAIL_RE_match. split.
  - destruct v as [ | | | | t | | | | ]; try discriminate.
    destruct (email_shape t) eqn:Hs.
    + intros H. injection H as <-. split; [reflexivity|].
      left. apply email_shape_iff. exact Hs.
    + destruct (chop_newline t) as [t'|] eqn:Hc; [|discriminate].
      destruct (email_shape t') eqn:Hs'; [|discriminate].
      intros H. injection H as <-. split; [reflexivity|].
      right. exists t'. split; [apply chop_newline_sound; exact Hc|].
      apply email_shape_iff. exact Hs'.
  - intros [-> [Ht | (s' & -> & Ht)]].
    + apply email_shape_iff in Ht. rewrite Ht. reflexivity.
    + rewrite chop_newline_complete.
      apply email_shape_iff in Ht. rewrite Ht, orb_true_r. reflexivity.
Qed.

End Emails.

(** ** Rows *)

Lemma dict_get_set_same (r : list (string * value)) (k : string) (v : value) :
  dict_get (dict_set r k v) k = Some v.
Proof.
  induction r as [|[k0 v0] r IH]; simpl.
  - rewrite String.eqb_refl. reflexivity.
  - destruct (String.eqb k0 k) eqn:H0; simpl.
    + rewrite String.eqb_refl. reflexivity.
    + rewrite H0. exact IH.
Qed.

Lemma dict_set_keys (r : list (string * value)) (k : string) (v v0 : value) :
  dict_get r k = Some v0 -> map fst (dict_set r k v) = map fst r.
Proof.
  induction r as [|[k1 v1] r IH]; simpl; [discriminate|].
  destruct (String.eqb_spec k1 k) as [-> | Hk]; simpl.
  - reflexivity.
  - intros H. rewrite (IH H). reflexivity.
Qed.

Lemma dict_set_length (r : list (string * value)) (k : string) (v v0 : value) :
  dict_get r k = Some v0 -> List.length (dict_set r k v) = List.length r.
Proof.
  intros H. rewrite <- (length_map fst (dict_set r k v)), (dict_set_keys r k v v0 H).
  apply length_map.
Qed.

(** X19. Turning the date column of a row into text keeps the keys of the
    row and their order, leaves every other cell as it was, replaces a
    date by its ISO text and a datetime by its [str], leaves a row without
    a date under the key untouched, and is idempotent. *)
Theorem stringify_date_invariants (k : string) (r : list (string * value)) :
  map fst (stringify_date k r) = map fst r
  /\ (forall k', k' <> k -> dict_get (stringify_date k r) k' = dict_get r k')
  /\ match dict_get r k with
     | Some (VDate d) =>
         dict_get (stringify_date k r) k = Some (VStr (Datetime.isoformat d))
     | Some (VDateTime t) => dict_get (stringify_date k r) k = Some (VStr t)
     | _ => stringify_date k r = r
     end
  /\ stringify_date k (stringify_date k r) = stringify_date k r.
Proof.
  split; [|split; [|split]].
  - unfold stringify_date.
    destruct (dict_get r k) as [[]|] eqn:E; try reflexivity;
      apply (dict_set_keys r k _ _ E).
  - intros k' Hk. apply stringify_keeps. apply String.eqb_neq. congruence.
  - unfold stringify_date.
    destruct (dict_get r k) as [[]|]; try reflexivity; apply dict_get_set_same.
  - unfold stringify_date at 1.
    destruct (dict_get (stringify_date k r) k) as [[]|] eqn:E; try reflexivity;
      exfalso; unfold stringify_date in E;
      destruct (dict_get r k) as [[]|] eqn:E0; try congruence;
      rewrite dict_get_set_same in E; discriminate E.
Qed.

Lemma dict_set_fresh (d : list (string * value)) (k : string) (v : value) :
  ~ In k (map fst d) -> dict_set d k v = (d ++ [(k, v)])%list.
Proof.
  induction d as [|[k0 v0] d IH]; simpl; intros H; [reflexivity|].
  destruct (String.eqb_spec k0 k) as [-> | Hk]; [tauto|].
  rewrite IH by tauto. reflexivity.
Qed.

Lemma dict_of_distinct (pairs acc : list (string * value)) :
  NoDup (map fst (acc ++ pairs)) ->
  fold_left (fun d kv => dict_set d (fst kv) (snd kv)) pairs acc
  = (acc ++ pairs)%list.
Proof.
  revert acc. induction pairs as [|[k v] pairs IH]; intros acc H; simpl.
  - rewrite app_nil_r. reflexivity.
  - assert (Hfresh : ~ In k (map fst acc)).
    { rewrite map_app in H. simpl in H. apply NoDup_remove_2 in H.
      intros Hin. apply H. apply in_or_app. left. exact Hin. }
    rewrite (dict_set_fresh acc k v Hfresh).
    rewrite IH; rewrite <- app_assoc; [reflexivity | exact H].
Qed.

Lemma combine_keys_distinct (cols : list string) (row : list value) :
  NoDup cols -> NoDup (map fst (combine cols row)).
Proof.
  revert row. induction cols as [|c cols IH]; intros row H; [constructor|].
  destruct row as [|x row]; [constructor|].
  simpl. inversion H as [|? ? Hnotin Hrest]; subst. constructor.
  - intros Hin. apply Hnotin. clear - Hin.
    revert row Hin. induction cols as [|c' cols IH]; intros row Hin; [destruct Hin|].
    destruct row as [|y row]; [destruct Hin|].
    simpl in Hin. destruct Hin as [-> | Hin]; [left; reflexivity|].
    right. apply (IH row Hin).
  - apply IH. exact Hrest.
Qed.

Section RowsAndSettings.

Context {R : Runtime}.

(** X20. The first row [_fetchone_dict] returns is the head of the rows
    [_fetchall_dict] returns. Rows that the cursor hands out as
    dictionaries are returned as they are; rows handed out as tuples are
    paired with the column names of the cursor, cell by cell and in column
    order, when the column names are distinct. *)
Theorem fetch_rows_as_dicts (cur : cursor) :
  _fetchone_dict cur = hd_error (_fetchall_dict cur)
  /\ (forall rows, fetched cur = DictRows rows -> _fetchall_dict cur = rows)
  /\ (forall rows,
        fetched cur = TupleRows rows ->
        NoDup (description cur) ->
        _fetchall_dict cur = map (combine (description cur)) rows).
Proof.
  unfold _fetchone_dict, _fetchall_dict. split; [|split].
  - destruct (fetched cur) as [[|row rows] | [|row rows]]; reflexivity.
  - intros rows ->. reflexivity.
  - intros rows -> Hcols. apply map_ext. intros row.
    unfold dict_of. apply (dict_of_distinct (combine (description cur) row) []).
    apply combine_keys_distinct. exact Hcols.
Qed.

(** X21. The format selector returns json when the parameter is absent or
    empty, rejects a non-empty value made of whitespace only, and never
    returns anything but the two names json and xml (the raw value is
    never passed on). *)
Theorem format_selection (req : request) :
  (args_get (args req) "format" = None \/ args_get (args req) "format" = Some ""
   -> _get_format req = Return "json")
  /\ (forall v,
        args_get (args req) "format" = Some v -> v <> "" -> Text.blank v = true ->
        _get_format req = Raise (BadRequest "format must be 'json' or 'xml'"))
  /\ (forall fmt, _get_format req = Return fmt -> fmt = "json" \/ fmt = "xml").
Proof.
  split; [|split].
  - intros [H | H]; unfold _get_format; rewrite H; reflexivity.
  - intros v Hv Hne Hb. unfold _get_format. rewrite Hv.
    apply String.eqb_neq in Hne. rewrite Hne, (strip_blank v Hb). reflexivity.
  - intros fmt Hf.
    destruct (get_format_cases req) as [(f & Hf' & Hc) | Hr]; congruence.
Qed.

(** X22. With the same environment when config.py is imported and when
    the application is created, the overrides of [create_app] change no
    setting: each text setting is the environment variable when it is set
    (even to the empty text) and the default of config.py otherwise, and
    each numeric setting is the integer read from the variable, or the
    default. Reading a numeric setting can only fail as a ValueError. *)
Theorem settings_from_environment :
  JWT_SECRET_KEY = os_getenv "JWT_SECRET_KEY" "your_jwt_secret_key"
  /\ API_USERNAME = os_getenv "API_USERNAME" "admin"
  /\ API_PASSWORD = os_getenv "API_PASSWORD" "password"
  /\ MYSQL_USER = os_getenv "MYSQL_USER" "root"
  /\ MYSQL_PASSWORD = os_getenv "MYSQL_PASSWORD" "root123"
  /\ MYSQL_HOST = os_getenv "MYSQL_HOST" "localhost"
  /\ MYSQL_DB = os_getenv "MYSQL_DB" "hanz_sales_db"
  /\ MYSQL_POOL_NAME = os_getenv "MYSQL_POOL_NAME" "mypool"
  /\ MYSQL_PORT
     = match getenv "MYSQL_PORT" with
       | Some s => Builtins.int_str s
       | None => Converted 3306
       end
  /\ MYSQL_POOL_SIZE
     = match getenv "MYSQL_POOL_SIZE" with
       | Some s => Builtins.int_str s
       | None => Converted 5
       end
  /\ MYSQL_PORT <> TypeErr /\ MYSQL_PORT <> OverflowErr
  /\ MYSQL_POOL_SIZE <> TypeErr /\ MYSQL_POOL_SIZE <> OverflowErr.
Proof.
  assert (Henv : forall name default,
            _env name (os_getenv name default) = os_getenv name default).
  { intros name default. unfold _env, os_getenv.
    destruct (getenv name); reflexivity. }
  assert (Hint : forall name default,
            create_app_int name default
            = match getenv name with
              | Some s => Builtins.int_str s
              | None => Converted default
              end).
  { intros name default. unfold create_app_int, Config_int.
    destruct (getenv name) as [s|]; [|reflexivity].
    destruct (Builtins.int_str s); reflexivity. }
  assert (Hno : forall s, Builtins.int_str s <> TypeErr).
  { intros s. unfold Builtins.int_str.
    destruct (match Builtins.int_rstrip (Builtins.int_lstrip s) with
              | String "+" r => (false, r)
              | String "-" r => (true, r)
              | _ => (false, Builtins.int_rstrip (Builtins.int_lstrip s))
              end) as [negative body0].
    destruct (Builtins.int_digits body0 true 0 0) as [[n digits]|];
      [destruct (Builtins.int_max_str_digits <? digits)|]; discriminate. }
  unfold JWT_SECRET_KEY, API_USERNAME, API_PASSWORD, Config_JWT_SECRET_KEY,
    Config_API_USERNAME, Config_API_PASSWORD, MYSQL_USER, MYSQL_PASSWORD,
    MYSQL_HOST, MYSQL_DB, MYSQL_POOL_NAME, MYSQL_PORT, MYSQL_POOL_SIZE.
  rewrite !Henv, !Hint.
  repeat split; try reflexivity.
  - destruct (getenv "MYSQL_PORT"); [apply Hno | discriminate].
  - destruct (getenv "MYSQL_PORT"); [apply int_str_no_overflow | discriminate].
  - destruct (getenv "MYSQL_POOL_SIZE"); [apply Hno | discriminate].
  - destruct (getenv "MYSQL_POOL_SIZE"); [apply int_str_no_overflow | discriminate].
Qed.

End RowsAndSettings.

(** ** More on the gate and on e-mail addresses *)

Lemma contains_at (l r : string) : Text.contains "@" (l ++ String "@" r) = true.
Proof.
  induction l as [|c l IH].
  - simpl. destruct r; reflexivity.
  - change (String c l ++ String "@" r) with (String c (l ++ String "@" r)).
    cbn [Text.contains]. rewrite IH. apply orb_true_r.
Qed.

Lemma email_text_has_at (s : string) : email_text s -> Text.contains "@" s = true.
Proof.
  intros (l & d & t & -> & _). apply contains_at.
Qed.

Lemma contains_app_r (sub s r : string) :
  Text.contains sub s = true -> Text.contains sub (s ++ r) = true.
Proof.
  assert (Hp : forall p a b, String.prefix p a = true -> String.prefix p (a ++ b) = true).
  { induction p as [|x p IHp]; intros a b H.
    - destruct (a ++ b); reflexivity.
    - destruct a as [|y a]; [discriminate H|]. simpl in *.
      destruct (ascii_dec x y); [apply IHp; exact H | discriminate H]. }
  induction s as [|c s IH]; intros H.
  - cbn [Text.contains] in H. rewrite orb_false_r in H.
    destruct sub; [|discriminate H].
    destruct r; reflexivity.
  - cbn [Text.contains] in H.
    change (String c s ++ r) with (String c (s ++ r)). cbn [Text.contains].
    apply orb_prop in H as [H | H].
    + change (String c (s ++ r)) with (String c s ++ r).
      rewrite (Hp _ _ r H). reflexivity.
    + rewrite (IH H). apply orb_true_r.
Qed.

Section GateAndEmail.

Context {R : Runtime}.

Lemma validate_email_without_at (s : string) :
  Text.contains "@" s = false ->
  _validate_email (VStr s) = Raise (BadRequest "email must be a valid email address").
Proof.
  intros Hno. unfold _validate_email.
  destruct (_EMAIL_RE_match s) eqn:Hm; [|reflexivity].
  exfalso. unfold _EMAIL_RE_match in Hm. apply orb_prop in Hm as [Hm | Hm].
  - apply email_shape_iff, email_text_has_at in Hm. congruence.
  - destruct (chop_newline s) as [s'|] eqn:Hc; [|discriminate Hm].
    apply email_shape_iff, email_text_has_at in Hm.
    apply chop_newline_sound in Hc. subst s.
    rewrite (contains_app_r _ _ LF Hm) in Hno. discriminate Hno.
Qed.

(** X18. POST /api/customers with an e-mail text that has no at sign is
    answered 400 'email must be a valid email address' and nothing is
    stored, the identifier and the two names being valid; the date is not
    looked at. *)
Theorem customer_email_without_at (req : request) (db : DB) (fmt : string)
  (n : Z) (first_name last_name s : string) :
  url_rule req = CreateOf Customers ->
  authorised req ->
  _get_format req = Return fmt ->
  id_field (get_json_or_empty req) "customer_id" = Some n ->
  text_field (get_json_or_empty req) "first_name" = Some first_name ->
  text_field (get_json_or_empty req) "last_name" = Some last_name ->
  body_get (get_json_or_empty req) "email" = Return (VStr s) ->
  Text.contains "@" s = false ->
  wsgi_app req db
  = (Return (error_envelope fmt "email must be a valid email address" 400), db).
Proof.
  intros Hr Hauth Hf Hid Hfirst Hlast Hemail Hno.
  apply id_field_sound in Hid as (v1 & ? & ?).
  apply text_field_sound in Hfirst as (v2 & ? & ? & ?).
  apply text_field_sound in Hlast as (v3 & ? & ? & ?).
  unfold wsgi_app, full_dispatch_request, try_except.
  rewrite (dispatch_authorised req db); [|rewrite Hr; reflexivity | exact Hauth].
  rewrite Hr. cbv beta iota zeta delta [endpoint create_customer].
  run_validation.
  rewrite (validate_email_without_at s Hno).
  cbv beta iota delta [bind lift handle_user_exception _bad_request].
  cbn [String.eqb Ascii.eqb Bool.eqb].
  rewrite (error_response_legal req fmt _ 400 Hf). reflexivity.
Qed.

(** X12. The gate has three outcomes only: the outcome of the view it
    protects, one of the three 401 answers (built on the storage state it
    was given), or the exception of the verifier that is no token error.
    In particular the list index of the header split never fails. *)
Theorem gate_outcomes (fn : view) (req : request) (db : DB) :
  require_jwt fn req db = fn req db
  \/ (exists message,
        In message ["Missing or invalid Authorization header"; "Token expired";
                    "Invalid token"]
        /\ require_jwt fn req db = (error_response req message 401 None, db))
  \/ (exists text, require_jwt fn req db = (Raise (PyJWTError text), db)).
Proof.
  rewrite require_jwt_gate.
  destruct (presented_token req) as [token|].
  - destruct (jwt_decode token JWT_SECRET_KEY) as [claims | | | t].
    + left. reflexivity.
    + right. left. eexists. split; [|reflexivity]. simpl. auto.
    + right. left. eexists. split; [|reflexivity]. simpl. auto.
    + right. right. exists t. reflexivity.
  - right. left. eexists. split; [|reflexivity]. simpl. auto.
Qed.

End GateAndEmail.

(** ** The contracts on the demo engine *)

(** POST /api/categories?format=xml with a new name is answered. *)
Lemma every_request_answered_witness :
  exists resp db',
    wsgi_app (R := Scenario.runtime) Scenario.create_tools Demo.db0 = (Return resp, db')
    /\ well_answered "xml" resp
    /\ In (status resp) [200; 201; 400; 401; 404; 409; 500]
    /\ header resp "Content-Type" = Some "application/xml; charset=utf-8".
Proof.
  exact (every_request_answered (R := Scenario.runtime) Scenario.create_tools
           Demo.db0 "xml" eq_refl).
Defined.

(** POST /api/categories with a name of blanks stores nothing. *)
Lemma invalid_body_not_stored_witness :
  exists message st,
    (st = 400 \/ (st = 500 /\ message = "Internal server error"))
    /\ wsgi_app (R := Scenario.runtime) Scenario.create_blank Demo.db0
       = (Return (error_envelope "json" message st), Demo.db0).
Proof.
  exact (invalid_body_not_stored (R := Scenario.runtime) Scenario.create_blank
           "json" Demo.db0
           (ex_intro _ Scenario.good_token
              (ex_intro _ Scenario.good_claims (conj eq_refl eq_refl)))
           eq_refl
           (or_introl (ex_intro _ Categories eq_refl))
           eq_refl).
Defined.


(** PUT /api/categories/2 renames the row. *)
Lemma update_contract_witness :
  exists items,
    wsgi_app (R := Scenario.runtime) Scenario.rename_two Demo.db0
    = (Return (encoded "json" (VDict items) 200 "response"),
       [(1, "Kitchen"); (2, "Yard")])
    /\ dict_get items "category_id" = Some (VInt 2)
    /\ Forall (fun member => echoes 2 [VStr "Yard"; VInt 2] (snd member)) items.
Proof.
  exact (update_contract (R := Scenario.runtime) Categories 2 Scenario.rename_two
           "json" "UPDATE categories SET category_name=%s WHERE category_id=%s"
           [VStr "Yard"; VInt 2] Demo.db0 [(1, "Kitchen"); (2, "Yard")]
           (mkcursor 1 0 [] (DictRows []))
           eq_refl
           (ex_intro _ Scenario.good_token
              (ex_intro _ Scenario.good_claims (conj eq_refl eq_refl)))
           eq_refl eq_refl eq_refl).
Defined.

(** GET /api/categories/2 *)
Lemma get_contract_witness :
  wsgi_app (R := Scenario.runtime) Scenario.get_two Demo.db0
  = (Return (encoded "json"
               (VDict [("category_id", VInt 2); ("category_name", VStr "Garden")])
               200 "response"), Demo.db0).
Proof.
  exact (get_contract (R := Scenario.runtime) Categories 2 Scenario.get_two "json"
           Demo.db0 Demo.db0
           (mkcursor 1 0 ["category_id"; "category_name"]
              (DictRows [Scenario.category_row (2, "Garden")]))
           eq_refl
           (ex_intro _ Scenario.good_token
              (ex_intro _ Scenario.good_claims (conj eq_refl eq_refl)))
           eq_refl eq_refl).
Defined.

(** GET /api/categories, the engine handing out tuples. *)
Lemma list_contract_witness :
  wsgi_app (R := Scenario.runtime) Scenario.list_all Demo.db0
  = (Return (encoded "json"
               (VDict [("items",
                        VList [VDict [("category_id", VInt 1);
                                      ("category_name", VStr "Kitchen")];
                               VDict [("category_id", VInt 2);
                                      ("category_name", VStr "Garden")]])])
               200 "response"), Demo.db0).
Proof.
  exact (list_contract (R := Scenario.runtime) Categories Scenario.list_all "json"
           Demo.db0 Demo.db0
           (mkcursor 2 0 ["category_id"; "category_name"]
              (TupleRows [[VInt 1; VStr "Kitchen"]; [VInt 2; VStr "Garden"]]))
           eq_refl
           (ex_intro _ Scenario.good_token
              (ex_intro _ Scenario.good_claims (conj eq_refl eq_refl)))
           eq_refl eq_refl).
Defined.

(** GET /api/categories while the database server is away. *)
Lemma read_failure_translated_witness :
  wsgi_app (R := Demo.offline) Scenario.list_all Demo.db0
  = (Return (error_envelope "json" "Database error" 500), Demo.db0).
Proof.
  exact (read_failure_translated (R := Demo.offline) Scenario.list_all "json"
           "SELECT category_id, category_name FROM categories ORDER BY category_id"
           "2006 MySQL server has gone away" [] Demo.db0 Demo.db0
           (ex_intro _ Scenario.good_token
              (ex_intro _ Scenario.good_claims (conj eq_refl eq_refl)))
           eq_refl eq_refl eq_refl).
Defined.

(** GET /api/sales/search?customer_id=abc *)
Lemma invalid_filter_not_searched_witness :
  exists message,
    first_complaint Scenario.search_abc all_filters = Some message
    /\ wsgi_app (R := Scenario.runtime) Scenario.search_abc Demo.db0
       = (Return (error_envelope "json" message 400), Demo.db0).
Proof.
  exact (invalid_filter_not_searched (R := Scenario.runtime) Scenario.search_abc
           "json" Demo.db0 eq_refl
           (ex_intro _ Scenario.good_token
              (ex_intro _ Scenario.good_claims (conj eq_refl eq_refl)))
           eq_refl eq_refl).
Defined.

(** POST /auth/login with the default credentials. *)
Lemma login_contract_witness :
  wsgi_app (R := Scenario.runtime) Scenario.login_admin Demo.db0
  = (Return (encoded "json"
               (VDict [("access_token", VStr "good");
                       ("token_type", VStr "Bearer");
                       ("expires_in", VInt 3600)]) 200 "response"), Demo.db0).
Proof.
  exact (login_contract (R := Scenario.runtime) Scenario.login_admin Demo.db0 "json"
           eq_refl eq_refl).
Defined.

(** GET /nowhere, and a method that /health does not allow. *)
Lemma routing_errors_witness :
  wsgi_app (R := Scenario.runtime) Scenario.nowhere Demo.db0
  = (Return (error_envelope "json" "Not found" 404), Demo.db0)
  /\ wsgi_app (R := Scenario.runtime) Scenario.patch_health Demo.db0
     = (Return (error_envelope "xml" "Internal server error" 500), Demo.db0).
Proof.
  split.
  - exact (proj1 (routing_errors (R := Scenario.runtime) Scenario.nowhere Demo.db0
                    "json" eq_refl) eq_refl).
  - exact (proj2 (routing_errors (R := Scenario.runtime) Scenario.patch_health
                    Demo.db0 "xml" eq_refl) eq_refl).
Defined.

(** The header 'Bearer   good  ' opens the gate as 'Bearer good' does. *)
Lemma gate_token_trimmed_witness :
  require_jwt (R := Scenario.runtime) (endpoint (ListOf Categories))
    Scenario.list_padded Demo.db0
  = endpoint (R := Scenario.runtime) (ListOf Categories) Scenario.list_padded Demo.db0.
Proof.
  exact (gate_token_trimmed (R := Scenario.runtime) (endpoint (ListOf Categories))
           Scenario.list_padded Demo.db0 "  " "good" "  "
           eq_refl eq_refl eq_refl eq_refl).
Defined.

(** POST /api/categories with the name '   '. *)
Lemma blank_name_required_witness :
  wsgi_app (R := Scenario.runtime) Scenario.create_blank Demo.db0
  = (Return (error_envelope "json" "category_name is required" 400), Demo.db0).
Proof.
  exact (blank_name_required (R := Scenario.runtime) Categories "category_name"
           Scenario.create_blank Demo.db0 "json" [("category_name", VStr "   ")]
           (or_introl eq_refl) eq_refl
           (ex_intro _ Scenario.good_token
              (ex_intro _ Scenario.good_claims (conj eq_refl eq_refl)))
           eq_refl eq_refl eq_refl).
Defined.


(** The 29th of February 2024. *)
Lemma date_round_trip_witness :
  yyyy_mm_dd_form (Datetime.isoformat (Datetime.mkdate 2024 2 29)) = true
  /\ Datetime.fromisoformat (Datetime.isoformat (Datetime.mkdate 2024 2 29))
     = Some (Datetime.mkdate 2024 2 29)
  /\ _parse_date (VStr (Datetime.isoformat (Datetime.mkdate 2024 2 29))) "sale_date"
     = Return (Datetime.mkdate 2024 2 29).
Proof.
  exact (date_round_trip 2024 2 29 "sale_date" eq_refl).
Defined.

(** The text 2023-01-01. *)
Lemma date_text_kept_witness :
  Datetime.isoformat (Datetime.mkdate 2023 1 1) = "2023-01-01".
Proof.
  exact (date_text_kept "2023-01-01" "signup_date" (Datetime.mkdate 2023 1 1)
           eq_refl eq_refl).
Defined.

(** The customer of the validation test, whose e-mail is 'not-an-email'. *)
Lemma customer_email_without_at_witness :
  wsgi_app (R := Scenario.runtime) Scenario.customer_bad_email Demo.db0
  = (Return (error_envelope "json" "email must be a valid email address" 400),
     Demo.db0).
Proof.
  exact (customer_email_without_at (R := Scenario.runtime)
           Scenario.customer_bad_email Demo.db0 "json" 999001 "Test" "User"
           "not-an-email" eq_refl
           (ex_intro _ Scenario.good_token
              (ex_intro _ Scenario.good_claims (conj eq_refl eq_refl)))
           eq_refl eq_refl eq_refl eq_refl eq_refl eq_refl).
Defined.

(* ================================================================== *)
(** * Login, the customer update and the seeding script *)

(** ** From login to the gate *)

Lemma strip_trimmed (w : string) : no_outer_space w = true -> Text.strip w = w.
Proof.
  intros Hw. unfold Text.strip. destruct w as [|a w']; [reflexivity|].
  unfold no_outer_space in Hw. apply andb_prop in Hw as [Ha Hlast].
  apply negb_true_iff in Ha. cbn [Text.lstrip]. rewrite Ha.
  apply rstrip_last_not_space. exact Hlast.
Qed.

Section IssuedToken.

Context {R : Runtime}.

Lemma presented_token_plain (req : request) (token : string) :
  authorization req = Some ("Bearer " ++ token) ->
  no_outer_space token = true ->
  presented_token req = Some token.
Proof.
  intros Ha Ht. unfold presented_token. rewrite Ha, prefix_app.
  replace (String.substring 7 (String.length ("Bearer " ++ token) - 7)
             ("Bearer " ++ token)) with token.
  - rewrite (strip_trimmed token Ht). reflexivity.
  - simpl. rewrite Nat.sub_0_r, substring_whole. reflexivity.
Qed.

Lemma credentials_match_sound (b : value) :
  credentials_match b = true ->
  exists items,
    b = VDict items
    /\ dict_get items "username" = Some (VStr API_USERNAME)
    /\ dict_get items "password" = Some (VStr API_PASSWORD).
Proof.
  unfold credentials_match.
  destruct b as [ | | | | | | | | items]; try discriminate.
  destruct (dict_get items "username") as [[ | | | | u | | | | ]|] eqn:Eu;
    try discriminate.
  destruct (dict_get items "password") as [[ | | | | p | | | | ]|] eqn:Ep;
    try discriminate.
  intros H. apply andb_prop in H as [Hu Hp].
  apply String.eqb_eq in Hu, Hp. subst u p. exists items. auto.
Qed.

(** X23. The token that login issues opens the gate. When the token
    library verifies, under the configured key and at the time of issue,
    the token a login signs, a login with the configured credentials is
    answered 200 with a token, and every request to a protected route that
    presents 'Bearer ' followed by that token reaches the handler of the
    route: login signs with the secret the gate verifies with. *)
Theorem issued_token_opens_gate (login_request : request) (db0 : DB)
  (fmt : string) :
  verifies_login_token ->
  url_rule login_request = Login ->
  _get_format login_request = Return fmt ->
  credentials_match (get_json_or_empty login_request) = true ->
  exists token,
    wsgi_app login_request db0
    = (Return (encoded fmt
                 (VDict [("access_token", VStr token);
                         ("token_type", VStr "Bearer");
                         ("expires_in", VInt 3600)]) 200 "response"), db0)
    /\ forall req db,
         login_required (url_rule req) = true ->
         authorization req = Some ("Bearer " ++ token) ->
         dispatch_request req db = endpoint (url_rule req) req db.
Proof.
  intros Hlaw Hr Hf Hc.
  destruct (credentials_match_sound _ Hc) as (items & Hb & Hu & Hp).
  exists (_generate_token API_USERNAME JWT_SECRET_KEY 60). split.
  - apply wsgi_app_answer. unfold dispatch_request, view_function.
    rewrite Hr. cbv beta iota zeta delta [login_required endpoint login].
    rewrite Hb. cbv beta iota delta [body_get]. rewrite !bind_lift_return.
    rewrite Hu, Hp. unfold differs. rewrite !String.eqb_refl.
    cbv beta iota delta [negb orb lift].
    rewrite (api_response_legal login_request fmt _ 200 "response" Hf).
    reflexivity.
  - intros req db Hp' Ha.
    rewrite (dispatch_protected req db Hp'), require_jwt_gate.
    destruct Hlaw as [(claims & Hd) Hs].
    change (_generate_token API_USERNAME JWT_SECRET_KEY 60)
      with (jwt_encode login_claims JWT_SECRET_KEY) in *.
    rewrite (presented_token_plain req _ Ha Hs), Hd. reflexivity.
Qed.

(** X24. The update of a customer checks the names first and the
    presence of the e-mail address and of the date next: a first or last
    name that trims to nothing is answered 400 'first_name and last_name
    are required' whatever the other members are, and with two names a
    missing or null email or signup_date is answered 400 'email and
    signup_date are required'. Nothing is stored in either case. *)
Theorem update_customer_checks (id : Z) (req : request) (db : DB) (fmt : string)
  (items : list (string * value)) (first_name last_name : string) :
  url_rule req = UpdateOf Customers id ->
  authorised req ->
  _get_format req = Return fmt ->
  get_json_or_empty req = VDict items ->
  or_empty_strip (match dict_get items "first_name" with Some v => v | None => VNone end)
  = Return first_name ->
  or_empty_strip (match dict_get items "last_name" with Some v => v | None => VNone end)
  = Return last_name ->
  (first_name = "" \/ last_name = "" ->
   wsgi_app req db
   = (Return (error_envelope fmt "first_name and last_name are required" 400), db))
  /\ (first_name <> "" -> last_name <> "" ->
      dict_get items "email" = None \/ dict_get items "email" = Some VNone
      \/ dict_get items "signup_date" = None
      \/ dict_get items "signup_date" = Some VNone ->
      wsgi_app req db
      = (Return (error_envelope fmt "email and signup_date are required" 400), db)).
Proof.
  intros Hr Hauth Hf Hb Hfirst Hlast.
  assert (Hrun : wsgi_app req db
                 = try_except
                     (try_except (update_customer id req) (handle_user_exception req))
                     (handle_exception req) db).
  { unfold wsgi_app, full_dispatch_request, try_except.
    rewrite (dispatch_authorised req db); [|rewrite Hr; reflexivity | exact Hauth].
    rewrite Hr. reflexivity. }
  split.
  - intros Hblank. rewrite Hrun.
    unfold try_except, update_customer. cbv zeta.
    rewrite Hb. cbv beta iota delta [body_get]. rewrite bind_lift_return.
    rewrite Hfirst, bind_lift_return, bind_lift_return, Hlast, !bind_lift_return.
    assert (Hc : String.eqb first_name "" || String.eqb last_name "" = true).
    { destruct Hblank as [-> | ->]; [reflexivity | apply orb_true_r]. }
    rewrite Hc. unfold lift.
    rewrite (error_response_legal req fmt _ 400 Hf). reflexivity.
  - intros Hn1 Hn2 Hmissing. rewrite Hrun.
    unfold try_except, update_customer. cbv zeta.
    rewrite Hb. cbv beta iota delta [body_get]. rewrite bind_lift_return.
    rewrite Hfirst, bind_lift_return, bind_lift_return, Hlast, !bind_lift_return.
    apply String.eqb_neq in Hn1, Hn2. rewrite Hn1, Hn2.
    cbn [orb].
    assert (Hc : is_None (match dict_get items "email" with
                          | Some v => v | None => VNone end)
                 || is_None (match dict_get items "signup_date" with
                             | Some v => v | None => VNone end) = true).
    { destruct Hmissing as [-> | [-> | [-> | ->]]];
        try reflexivity; apply orb_true_r. }
    rewrite Hc. unfold lift.
    rewrite (error_response_legal req fmt _ 400 Hf). reflexivity.
Qed.

End IssuedToken.

(** ** The seeding script *)

Lemma seed_dates_checked (days : Z) : 0 <= days <= 60 -> seed_date_ok days = true.
Proof.
  intros H.
  assert (Hall : forallb seed_date_ok (numbers_from 0 60) = true)
    by (vm_compute; reflexivity).
  rewrite forallb_forall in Hall. apply Hall.
  apply numbers_from_In. exact H.
Qed.

Lemma date_fields_equal (d d' : Datetime.date) :
  (Datetime.year d' =? Datetime.year d)
  && (Datetime.month d' =? Datetime.month d)
  && (Datetime.day d' =? Datetime.day d) = true ->
  d' = d.
Proof.
  destruct d as [y m dd], d' as [y' m' dd']. simpl. intros H.
  apply andb_prop in H as [H Hd]. apply andb_prop in H as [Hy Hm].
  apply Z.eqb_eq in Hy, Hm, Hd. subst. reflexivity.
Qed.

Lemma choice_fair (rnd : Random) (n : nat) (l : list value) :
  fair rnd -> l <> [] -> exists v, choice rnd n l = Finished v /\ In v l.
Proof.
  intros [Hc _] Hl. unfold choice.
  assert (Hlen : (0 < List.length l)%nat) by (destruct l; [congruence | simpl; lia]).
  specialize (Hc n (List.length l) Hlen).
  destruct (nth_error l (choice_index rnd n (List.length l))) as [v|] eqn:E.
  - exists v. split; [reflexivity | apply (nth_error_In _ _ E)].
  - apply nth_error_None in E. lia.
Qed.

(** One turn of the loop with a fair generator. *)
Lemma new_sale_row (rnd : Random) (i : nat) (sale_id : Z)
  (product_ids customer_ids region_ids : list value) :
  fair rnd ->
  product_ids <> [] -> customer_ids <> [] -> region_ids <> [] ->
  exists params,
    new_sale rnd i sale_id product_ids customer_ids region_ids = Finished params
    /\ seeded_row sale_id product_ids customer_ids region_ids params.
Proof.
  intros Hfair Hp Hc Hr. unfold new_sale.
  destruct (choice_fair rnd (3 * i) product_ids Hfair Hp) as (pid & -> & Hpid).
  destruct (choice_fair rnd (3 * i + 1) customer_ids Hfair Hc) as (cid & -> & Hcid).
  destruct (choice_fair rnd (3 * i + 2) region_ids Hfair Hr) as (rid & -> & Hrid).
  destruct Hfair as [_ Hint].
  pose proof (Hint (2 * i)%nat 0 60 ltac:(lia)) as Hdays.
  pose proof (Hint (2 * i + 1)%nat 1 10 ltac:(lia)) as Hq.
  pose proof (seed_dates_checked _ Hdays) as Hd. unfold seed_date_ok in Hd.
  destruct (date_add (Datetime.mkdate 2023 1 1) (randint rnd (2 * i) 0 60))
    as [d|]; [|discriminate Hd].
  do 4 (apply andb_prop in Hd as [Hd ?]).
  eexists. split; [reflexivity|].
  exists pid, cid, rid, d, (randint rnd (2 * i + 1) 1 10), (uniform_price rnd i).
  repeat split; try assumption; lia.
Qed.

Lemma new_sale_price (rnd : Random) (i : nat) (sale_id : Z)
  (product_ids customer_ids region_ids : list value) (row : list value) :
  new_sale rnd i sale_id product_ids customer_ids region_ids = Finished row ->
  price_of row = VFloat (uniform_price rnd i).
Proof.
  unfold new_sale.
  destruct (choice rnd (3 * i) product_ids); [|discriminate].
  destruct (choice rnd (3 * i + 1) customer_ids); [|discriminate].
  destruct (choice rnd (3 * i + 2) region_ids); [|discriminate].
  destruct (date_add _ _); [|discriminate].
  intros H. injection H as <-. reflexivity.
Qed.

Section SeedingScript.

Context {R0 : Runtime}.

Variable rnd : Random.

(** X27. One turn of the seeding loop, with a generator that keeps the
    promises of the [random] module, builds a row whose product, customer
    and region are taken from the lists read from the storage and whose
    quantity, date and price pass the validators of POST /api/sales: the
    quantity is an integer of at least 1, the date, written as text, is
    read back as the same date, and the price is a number. *)
Theorem seeded_row_passes_validation (i : nat) (sale_id : Z)
  (product_ids customer_ids region_ids : list value) :
  fair rnd ->
  product_ids <> [] -> customer_ids <> [] -> region_ids <> [] ->
  exists product_id customer_id region_id sale_date quantity price,
    new_sale rnd i sale_id product_ids customer_ids region_ids
    = Finished [VInt sale_id; product_id; VDate sale_date; VInt quantity;
                VFloat price; customer_id; region_id]
    /\ In product_id product_ids
    /\ In customer_id customer_ids
    /\ In region_id region_ids
    /\ _parse_int (VInt quantity) "quantity" (Some 1) = Return quantity
    /\ _parse_date (VStr (Datetime.isoformat sale_date)) "sale_date"
       = Return sale_date
    /\ _parse_decimal (VFloat price) "price" = Return price.
Proof.
  intros Hfair Hp Hc Hr. unfold new_sale.
  destruct (choice_fair rnd (3 * i) product_ids Hfair Hp) as (pid & -> & Hpid).
  destruct (choice_fair rnd (3 * i + 1) customer_ids Hfair Hc) as (cid & -> & Hcid).
  destruct (choice_fair rnd (3 * i + 2) region_ids Hfair Hr) as (rid & -> & Hrid).
  destruct Hfair as [_ Hint].
  pose proof (Hint (2 * i)%nat 0 60 ltac:(lia)) as Hdays.
  pose proof (Hint (2 * i + 1)%nat 1 10 ltac:(lia)) as Hq.
  pose proof (seed_dates_checked _ Hdays) as Hd. unfold seed_date_ok in Hd.
  destruct (date_add (Datetime.mkdate 2023 1 1) (randint rnd (2 * i) 0 60))
    as [d|]; [|discriminate Hd].
  apply andb_prop in Hd as [_ Hd].
  destruct (Datetime.fromisoformat (Datetime.isoformat d)) as [d'|] eqn:Hiso;
    [|discriminate Hd].
  apply date_fields_equal in Hd. subst d'.
  exists pid, cid, rid, d, (randint rnd (2 * i + 1) 1 10), (uniform_price rnd i).
  repeat split; try assumption.
  - unfold _parse_int. cbn [Builtins.int].
    destruct (Z.ltb_spec (randint rnd (2 * i + 1) 1 10) 1); [lia | reflexivity].
  - rewrite parse_date_text, Hiso; [reflexivity|].
    intros He. rewrite He in Hiso. discriminate Hiso.
Qed.

Lemma sales_rows_fresh (todo i : nat) (next_id : Z)
  (product_ids customer_ids region_ids : list value) :
  fair rnd -> priced rnd ->
  product_ids <> [] -> customer_ids <> [] -> region_ids <> [] ->
  List.length (sales_rows rnd todo i next_id product_ids customer_ids region_ids)
  = todo
  /\ fresh_sales (next_id - 1) product_ids customer_ids region_ids
       (sales_rows rnd todo i next_id product_ids customer_ids region_ids).
Proof.
  intros Hfair Hprice Hp Hc Hr. revert i next_id.
  induction todo as [|todo IH]; intros i next_id.
  - split; [reflexivity|]. intros j row Hj. destruct j; discriminate Hj.
  - cbn [sales_rows].
    destruct (new_sale_row rnd i next_id product_ids customer_ids region_ids
                Hfair Hp Hc Hr) as (params & Hnew & Hrow).
    rewrite Hnew. destruct (IH (S i) (next_id + 1)) as [Hlen Hrows].
    split; [simpl; rewrite Hlen; reflexivity|].
    intros j row Hj. destruct j as [|j].
    + injection Hj as <-.
      replace (next_id - 1 + 1 + Z.of_nat 0) with next_id by lia.
      split; [exact Hrow|].
      exists (uniform_price rnd i). split; [|apply Hprice].
      apply (new_sale_price rnd i next_id product_ids customer_ids region_ids).
      exact Hnew.
    + replace (next_id - 1 + 1 + Z.of_nat (S j))
        with (next_id + 1 - 1 + 1 + Z.of_nat j) by lia.
      apply Hrows. exact Hj.
Qed.

(** The turns of the loop on the recording storage. *)
Lemma insert_loop_trace (todo i : nat) (next_id : Z)
  (product_ids customer_ids region_ids : list value)
  (d d' : @DB R0) (log : list db_call) :
  fair rnd ->
  product_ids <> [] -> customer_ids <> [] -> region_ids <> [] ->
  stores d (sales_rows rnd todo i next_id product_ids customer_ids region_ids) d' ->
  exists d1,
    insert_loop (R := recording R0) rnd todo i next_id
      product_ids customer_ids region_ids (d, log)
    = (Finished tt,
       (d1, (log ++ inserts_of (sales_rows rnd todo i next_id product_ids
                                  customer_ids region_ids))%list))
    /\ db_commit d1 = (Done tt, d').
Proof.
  intros Hfair Hp Hc Hr.
  revert i next_id d log.
  induction todo as [|todo IH]; intros i next_id d log Hst.
  - exists d. split; [|exact Hst].
    simpl. unfold finish. rewrite app_nil_r. reflexivity.
  - cbn [sales_rows] in *.
    destruct (new_sale_row rnd i next_id product_ids customer_ids region_ids
                Hfair Hp Hc Hr) as (params & Hnew & Hrow).
    rewrite Hnew in *. destruct Hst as (cur & d1 & Hex & Hst).
    destruct (IH (S i) (next_id + 1) d1
                (log ++ [Statement insert_sales_fact params])%list Hst)
      as (d2 & Hrun & Hcommit).
    exists d2. split; [|exact Hcommit].
    cbn [insert_loop]. unfold sbind at 1. unfold pure. rewrite Hnew.
    unfold sbind at 1. unfold driver_step.
    cbn [db_execute recording fst snd]. rewrite Hex.
    rewrite Hrun. unfold inserts_of. cbn [map].
    rewrite <- app_assoc. reflexivity.
Qed.

End SeedingScript.

Section SeedingRuns.

Context {R0 : Runtime}.

Variable rnd : Random.

Lemma connect_step {A : Type} (d d1 : @DB R0) (log : list db_call)
  (k : unit -> Script (R := recording R0) A) :
  @db_connect R0 d = (Done tt, d1) ->
  sbind (R := recording R0) (driver_step db_connect) k (d, log)
  = k tt (d1, (log ++ [Connect])%list).
Proof.
  intros H. unfold sbind, driver_step. cbn [db_connect recording fst snd].
  rewrite H. reflexivity.
Qed.

Lemma execute_step {A : Type} (sql : string) (params : list value)
  (d d1 : @DB R0) (cur : cursor) (log : list db_call)
  (k : cursor -> Script (R := recording R0) A) :
  @db_execute R0 sql params d = (Done cur, d1) ->
  sbind (R := recording R0) (driver_step (db_execute sql params)) k (d, log)
  = k cur (d1, (log ++ [Statement sql params])%list).
Proof.
  intros H. unfold sbind, driver_step. cbn [db_execute recording fst snd].
  rewrite H. reflexivity.
Qed.

Lemma commit_step {A : Type} (d d1 : @DB R0) (log : list db_call)
  (k : unit -> Script (R := recording R0) A) :
  @db_commit R0 d = (Done tt, d1) ->
  sbind (R := recording R0) (driver_step db_commit) k (d, log)
  = k tt (d1, (log ++ [Commit])%list).
Proof.
  intros H. unfold sbind, driver_step. cbn [db_commit recording fst snd].
  rewrite H. reflexivity.
Qed.

Lemma pure_step {A B : Type} (a : A) (k : A -> Script (R := recording R0) B) :
  sbind (R := recording R0) (pure (Finished a)) k = k a.
Proof. reflexivity. Qed.

(** The script up to the comparison of the count with the minimum. *)
Lemma counted_run (min_count current port : Z) (db d : @DB R0)
  (rest : Z -> Script (R := recording R0) Z) :
  _make_app (R := R0) = Finished port ->
  counted db d current ->
  sbind (R := recording R0) (pure _make_app)
    (fun _ => sbind (driver_step db_connect)
       (fun _ => sbind (driver_step
                          (db_execute "SELECT COUNT(*) AS c FROM sales_fact" []))
          (fun cur => sbind (pure (fetchone_at cur "c"))
             (fun c => sbind (pure (to_int c))
                (fun current =>
                   if min_count <=? current then finish 0 else rest current)))))
    (db, [])
  = (if min_count <=? current then finish 0 else rest current)
      (d, [Connect; Statement "SELECT COUNT(*) AS c FROM sales_fact" []]).
Proof.
  intros Hport (d1 & cur & c & Hconn & Hex & Hrow & Hint).
  change (_make_app (R := recording R0)) with (_make_app (R := R0)).
  rewrite Hport, pure_step.
  rewrite (connect_step _ d1 _ _ Hconn). cbn [app].
  rewrite (execute_step _ _ _ _ cur _ _ Hex). cbn [app].
  rewrite Hrow, pure_step, Hint, pure_step. reflexivity.
Qed.

(** X25. When sales_fact already has the minimum number of rows, the
    seeding script returns 0 after the connection and the count: it sends
    no other statement, inserts nothing and commits nothing. *)
Theorem enough_sales_nothing_written (min_count current port : Z)
  (db d : @DB R0) :
  _make_app (R := R0) = Finished port ->
  counted db d current ->
  min_count <= current ->
  ensure_min_sales (R := recording R0) rnd min_count (db, [])
  = (Finished 0,
     (d, [Connect; Statement "SELECT COUNT(*) AS c FROM sales_fact" []])).
Proof.
  intros Hport Hcount Hle.
  unfold ensure_min_sales.
  rewrite (counted_run min_count current port db d (fun current => _) Hport Hcount).
  apply Z.leb_le in Hle. rewrite Hle. reflexivity.
Qed.

(** The script from the comparison to the test of the three lists. *)
Lemma surveyed_run (d d' : @DB R0) (m : Z) (log : list db_call)
  (product_ids customer_ids region_ids : list value)
  (rest : Z -> list value -> list value -> list value
          -> Script (R := recording R0) Z) :
  surveyed d d' m product_ids customer_ids region_ids ->
  sbind (R := recording R0)
    (driver_step (db_execute "SELECT MAX(sale_id) AS m FROM sales_fact" []))
    (fun cur => sbind (pure (fetchone_at cur "m"))
       (fun max_id => sbind (pure (to_int (por max_id (VInt 0))))
          (fun m => sbind (driver_step (db_execute "SELECT product_id FROM products" []))
             (fun cur => sbind (pure (fetchall_column cur "product_id"))
                (fun product_ids =>
                   sbind (driver_step
                            (db_execute "SELECT customer_id FROM customers" []))
                     (fun cur => sbind (pure (fetchall_column cur "customer_id"))
                        (fun customer_ids =>
                           sbind (driver_step
                                    (db_execute "SELECT region_id FROM regions" []))
                             (fun cur => sbind (pure (fetchall_column cur "region_id"))
                                (fun region_ids =>
                                   rest m product_ids customer_ids region_ids)))))))))
    (d, log)
  = rest m product_ids customer_ids region_ids
      (d', (log ++ [Statement "SELECT MAX(sale_id) AS m FROM sales_fact" [];
                    Statement "SELECT product_id FROM products" [];
                    Statement "SELECT customer_id FROM customers" [];
                    Statement "SELECT region_id FROM regions" []])%list).
Proof.
  intros (c2 & d3 & max_id & c3 & d4 & c4 & d5 & c5
          & H2 & Hmax & Hm & H3 & Hp & H4 & Hc & H5 & Hr).
  rewrite (execute_step _ _ _ _ c2 _ _ H2), Hmax, pure_step, Hm, pure_step.
  rewrite (execute_step _ _ _ _ c3 _ _ H3), Hp, pure_step.
  rewrite (execute_step _ _ _ _ c4 _ _ H4), Hc, pure_step.
  rewrite (execute_step _ _ _ _ c5 _ _ H5), Hr, pure_step.
  rewrite <- !app_assoc. reflexivity.
Qed.

(** X26. When rows are missing but there is no product, no customer or
    no region, the script stops with the RuntimeError 'Missing dimension
    data ...' after its five reads: it has inserted nothing and committed
    nothing. *)
Theorem missing_dimension_nothing_written (min_count current port m : Z)
  (db d d' : @DB R0) (product_ids customer_ids region_ids : list value) :
  _make_app (R := R0) = Finished port ->
  counted db d current ->
  current < min_count ->
  surveyed d d' m product_ids customer_ids region_ids ->
  product_ids = [] \/ customer_ids = [] \/ region_ids = [] ->
  ensure_min_sales (R := recording R0) rnd min_count (db, [])
  = (Stopped (ScriptRuntimeError
                "Missing dimension data (products/customers/regions). Load the schema seed first."),
     (d', seed_reads)).
Proof.
  intros Hport Hcount Hlt Hsurvey Hempty.
  unfold ensure_min_sales.
  rewrite (counted_run min_count current port db d (fun current => _) Hport Hcount).
  assert (Hgt : (min_count <=? current) = false) by (apply Z.leb_gt; exact Hlt).
  rewrite Hgt.
  rewrite (surveyed_run d d' m _ product_ids customer_ids region_ids
             (fun m product_ids customer_ids region_ids => _) Hsurvey).
  cbv beta.
  assert (He : (is_empty product_ids || is_empty customer_ids
                || is_empty region_ids) = true).
  { destruct Hempty as [-> | [-> | ->]]; cbn [is_empty];
      rewrite ?orb_true_r; reflexivity. }
  rewrite He. reflexivity.
Qed.

(** X28. When rows are missing and every dimension has a row, the script
    (with a generator that keeps the promises of [random], on a storage
    that, in the state the reads leave, accepts sales numbered from the
    greatest sale id plus 1 on and their commit) returns the number of
    missing rows, minimum minus count. After its five reads it sends
    exactly that many INSERT statements and then one commit, which the
    storage takes; the sale identifiers are consecutive from the greatest
    existing one plus 1 (from 1 for an empty table), and every row takes
    its product, customer and region from the lists read, with a quantity
    from 1 to 10, a date from January to March 2023 and a price from 10
    to 1500. *)
Theorem missing_sales_added (min_count current port m : Z)
  (db d d' : @DB R0) (product_ids customer_ids region_ids : list value) :
  fair rnd ->
  priced rnd ->
  _make_app (R := R0) = Finished port ->
  counted db d current ->
  current < min_count ->
  surveyed d d' m product_ids customer_ids region_ids ->
  product_ids <> [] -> customer_ids <> [] -> region_ids <> [] ->
  accepts_fresh_sales d' m product_ids customer_ids region_ids ->
  exists d'' rows,
    ensure_min_sales (R := recording R0) rnd min_count (db, [])
    = (Finished (min_count - current),
       (d'', (seed_reads ++ inserts_of rows ++ [Commit])%list))
    /\ stores d' rows d''
    /\ Z.of_nat (List.length rows) = min_count - current
    /\ forall j row,
         nth_error rows j = Some row ->
         sale_id_of row = VInt (m + 1 + Z.of_nat j)
         /\ seeded_row (m + 1 + Z.of_nat j) product_ids customer_ids region_ids row
         /\ exists price,
              price_of row = VFloat price /\ float_between 10 1500 price.
Proof.
  intros Hfair Hprice Hport Hcount Hlt Hsurvey Hp Hc Hr Hacc.
  destruct (sales_rows_fresh rnd (Z.to_nat (min_count - current)) 0 (m + 1)
              product_ids customer_ids region_ids Hfair Hprice Hp Hc Hr)
    as [Hlen Hfresh].
  replace (m + 1 - 1) with m in Hfresh by lia.
  destruct (Hacc _ Hfresh) as (d2 & Hst).
  destruct (insert_loop_trace rnd (Z.to_nat (min_count - current)) 0 (m + 1)
              product_ids customer_ids region_ids d' d2 seed_reads
              Hfair Hp Hc Hr Hst) as (d1 & Hloop & Hc2).
  exists d2, (sales_rows rnd (Z.to_nat (min_count - current)) 0 (m + 1)
                product_ids customer_ids region_ids).
  split; [|split; [exact Hst | split]].
  - unfold ensure_min_sales.
    rewrite (counted_run min_count current port db d (fun current => _)
               Hport Hcount).
    assert (Hgt : (min_count <=? current) = false) by (apply Z.leb_gt; exact Hlt).
    rewrite Hgt.
    rewrite (surveyed_run d d' m _ product_ids customer_ids region_ids
               (fun m product_ids customer_ids region_ids => _) Hsurvey).
    cbv beta zeta.
    assert (He : (is_empty product_ids || is_empty customer_ids
                  || is_empty region_ids) = false).
    { destruct product_ids; [congruence|]. destruct customer_ids; [congruence|].
      destruct region_ids; [congruence|]. reflexivity. }
    rewrite He.
    change ([Connect; Statement "SELECT COUNT(*) AS c FROM sales_fact" []] ++
            [Statement "SELECT MAX(sale_id) AS m FROM sales_fact" [];
             Statement "SELECT product_id FROM products" [];
             Statement "SELECT customer_id FROM customers" [];
             Statement "SELECT region_id FROM regions" []])%list
      with seed_reads.
    unfold sbind at 1. rewrite Hloop.
    rewrite (commit_step _ _ _ _ Hc2). unfold finish.
    rewrite <- app_assoc. reflexivity.
  - rewrite Hlen. lia.
  - intros j row Hj. destruct (Hfresh j row Hj) as [Hrow Hpr].
    split; [|split; assumption].
    destruct Hrow as (? & ? & ? & ? & ? & ? & -> & _). reflexivity.
Qed.

End SeedingRuns.

(** ** The further contracts on the demo engines *)

Lemma demo_verifies_login_token : verifies_login_token (R := Scenario.runtime).
Proof.
  split; [|reflexivity].
  exists Scenario.good_claims. reflexivity.
Qed.

(** The token of a login with the default credentials opens the gate. *)
Lemma issued_token_opens_gate_witness :
  exists token,
    wsgi_app (R := Scenario.runtime) Scenario.login_admin Demo.db0
    = (Return (encoded "json"
                 (VDict [("access_token", VStr token);
                         ("token_type", VStr "Bearer");
                         ("expires_in", VInt 3600)]) 200 "response"), Demo.db0)
    /\ forall req db,
         login_required (url_rule req) = true ->
         authorization req = Some ("Bearer " ++ token) ->
         dispatch_request (R := Scenario.runtime) req db
         = endpoint (R := Scenario.runtime) (url_rule req) req db.
Proof.
  exact (issued_token_opens_gate (R := Scenario.runtime) Scenario.login_admin
           Demo.db0 "json" demo_verifies_login_token eq_refl eq_refl eq_refl).
Defined.

(** PUT /api/customers/7 without an e-mail address. *)
Lemma update_customer_checks_witness :
  wsgi_app (R := Scenario.runtime) Scenario.update_without_email Demo.db0
  = (Return (error_envelope "json" "email and signup_date are required" 400),
     Demo.db0).
Proof.
  apply (proj2 (update_customer_checks (R := Scenario.runtime) 7
                  Scenario.update_without_email Demo.db0 "json"
                  [("first_name", VStr "Test"); ("last_name", VStr "User");
                   ("signup_date", VStr "2023-01-01")] "Test" "User"
                  eq_refl
                  (ex_intro _ Scenario.good_token
                     (ex_intro _ Scenario.good_claims (conj eq_refl eq_refl)))
                  eq_refl eq_refl eq_refl eq_refl)).
  - discriminate.
  - discriminate.
  - left. reflexivity.
Defined.

Lemma least_is_fair : fair SeedDemo.least.
Proof.
  split.
  - intros n len H. exact H.
  - intros n a b H. simpl. lia.
Qed.

Lemma seed_demo_counted (db : list Z) :
  counted (R0 := SeedDemo.runtime) db db (Z.of_nat (List.length db)).
Proof.
  exists db, (mkcursor 1 0 ["c"] (DictRows [[("c", VInt (Z.of_nat (List.length db)))]])),
    (VInt (Z.of_nat (List.length db))).
  repeat split; reflexivity.
Qed.

Lemma least_is_priced : priced SeedDemo.least.
Proof. intros n. simpl. lia. Qed.

Lemma existsb_eqb_absent (x : Z) (db : list Z) :
  (forall y, In y db -> y < x) -> existsb (Z.eqb x) db = false.
Proof.
  intros H. induction db as [|y db IH]; [reflexivity|].
  cbn [existsb]. rewrite IH by (intros z Hz; apply H; right; exact Hz).
  assert (y < x) by (apply H; left; reflexivity).
  destruct (Z.eqb_spec x y); [lia | reflexivity].
Qed.

(** The demo engine, whose key is the sale id, accepts sales numbered
    above every stored one. *)
Lemma seed_demo_accepts (db : list Z) (m : Z)
  (product_ids customer_ids region_ids : list value) :
  (forall y, In y db -> y <= m) ->
  accepts_fresh_sales (R0 := SeedDemo.runtime) db m
    product_ids customer_ids region_ids.
Proof.
  intros Hmax rows. revert db m Hmax.
  induction rows as [|row rows IH]; intros db m Hmax Hfresh.
  - exists db. reflexivity.
  - destruct (Hfresh O row eq_refl) as [Hrow _].
    destruct Hrow as (pid & cid & rid & sd & q & pr & -> & _).
    replace (m + 1 + Z.of_nat 0) with (m + 1) by lia.
    destruct (IH (db ++ [m + 1])%list (m + 1)) as (d' & Hst).
    + intros y Hy. apply in_app_or in Hy as [Hy | [<- | []]]; [|lia].
      specialize (Hmax y Hy). lia.
    + intros j r Hj.
      replace (m + 1 + 1 + Z.of_nat j) with (m + 1 + Z.of_nat (S j)) by lia.
      apply Hfresh. exact Hj.
    + exists d'. cbn [stores]. eexists. exists (db ++ [m + 1])%list.
      split; [|exact Hst].
      cbn [db_execute SeedDemo.runtime]. unfold SeedDemo.execute.
      cbn [String.eqb Ascii.eqb Bool.eqb].
      rewrite existsb_eqb_absent; [reflexivity|].
      intros y Hy. specialize (Hmax y Hy). lia.
Qed.

(** Three rows are stored and two are asked for. *)
Lemma enough_sales_nothing_written_witness :
  ensure_min_sales (R := recording SeedDemo.runtime) SeedDemo.least 2 ([1; 2; 3], [])
  = (Finished 0,
     ([1; 2; 3], [Connect; Statement "SELECT COUNT(*) AS c FROM sales_fact" []])).
Proof.
  apply (enough_sales_nothing_written (R0 := SeedDemo.runtime) SeedDemo.least
           2 3 3306 [1; 2; 3] [1; 2; 3]).
  - reflexivity.
  - exact (seed_demo_counted [1; 2; 3]).
  - lia.
Defined.

(** One row is stored, three are asked for and there is no product. *)
Lemma missing_dimension_nothing_written_witness :
  ensure_min_sales (R := recording SeedDemo.no_products) SeedDemo.least 3 ([7], [])
  = (Stopped (ScriptRuntimeError
                "Missing dimension data (products/customers/regions). Load the schema seed first."),
     ([7], seed_reads)).
Proof.
  apply (missing_dimension_nothing_written (R0 := SeedDemo.no_products)
           SeedDemo.least 3 1 3306 7 [7] [7] [7] [] [VInt 42] [VInt 5]).
  - reflexivity.
  - exists [7], (mkcursor 1 0 ["c"] (DictRows [[("c", VInt 1)]])), (VInt 1).
    repeat split; reflexivity.
  - lia.
  - unfold surveyed. do 8 eexists. repeat split; reflexivity.
  - left. reflexivity.
Defined.

(** The first turn of the loop with the generator that picks the first
    item and the least number: product 1 on the first of January. *)
Lemma seeded_row_passes_validation_witness :
  exists product_id customer_id region_id sale_date quantity price,
    new_sale SeedDemo.least 0 8 [VInt 1; VInt 2] [VInt 42] [VInt 5]
    = Finished [VInt 8; product_id; VDate sale_date; VInt quantity;
                VFloat price; customer_id; region_id]
    /\ In product_id [VInt 1; VInt 2]
    /\ In customer_id [VInt 42]
    /\ In region_id [VInt 5]
    /\ _parse_int (VInt quantity) "quantity" (Some 1) = Return quantity
    /\ _parse_date (VStr (Datetime.isoformat sale_date)) "sale_date"
       = Return sale_date
    /\ _parse_decimal (R := SeedDemo.runtime) (VFloat price) "price" = Return price.
Proof.
  apply (seeded_row_passes_validation (R0 := SeedDemo.runtime) SeedDemo.least
           0 8 [VInt 1; VInt 2] [VInt 42] [VInt 5]).
  - exact least_is_fair.
  - discriminate.
  - discriminate.
  - discriminate.
Defined.

(** One row with sale id 7 is stored and three are asked for: the rows 8
    and 9 are inserted and committed. *)
Lemma missing_sales_added_witness :
  exists d'' rows,
    ensure_min_sales (R := recording SeedDemo.runtime) SeedDemo.least 3 ([7], [])
    = (Finished (3 - 1), (d'', (seed_reads ++ inserts_of rows ++ [Commit])%list))
    /\ stores (R0 := SeedDemo.runtime) [7] rows d''
    /\ Z.of_nat (List.length rows) = 3 - 1
    /\ forall j row,
         nth_error rows j = Some row ->
         sale_id_of row = VInt (7 + 1 + Z.of_nat j)
         /\ seeded_row (7 + 1 + Z.of_nat j) [VInt 1; VInt 2] [VInt 42] [VInt 5] row
         /\ exists price,
              price_of row = VFloat price /\ float_between 10 1500 price.
Proof.
  apply (missing_sales_added (R0 := SeedDemo.runtime) SeedDemo.least
           3 1 3306 7 [7] [7] [7] [VInt 1; VInt 2] [VInt 42] [VInt 5]).
  - exact least_is_fair.
  - exact least_is_priced.
  - reflexivity.
  - exact (seed_demo_counted [7]).
  - lia.
  - unfold surveyed. do 8 eexists. repeat split; reflexivity.
  - discriminate.
  - discriminate.
  - discriminate.
  - apply seed_demo_accepts. intros y [<- | []]. lia.
Defined.

(* ================================================================== *)
(** * Numbers without a float *)

Section HugePrice.

Context {R : Runtime}.

(** X29. A price that is an integer too large for a float is not answered
    as bad input: on POST and PUT of a sale whose other members up to the
    price are valid, the conversion raises an OverflowError that the
    decimal parser does not catch, and the request is answered 500
    'Internal server error' instead of 400; nothing is stored. *)
Theorem unrepresentable_price_not_bad_input (req : request) (db : DB)
  (fmt : string) (n : Z) :
  (url_rule req = CreateOf Sales \/ exists id, url_rule req = UpdateOf Sales id) ->
  authorised req ->
  _get_format req = Return fmt ->
  (url_rule req = CreateOf Sales ->
   exists sale_id, id_field (get_json_or_empty req) "sale_id" = Some sale_id) ->
  (exists product_id, id_field (get_json_or_empty req) "product_id" = Some product_id) ->
  (exists sale_date, date_field (get_json_or_empty req) "sale_date" = Some sale_date) ->
  (exists quantity, id_field (get_json_or_empty req) "quantity" = Some quantity) ->
  body_get (get_json_or_empty req) "price" = Return (VInt n) ->
  float_of_int n = OverflowErr ->
  wsgi_app req db
  = (Return (error_envelope fmt "Internal server error" 500), db).
Proof.
  intros Hroute Hauth Hf Hsale (product_id & Hp) (sale_date & Hd) (quantity & Hq)
    Hprice Hfloat.
  apply id_field_sound in Hp as (v1 & ? & ?).
  apply date_field_sound in Hd as (v2 & ? & ? & ?).
  apply id_field_sound in Hq as (v3 & ? & ?).
  assert (Hdec : _parse_decimal (VInt n) "price"
                 = Raise (OverflowError "int too large to convert to float")).
  { unfold _parse_decimal. cbn [float]. rewrite Hfloat. reflexivity. }
  unfold wsgi_app, full_dispatch_request, try_except.
  rewrite (dispatch_authorised req db);
    [|destruct Hroute as [-> | (id & ->)]; reflexivity | exact Hauth].
  destruct Hroute as [Hr | (id & Hr)].
  - destruct (Hsale Hr) as (sale_id & Hs).
    apply id_field_sound in Hs as (v0 & ? & ?).
    rewrite Hr. cbv beta iota zeta delta [endpoint create_sale].
    run_validation. rewrite Hdec.
    cbv beta iota delta [bind lift handle_user_exception _unhandled].
    rewrite (error_response_legal req fmt _ 500 Hf). reflexivity.
  - rewrite Hr. cbv beta iota zeta delta [endpoint update_sale].
    run_validation. rewrite Hdec.
    cbv beta iota delta [bind lift handle_user_exception _unhandled].
    rewrite (error_response_legal req fmt _ 500 Hf). reflexivity.
Qed.

End HugePrice.

(** POST /api/sales with the price 10^400. *)
Lemma unrepresentable_price_not_bad_input_witness :
  wsgi_app (R := Scenario.bounded_floats) Scenario.sale_huge_price Demo.db0
  = (Return (error_envelope "json" "Internal server error" 500), Demo.db0).
Proof.
  apply (unrepresentable_price_not_bad_input (R := Scenario.bounded_floats)
           Scenario.sale_huge_price Demo.db0 "json" (10 ^ 400)).
  - left. reflexivity.
  - exists Scenario.good_token, Scenario.good_claims. split; reflexivity.
  - reflexivity.
  - intros _. exists 7. reflexivity.
  - exists 1. reflexivity.
  - exists (Datetime.mkdate 2023 2 1). reflexivity.
  - exists 2. reflexivity.
  - reflexivity.
  - reflexivity.
Defined.
